(** * Planner: scheduling engine of the production planner

    A shallow embedding of the scheduling core of the Planner application:
    - [calculateProductDurationOnLine] and [optimizeDaySchedulesOp] and the
      status clock of [src/contexts/AppDataContext.tsx];
    - [checkDropValidity] and [handleDragStart] of
      [src/components/gantt/GanttChart.tsx].

    Conventions of the embedding.
    - A JavaScript [Date] is its time value: milliseconds since the epoch, in
      [Z].  An ISO string held in a run ([startTime], [endTime]) is the
      instant it denotes, so [new Date(s).getTime()] and [toISOString] are
      the identity.
    - The local time zone is a fixed offset without daylight saving; the
      offset is taken to be zero, so the local getters read the UTC fields.
    - JavaScript numbers that hold minutes and quantities are integers in
      [Z]; the identifiers are strings.  A double holds an integer exactly
      up to 2^53 in magnitude, and sums and products of such integers are
      exact while they stay in that range: the properties that rest on the
      exact value of a sum say so. *)

From Stdlib Require Import ZArith List String Bool Lia Permutation Sorted.
Import ListNotations.
Open Scope Z_scope.

Set Implicit Arguments.

(** ** Dates *)

Module JsDate.

Definition msPerMinute : Z := 60000.
Definition msPerHour : Z := 3600000.
Definition msPerDay : Z := 86400000.

(** Days since the epoch of the instant's calendar day. *)
Definition epochDay (t : Z) : Z := t / msPerDay.

(** Proleptic Gregorian calendar: (year, month 1..12, day 1..31) of a day
    number. *)
Definition civilFromDays (days : Z) : Z * Z * Z :=
  let z := days + 719468 in
  let era := z / 146097 in
  let doe := z - era * 146097 in
  let yoe := (doe - doe / 1460 + doe / 36524 - doe / 146096) / 365 in
  let y := yoe + era * 400 in
  let doy := doe - (365 * yoe + yoe / 4 - yoe / 100) in
  let mp := (5 * doy + 2) / 153 in
  let d := doy - (153 * mp + 2) / 5 + 1 in
  let m := if mp <? 10 then mp + 3 else mp - 9 in
  ((if m <=? 2 then y + 1 else y), m, d).

Definition getFullYear (t : Z) : Z := fst (fst (civilFromDays (epochDay t))).
(** [getMonth] is zero-based. *)
Definition getMonth (t : Z) : Z := snd (fst (civilFromDays (epochDay t))) - 1.
Definition getDate (t : Z) : Z := snd (civilFromDays (epochDay t)).
(** 0 = Sunday; the epoch was a Thursday. *)
Definition getDay (t : Z) : Z := (epochDay t + 4) mod 7.
Definition getHours (t : Z) : Z := (t / msPerHour) mod 24.
Definition getMinutes (t : Z) : Z := (t / msPerMinute) mod 60.

(** [d.setHours(h, m, 0, 0)]: the day of [t] is kept, the time of day is
    replaced; out-of-range fields carry over as in JavaScript. *)
Definition setHours (t h m : Z) : Z :=
  epochDay t * msPerDay + h * msPerHour + m * msPerMinute.

(** [d.setSeconds(0, 0)]. *)
Definition setSeconds0 (t : Z) : Z := (t / msPerMinute) * msPerMinute.

(** [toDateString] prints weekday, month, day and year; two instants have
    the same string iff these four agree. *)
Definition toDateString (t : Z) : Z * Z * Z * Z :=
  (getDay t, getMonth t, getDate t, getFullYear t).

Definition sameDateString (a b : Z) : bool :=
  let '(w1, m1, d1, y1) := toDateString a in
  let '(w2, m2, d2, y2) := toDateString b in
  (w1 =? w2) && (m1 =? m2) && (d1 =? d2) && (y1 =? y2).

(** The test [a.getFullYear() === b.getFullYear() && a.getMonth() ===
    b.getMonth() && a.getDate() === b.getDate()]. *)
Definition sameYearMonthDate (a b : Z) : bool :=
  (getFullYear a =? getFullYear b) && (getMonth a =? getMonth b)
  && (getDate a =? getDate b).

(** [d.getHours() * 60 + d.getMinutes()]. *)
Definition minutesOfDay (t : Z) : Z := getHours t * 60 + getMinutes t.

(** [toLocaleTimeString('pt-BR', {hour: '2-digit', minute: '2-digit'})]
    prints the hour and the minute of the instant, and nothing else of it;
    the text is held as these two numerals. *)
Definition toLocaleTimeString (t : Z) : Z * Z := (getHours t, getMinutes t).

End JsDate.

Import JsDate.

(** ** Data model *)

(** Modelled from the spec: [ProductClassification] of [src/types] is not
    among the sources; the spec gives classification as TopSeller or Normal
    (the literals ['Top Seller'] and ['Normal'] of the code). *)
Inductive ProductClassification : Type := TopSeller | Normal.

(** Modelled from the spec: [ScheduleStatus] of [src/types] is not among the
    sources; the spec gives Pending, InProgress, Completed and Cancelled (the
    literals ['Pendente'], ['Em Progresso'], ['Concluído'], ['Cancelado']). *)
Inductive ScheduleStatus : Type := Pendente | EmProgresso | Concluido | Cancelado.

Definition classification_eqb (a b : ProductClassification) : bool :=
  match a, b with
  | TopSeller, TopSeller | Normal, Normal => true
  | _, _ => false
  end.

Definition status_eqb (a b : ScheduleStatus) : bool :=
  match a, b with
  | Pendente, Pendente | EmProgresso, EmProgresso
  | Concluido, Concluido | Cancelado, Cancelado => true
  | _, _ => false
  end.

Record ProcessingTime : Type := mkProcessingTime {
  equipmentId : string;
  timePerUnitMinutes : Z
}.

Record Product : Type := mkProduct {
  p_id : string;
  p_name : string;
  processingTimes : list ProcessingTime;
  classification : ProductClassification
}.

(** An ["HH:MM"] string of the operating calendar, held as its two numerals. *)
Record TimeOfDay : Type := mkTimeOfDay { tod_hours : N; tod_minutes : N }.

Record OperatingDayTime : Type := mkOperatingDayTime {
  dayOfWeek : Z;
  oh_startTime : TimeOfDay;
  oh_endTime : TimeOfDay;
  isActive : bool
}.

Record ProductionLine : Type := mkProductionLine {
  l_id : string;
  l_name : string;
  equipmentIds : list string;
  operatingHours : list OperatingDayTime
}.

Record ScheduledProductionRun : Type := mkRun {
  id : string;
  productId : string;
  lineId : string;
  startTime : Z;
  endTime : Z;
  quantity : Z;
  notes : option string;
  status : ScheduleStatus
}.

(** The collections held by [AppDataProvider]. *)
Record AppData : Type := mkAppData {
  products : list Product;
  productionLines : list ProductionLine;
  schedules : list ScheduledProductionRun
}.

Definition getProductById (d : AppData) (i : string) : option Product :=
  find (fun p => String.eqb (p_id p) i) (products d).

Definition getProductionLineById (d : AppData) (i : string) : option ProductionLine :=
  find (fun l => String.eqb (l_id l) i) (productionLines d).

(** [timeToMinutes] on an ["HH:MM"] string. *)
Definition timeToMinutes (t : TimeOfDay) : Z :=
  Z.of_N (tod_hours t) * 60 + Z.of_N (tod_minutes t).

(** ** Duration calculator *)

(** The loop of [calculateProductDurationOnLine] over [line.equipmentIds]. *)
Fixpoint totalDurationForOneUnit (pts : list ProcessingTime) (eqs : list string) (acc : Z) : Z :=
  match eqs with
  | [] => acc
  | eqIdInLine :: rest =>
      match find (fun pt => String.eqb (equipmentId pt) eqIdInLine) pts with
      | Some productTimeForEq =>
          totalDurationForOneUnit pts rest (acc + timePerUnitMinutes productTimeForEq)
      | None => totalDurationForOneUnit pts rest acc
      end
  end.

Definition calculateProductDurationOnLine
    (product : Product) (line : ProductionLine) (quantity : Z) : Z :=
  if quantity <=? 0 then 0
  else match processingTimes product with
       | [] => 0
       | _ :: _ =>
           match equipmentIds line with
           | [] => 0
           | _ :: _ =>
               totalDurationForOneUnit (processingTimes product) (equipmentIds line) 0 * quantity
           end
       end.

(** The duration as the specification words it: per-unit minutes of the
    product for an equipment id, zero when absent, summed over the line's
    sequence and multiplied by the quantity. *)
Definition perUnitMinutes (product : Product) (eqId : string) : Z :=
  match find (fun pt => String.eqb (equipmentId pt) eqId) (processingTimes product) with
  | Some pt => timePerUnitMinutes pt
  | None => 0
  end.

Definition sumZ (l : list Z) : Z := fold_right Z.add 0 l.

Definition durationSpec (product : Product) (line : ProductionLine) (quantity : Z) : Z :=
  sumZ (map (perUnitMinutes product) (equipmentIds line)) * quantity.

(** ** Conflict detector *)

(** Half-open interval overlap, as the specification states it. *)
Definition overlaps (candidateStart candidateEnd existingStart existingEnd : Z) : bool :=
  (candidateStart <? existingEnd) && (candidateEnd >? existingStart).

(** ** Shared helpers *)

(** [Array.prototype.sort] with the comparator
    [new Date(a.startTime).getTime() - new Date(b.startTime).getTime()]:
    a stable sort on the start instant. *)
Fixpoint insertByStart (x : ScheduledProductionRun) (l : list ScheduledProductionRun)
  : list ScheduledProductionRun :=
  match l with
  | [] => [x]
  | y :: rest =>
      if startTime x <=? startTime y then x :: l else y :: insertByStart x rest
  end.

Definition sortByStart (l : list ScheduledProductionRun) : list ScheduledProductionRun :=
  fold_right insertByStart [] l.

(** [[...new Set(xs)]]: first occurrences, in order. *)
Fixpoint dedup (xs : list string) : list string :=
  match xs with
  | [] => []
  | x :: rest => x :: filter (fun y => negb (String.eqb y x)) (dedup rest)
  end.

Definition withTimes (s : ScheduledProductionRun) (newStart newEnd : Z) : ScheduledProductionRun :=
  mkRun (id s) (productId s) (lineId s) newStart newEnd (quantity s) (notes s) (status s).

Definition withStatus (s : ScheduledProductionRun) (st : ScheduleStatus) : ScheduledProductionRun :=
  mkRun (id s) (productId s) (lineId s) (startTime s) (endTime s) (quantity s) (notes s) st.

(** [updateScheduleOp], for a store that accepts the update and returns the
    row it was given: the run with the item's id is replaced and the
    collection is sorted again. *)
Definition updateScheduleOp (item : ScheduledProductionRun)
    (prev : list ScheduledProductionRun) : list ScheduledProductionRun :=
  sortByStart (map (fun s => if String.eqb (id s) (id item) then item else s) prev).

Definition commitAll (updates prev : list ScheduledProductionRun) : list ScheduledProductionRun :=
  fold_left (fun acc sched => updateScheduleOp sched acc) updates prev.

(** ** Run status clock *)

Module StatusClock.

(** The [newStatus] computed for one run by the interval callback. *)
Definition newStatus (currentTime : Z) (schedule : ScheduledProductionRun) : ScheduleStatus :=
  if status_eqb (status schedule) Pendente
     && (currentTime >=? startTime schedule) && (currentTime <? endTime schedule)
  then EmProgresso
  else if status_eqb (status schedule) EmProgresso && (currentTime >=? endTime schedule)
  then Concluido
  else status schedule.

(** The [schedulesToUpdate] list built by the [forEach]. *)
Fixpoint schedulesToUpdate (currentTime : Z) (ss : list ScheduledProductionRun)
  : list ScheduledProductionRun :=
  match ss with
  | [] => []
  | schedule :: rest =>
      let ns := newStatus currentTime schedule in
      if negb (status_eqb (status schedule) Cancelado)
         && negb (status_eqb (status schedule) Concluido)
         && negb (status_eqb ns (status schedule))
      then withStatus schedule ns :: schedulesToUpdate currentTime rest
      else schedulesToUpdate currentTime rest
  end.

(** One tick: the transitions are computed on the snapshot and committed
    one by one. *)
Definition tick (currentTime : Z) (ss : list ScheduledProductionRun)
  : list ScheduledProductionRun :=
  commitAll (schedulesToUpdate currentTime ss) ss.

(** Successive ticks at the given clock readings. *)
Definition ticks (times : list Z) (ss : list ScheduledProductionRun)
  : list ScheduledProductionRun :=
  fold_left (fun acc t => tick t acc) times ss.

End StatusClock.

(** ** Interactive placement validator *)

Module Gantt.

Inductive DropMessage : Type :=
| ProductOrLineNotFound
| StatusCannotMove (productName : string) (st : ScheduleStatus)
| LineDoesNotOperate (lineName : string)
| OutsideOperatingHours (opStart opEnd : TimeOfDay)
| BeforeCurrentTime (comparableCurrentTime : Z * Z)
| ConflictTopSeller (productName : string)
| ConflictNormal (productName : string).

Record DropValidity : Type := mkValidity {
  valid : bool;
  message : option DropMessage
}.

Definition getLineOperatingHoursForDay (d : AppData) (day : Z) (lineId : string)
  : option OperatingDayTime :=
  match getProductionLineById d lineId with
  | None => None
  | Some line => find (fun oh => dayOfWeek oh =? getDay day) (operatingHours line)
  end.

(** [isChartForToday], from the chart's day and the clock read by the memo. *)
Definition isChartForToday (day todayDate : Z) : bool := sameYearMonthDate day todayDate.

(** The filter that selects the other runs of the target line and day. *)
Definition schedulesOnTargetDayAndLine (d : AppData) (day : Z)
    (item : ScheduledProductionRun) (targetLineId : string) : list ScheduledProductionRun :=
  filter (fun s => String.eqb (lineId s) targetLineId
                   && negb (String.eqb (id s) (id item))
                   && sameYearMonthDate (startTime s) day)
         (schedules d).

(** The conflict loop: the first overlapping run whose product resolves
    decides the verdict. *)
Fixpoint conflictScan (d : AppData) (newStartTime newEndTime : Z)
    (existing : list ScheduledProductionRun) : DropValidity :=
  match existing with
  | [] => mkValidity true None
  | existingSchedule :: rest =>
      match getProductById d (productId existingSchedule) with
      | None => conflictScan d newStartTime newEndTime rest
      | Some existingProduct =>
          if (newStartTime <? endTime existingSchedule)
             && (newEndTime >? startTime existingSchedule)
          then
            if classification_eqb (classification existingProduct) TopSeller
            then mkValidity false (Some (ConflictTopSeller (p_name existingProduct)))
            else mkValidity false (Some (ConflictNormal (p_name existingProduct)))
          else conflictScan d newStartTime newEndTime rest
      end
  end.

(** [checkDropValidity].  The duration of the dragged run is its end minus
    its start; the division by 60000 and the multiplication back are taken
    as exact. *)
Definition checkDropValidity (d : AppData) (day todayDate currentTime : Z)
    (item : ScheduledProductionRun) (targetLineId : string) (newStartTime : Z)
  : DropValidity :=
  match getProductById d (productId item), getProductionLineById d targetLineId with
  | Some product, Some targetLine =>
      if negb (status_eqb (status item) Pendente)
      then mkValidity false (Some (StatusCannotMove (p_name product) (status item)))
      else
        let newEndTime := newStartTime + (endTime item - startTime item) in
        match getLineOperatingHoursForDay d day targetLineId with
        | None => mkValidity false (Some (LineDoesNotOperate (l_name targetLine)))
        | Some lineOpHours =>
            if negb (isActive lineOpHours)
            then mkValidity false (Some (LineDoesNotOperate (l_name targetLine)))
            else
              let opStartMinutes := timeToMinutes (oh_startTime lineOpHours) in
              let opEndMinutes := timeToMinutes (oh_endTime lineOpHours) in
              let newItemStartMinutes := minutesOfDay newStartTime in
              let newItemEndMinutes := minutesOfDay newEndTime in
              if (negb (getDate newStartTime =? getDate day)
                  || (newItemStartMinutes <? opStartMinutes)
                  || negb (getDate newEndTime =? getDate day)
                  || (newItemEndMinutes >? opEndMinutes))
                 && negb ((getDate newEndTime =? getDate day)
                          && (newItemEndMinutes =? opEndMinutes)
                          && (newItemStartMinutes >=? opStartMinutes))
              then mkValidity false
                     (Some (OutsideOperatingHours (oh_startTime lineOpHours)
                                                  (oh_endTime lineOpHours)))
              else if isChartForToday day todayDate
                      && (newStartTime <? setSeconds0 currentTime)
              then mkValidity false
                     (Some (BeforeCurrentTime (toLocaleTimeString (setSeconds0 currentTime))))
              else conflictScan d newStartTime newEndTime
                     (schedulesOnTargetDayAndLine d day item targetLineId)
        end
  | _, _ => mkValidity false (Some ProductOrLineNotFound)
  end.

(** The guard of [handleDragStart]: a Top Seller run, or a run that is not
    pending, is refused and the drag state is left as it was; otherwise the
    run becomes the dragged item. *)
Definition dragRefused (d : AppData) (scheduleItem : ScheduledProductionRun) : bool :=
  match getProductById d (productId scheduleItem) with
  | Some product => classification_eqb (classification product) TopSeller
  | None => false
  end
  || negb (status_eqb (status scheduleItem) Pendente).

Definition handleDragStart (d : AppData) (draggedItem : option ScheduledProductionRun)
    (scheduleItem : ScheduledProductionRun) : option ScheduledProductionRun :=
  if dragRefused d scheduleItem then draggedItem else Some scheduleItem.

(** [handleDragOver]: the verdict computed for the dragged item, if any. *)
Definition handleDragOver (d : AppData) (day todayDate currentTime : Z)
    (draggedItem : option ScheduledProductionRun) (lineId : string) (newStartTime : Z)
  : option DropValidity :=
  match draggedItem with
  | None => None
  | Some item => Some (checkDropValidity d day todayDate currentTime item lineId newStartTime)
  end.

End Gantt.

(** ** Day optimizer *)

Module Optimizer.

(** The entries pushed on [details]; each constructor is one message of the
    trace, with the values the message interpolates: a product name is the
    text that [product?.name || 'Desconhecido'] gives where the message has
    that fallback, and the start of a placement is the hour and minute that
    [toLocaleTimeString] prints. *)
Inductive Detail : Type :=
| LineNotFound (lineId : string)
| KeptForStatus (productName scheduleId : string) (st : ScheduleStatus)
| KeptUnexpected (scheduleId productName : string)
| ProductNotFound (productId scheduleId : string)
| InvalidDuration (productName scheduleId lineName : string)
| LineNotOperating (lineName : string) (dayOfWeek : Z) (productName scheduleId : string)
| SearchStartPastEnd (productName scheduleId lineName : string)
| OptimizedTo (productName scheduleId : string) (proposedStartTime : Z * Z) (lineName : string)
| CouldNotOptimize (productName scheduleId lineName : string)
| NoNormalPendingToday
| NoSchedulesToday.

(** The mutable variables of [optimizeDaySchedulesOp] shared by all lines. *)
Record Acc : Type := mkAcc {
  optimizedCount : Z;
  unoptimizedCount : Z;
  schedulesToUpdate : list ScheduledProductionRun;
  details : list Detail
}.

Definition pushDetail (a : Acc) (m : Detail) : Acc :=
  mkAcc (optimizedCount a) (unoptimizedCount a) (schedulesToUpdate a) (details a ++ [m]).

Definition addUnoptimized (a : Acc) (n : Z) : Acc :=
  mkAcc (optimizedCount a) (unoptimizedCount a + n) (schedulesToUpdate a) (details a).

(** [product?.name || 'Desconhecido']: the fallback stands for a product
    that does not resolve and for an empty name. *)
Definition nameOrUnknown (product : option Product) : string :=
  match product with
  | Some p => if String.eqb (p_name p) EmptyString then "Desconhecido"%string else p_name p
  | None => "Desconhecido"%string
  end.

Definition classificationOf (d : AppData) (s : ScheduledProductionRun)
  : option ProductClassification :=
  option_map classification (getProductById d (productId s)).

Definition isClass (c : option ProductClassification) (k : ProductClassification) : bool :=
  match c with
  | Some c' => classification_eqb c' k
  | None => false
  end.

(** [getProductById(s.productId)?.classification === 'Normal' &&
    s.status === 'Pendente']. *)
Definition isNormalPending (d : AppData) (s : ScheduledProductionRun) : bool :=
  isClass (classificationOf d s) Normal && status_eqb (status s) Pendente.

(** The partition of a line's runs of the day: the state is the fixed
    runs, the runs to optimize, and the shared variables. *)
Definition partitionStep (d : AppData)
    (st : list ScheduledProductionRun * list ScheduledProductionRun * Acc)
    (schedule : ScheduledProductionRun)
  : list ScheduledProductionRun * list ScheduledProductionRun * Acc :=
  let '(fixedSchedules, normalPending, a) := st in
  let product := getProductById d (productId schedule) in
  let c := option_map classification product in
  if isClass c TopSeller || (isClass c Normal && negb (status_eqb (status schedule) Pendente))
  then
    if isClass c Normal
    then (fixedSchedules ++ [schedule], normalPending,
          pushDetail (addUnoptimized a 1)
            (KeptForStatus (nameOrUnknown product) (id schedule) (status schedule)))
    else (fixedSchedules ++ [schedule], normalPending, a)
  else if isClass c Normal && status_eqb (status schedule) Pendente
  then (fixedSchedules, normalPending ++ [schedule], a)
  else (fixedSchedules ++ [schedule], normalPending,
        pushDetail (addUnoptimized a 1)
          (KeptUnexpected (id schedule) (nameOrUnknown product))).

(** The inner [for] of the search: the end of the first occupied slot that
    the proposed interval collides with. *)
Fixpoint findCollision (proposedStart proposedEnd : Z)
    (currentAvailableSlots : list ScheduledProductionRun) : option Z :=
  match currentAvailableSlots with
  | [] => None
  | existingItem :: rest =>
      if (proposedStart <? endTime existingItem) && (proposedEnd >? startTime existingItem)
      then Some (endTime existingItem)
      else findCollision proposedStart proposedEnd rest
  end.

Inductive SearchResult : Type :=
| SlotFound (proposedStartTime proposedEndTime : Z)
| NoSlot
| OutOfFuel.

(** The [while (true)] search.  Every turn of the loop either leaves it or
    moves the attempt past the end of a colliding slot; [fuel] bounds the
    number of turns. *)
Fixpoint searchSlot (fuel : nat) (targetDayStart lineOpEndMinutes durationMinutes
    effectiveStartOfSearchWindow : Z) (currentAvailableSlots : list ScheduledProductionRun)
    (attemptStartTime : Z) : SearchResult :=
  match fuel with
  | O => OutOfFuel
  | S fuel' =>
      let currentAttemptTimeMinutes := minutesOfDay attemptStartTime in
      if negb (getDate attemptStartTime =? getDate targetDayStart)
         || (currentAttemptTimeMinutes >=? lineOpEndMinutes)
      then NoSlot
      else
        let proposedStartTime := attemptStartTime in
        let proposedEndTime := proposedStartTime + durationMinutes * 60000 in
        let proposedEndTimeMinutes := minutesOfDay proposedEndTime in
        if (negb (getDate proposedEndTime =? getDate targetDayStart)
            || (proposedEndTimeMinutes >? lineOpEndMinutes))
           && negb ((getDate proposedEndTime =? getDate targetDayStart)
                    && (proposedEndTimeMinutes =? lineOpEndMinutes))
        then NoSlot
        else
          match findCollision proposedStartTime proposedEndTime currentAvailableSlots with
          | Some existingEnd =>
              searchSlot fuel' targetDayStart lineOpEndMinutes durationMinutes
                effectiveStartOfSearchWindow currentAvailableSlots
                (Z.max existingEnd effectiveStartOfSearchWindow)
          | None => SlotFound proposedStartTime proposedEndTime
          end
  end.

(** The search origin: the start of the operating window on the target
    day, or the current minute when the target day is today and that is
    later. *)
Definition searchOrigin (targetDayStart : Z) (isToday : bool) (now : Z)
    (lineOpStartMinutes : Z) : Z :=
  let effectiveStart :=
    setHours targetDayStart (lineOpStartMinutes / 60) (Z.rem lineOpStartMinutes 60) in
  if isToday then
    let currentTimeToday := setSeconds0 now in
    if currentTimeToday >? effectiveStart then currentTimeToday else effectiveStart
  else effectiveStart.

(** One turn of the loop over the runs to optimize.  The state is the
    occupied slots of the line and the shared variables; [None] only if the
    search ran out of fuel. *)
Definition placeStep (d : AppData) (line : ProductionLine)
    (targetDayStart : Z) (isToday : bool) (now : Z)
    (st : list ScheduledProductionRun * Acc) (normalSchedule : ScheduledProductionRun)
  : option (list ScheduledProductionRun * Acc) :=
  let '(currentAvailableSlots, a) := st in
  match getProductById d (productId normalSchedule) with
  | None =>
      Some (currentAvailableSlots,
            addUnoptimized
              (pushDetail a (ProductNotFound (productId normalSchedule) (id normalSchedule))) 1)
  | Some product =>
      let durationMinutes :=
        calculateProductDurationOnLine product line (quantity normalSchedule) in
      if durationMinutes <=? 0
      then Some (currentAvailableSlots,
                 addUnoptimized
                   (pushDetail a (InvalidDuration (p_name product) (id normalSchedule)
                                                  (l_name line))) 1)
      else
        let dayOfWeekForOptimization := getDay targetDayStart in
        let notOperating :=
          Some (currentAvailableSlots,
                addUnoptimized
                  (pushDetail a (LineNotOperating (l_name line) dayOfWeekForOptimization
                                                  (p_name product) (id normalSchedule))) 1) in
        match find (fun oh => dayOfWeek oh =? dayOfWeekForOptimization) (operatingHours line) with
        | None => notOperating
        | Some lineOpHoursForDay =>
            if negb (isActive lineOpHoursForDay) then notOperating
            else
              let lineOpStartMinutes := timeToMinutes (oh_startTime lineOpHoursForDay) in
              let lineOpEndMinutes := timeToMinutes (oh_endTime lineOpHoursForDay) in
              let effectiveStartOfSearchWindow :=
                searchOrigin targetDayStart isToday now lineOpStartMinutes in
              if minutesOfDay effectiveStartOfSearchWindow >=? lineOpEndMinutes
              then Some (currentAvailableSlots,
                         addUnoptimized
                           (pushDetail a (SearchStartPastEnd (p_name product)
                                            (id normalSchedule) (l_name line))) 1)
              else
                match searchSlot (S (List.length currentAvailableSlots)) targetDayStart
                        lineOpEndMinutes durationMinutes effectiveStartOfSearchWindow
                        currentAvailableSlots effectiveStartOfSearchWindow with
                | SlotFound proposedStartTime proposedEndTime =>
                    let updatedNormalSchedule :=
                      withTimes normalSchedule proposedStartTime proposedEndTime in
                    Some (sortByStart (currentAvailableSlots ++ [updatedNormalSchedule]),
                          pushDetail
                            (mkAcc (optimizedCount a + 1) (unoptimizedCount a)
                                   (schedulesToUpdate a ++ [updatedNormalSchedule])
                                   (details a))
                            (OptimizedTo (p_name product) (id normalSchedule)
                                         (toLocaleTimeString proposedStartTime)
                                         (l_name line)))
                | NoSlot =>
                    Some (currentAvailableSlots,
                          addUnoptimized
                            (pushDetail a (CouldNotOptimize (p_name product)
                                             (id normalSchedule) (l_name line))) 1)
                | OutOfFuel => None
                end
        end
  end.

Fixpoint placeAll (d : AppData) (line : ProductionLine)
    (targetDayStart : Z) (isToday : bool) (now : Z)
    (st : list ScheduledProductionRun * Acc) (normalPending : list ScheduledProductionRun)
  : option (list ScheduledProductionRun * Acc) :=
  match normalPending with
  | [] => Some st
  | normalSchedule :: rest =>
      match placeStep d line targetDayStart isToday now st normalSchedule with
      | None => None
      | Some st' => placeAll d line targetDayStart isToday now st' rest
      end
  end.

(** The body of the loop over [lineIdsToProcess]. *)
Definition lineStep (d : AppData) (schedulesStartingOnTargetDay : list ScheduledProductionRun)
    (targetDayStart : Z) (isToday : bool) (now : Z) (a : Acc) (lineId0 : string)
  : option Acc :=
  let schedulesForThisLineToday :=
    filter (fun s => String.eqb (lineId s) lineId0) schedulesStartingOnTargetDay in
  match getProductionLineById d lineId0 with
  | None =>
      Some (addUnoptimized (pushDetail a (LineNotFound lineId0))
              (Z.of_nat (List.length (filter (isNormalPending d) schedulesForThisLineToday))))
  | Some line =>
      let '(fixedSchedulesOnThisLine, normalPending, a1) :=
        fold_left (partitionStep d) schedulesForThisLineToday ([], [], a) in
      let currentAvailableSlots := sortByStart fixedSchedulesOnThisLine in
      match placeAll d line targetDayStart isToday now (currentAvailableSlots, a1)
              (sortByStart normalPending) with
      | None => None
      | Some (_, a2) => Some a2
      end
  end.

Fixpoint linesLoop (d : AppData) (schedulesStartingOnTargetDay : list ScheduledProductionRun)
    (targetDayStart : Z) (isToday : bool) (now : Z) (a : Acc) (lineIds : list string)
  : option Acc :=
  match lineIds with
  | [] => Some a
  | lineId0 :: rest =>
      match lineStep d schedulesStartingOnTargetDay targetDayStart isToday now a lineId0 with
      | None => None
      | Some a' => linesLoop d schedulesStartingOnTargetDay targetDayStart isToday now a' rest
      end
  end.

Definition schedulesStartingOn (d : AppData) (targetDayStart : Z) : list ScheduledProductionRun :=
  filter (fun s => sameYearMonthDate (startTime s) targetDayStart) (schedules d).

(** [optimizeDaySchedulesOp], up to the commit of [schedulesToUpdate]:
    the returned record, together with the placements it will commit. *)
Definition optimizeDaySchedulesOp (d : AppData) (dateToOptimize now : Z) : option Acc :=
  let targetDayStart := setHours dateToOptimize 0 0 in
  let schedulesStartingOnTargetDay := schedulesStartingOn d targetDayStart in
  let isToday := sameDateString targetDayStart now in
  let lineIdsToProcess := dedup (map lineId schedulesStartingOnTargetDay) in
  match linesLoop d schedulesStartingOnTargetDay targetDayStart isToday now
          (mkAcc 0 0 [] []) lineIdsToProcess with
  | None => None
  | Some a =>
      match schedulesToUpdate a with
      | _ :: _ => Some a
      | [] =>
          if (optimizedCount a =? 0) && (unoptimizedCount a =? 0)
             && negb (match lineIdsToProcess with [] => true | _ => false end)
          then
            let hasNormalPendente := existsb (isNormalPending d) schedulesStartingOnTargetDay in
            if negb hasNormalPendente
               && negb (match schedulesStartingOnTargetDay with [] => true | _ => false end)
            then Some (pushDetail a NoNormalPendingToday)
            else match schedulesStartingOnTargetDay with
                 | [] => Some (pushDetail a NoSchedulesToday)
                 | _ :: _ => Some a
                 end
          else Some a
      end
  end.

(** The collections after the optimizer has committed its placements. *)
Definition afterOptimize (d : AppData) (a : Acc) : AppData :=
  mkAppData (products d) (productionLines d) (commitAll (schedulesToUpdate a) (schedules d)).

End Optimizer.

(** ** Views of the committed collection *)

(** The run that stands for [s] once the updates [us] are committed. *)
Definition replaceBy (us : list ScheduledProductionRun) (s : ScheduledProductionRun)
  : ScheduledProductionRun :=
  match find (fun u => String.eqb (id s) (id u)) us with
  | Some u => u
  | None => s
  end.

Definition startsNoLater (a b : ScheduledProductionRun) : Prop := startTime a <= startTime b.

(** ** The status clock as the specification words it *)

Module ClockSpec.

(** The transition of one run as the specification words it. *)
Definition transition (now : Z) (s : ScheduledProductionRun) : ScheduledProductionRun :=
  match status s with
  | Pendente =>
      if (startTime s <=? now) && (now <? endTime s) then withStatus s EmProgresso else s
  | EmProgresso => if endTime s <=? now then withStatus s Concluido else s
  | Concluido | Cancelado => s
  end.

End ClockSpec.

(** ** Views of the optimizer used to state its properties *)

Module Placement.
Import Optimizer.

(** The two window tests of the loop, on one attempt. *)
Definition attemptInWindow (targetDayStart lineOpEndMinutes durationMinutes attempt : Z) : bool :=
  (getDate attempt =? getDate targetDayStart)
  && (minutesOfDay attempt <? lineOpEndMinutes)
  && (getDate (attempt + durationMinutes * 60000) =? getDate targetDayStart)
  && (minutesOfDay (attempt + durationMinutes * 60000) <=? lineOpEndMinutes).

(** The number of slots that end after the attempt bounds the number of
    turns still to come. *)
Definition slotsEndingAfter (slots : list ScheduledProductionRun) (attempt : Z) : nat :=
  List.length (filter (fun x => attempt <? endTime x) slots).

(** The outcome of one turn of the placement loop for a run: the slot the
    search accepts, or [NoSlot] for every reason the run is skipped. *)
Definition slotFor (d : AppData) (line : ProductionLine) (targetDayStart : Z)
    (isToday : bool) (now : Z) (slots : list ScheduledProductionRun)
    (normalSchedule : ScheduledProductionRun) : SearchResult :=
  match getProductById d (productId normalSchedule) with
  | None => NoSlot
  | Some product =>
      let durationMinutes :=
        calculateProductDurationOnLine product line (quantity normalSchedule) in
      if durationMinutes <=? 0 then NoSlot
      else
        match find (fun oh => dayOfWeek oh =? getDay targetDayStart) (operatingHours line) with
        | None => NoSlot
        | Some oh =>
            if negb (isActive oh) then NoSlot
            else
              let origin :=
                searchOrigin targetDayStart isToday now (timeToMinutes (oh_startTime oh)) in
              if minutesOfDay origin >=? timeToMinutes (oh_endTime oh) then NoSlot
              else searchSlot (S (List.length slots)) targetDayStart
                     (timeToMinutes (oh_endTime oh)) durationMinutes origin slots origin
        end
  end.

(** The placements pushed on [schedulesToUpdate] by the loop over the runs
    to optimize of one line. *)
Fixpoint placements (d : AppData) (line : ProductionLine) (targetDayStart : Z)
    (isToday : bool) (now : Z) (slots : list ScheduledProductionRun)
    (normalPending : list ScheduledProductionRun) : list ScheduledProductionRun :=
  match normalPending with
  | [] => []
  | normalSchedule :: rest =>
      match slotFor d line targetDayStart isToday now slots normalSchedule with
      | SlotFound s e =>
          let p := withTimes normalSchedule s e in
          p :: placements d line targetDayStart isToday now (sortByStart (slots ++ [p])) rest
      | _ => placements d line targetDayStart isToday now slots rest
      end
  end.

Definition fixedOf (d : AppData) (l : list ScheduledProductionRun) :=
  filter (fun s => negb (isNormalPending d s)) l.

Definition movableOf (d : AppData) (l : list ScheduledProductionRun) :=
  filter (isNormalPending d) l.

Definition forLine (lineId0 : string) (l : list ScheduledProductionRun) :=
  filter (fun s => String.eqb (lineId s) lineId0) l.

(** The placements of one line of the day. *)
Definition linePlacements (d : AppData) (onDay : list ScheduledProductionRun)
    (targetDayStart : Z) (isToday : bool) (now : Z) (lineId0 : string)
  : list ScheduledProductionRun :=
  match getProductionLineById d lineId0 with
  | None => []
  | Some line =>
      placements d line targetDayStart isToday now
        (sortByStart (fixedOf d (forLine lineId0 onDay)))
        (sortByStart (movableOf d (forLine lineId0 onDay)))
  end.

(** All the placements of a day. *)
Definition dayPlacements (d : AppData) (dateToOptimize now : Z) : list ScheduledProductionRun :=
  let targetDayStart := setHours dateToOptimize 0 0 in
  let onDay := schedulesStartingOn d targetDayStart in
  flat_map (linePlacements d onDay targetDayStart (sameDateString targetDayStart now) now)
           (dedup (map lineId onDay)).

Definition windowOf (line : ProductionLine) (targetDayStart : Z) : option OperatingDayTime :=
  find (fun oh => dayOfWeek oh =? getDay targetDayStart) (operatingHours line).

Definition durationOf (d : AppData) (line : ProductionLine) (s : ScheduledProductionRun) : Z :=
  match getProductById d (productId s) with
  | Some product => calculateProductDurationOnLine product line (quantity s)
  | None => 0
  end.

(** The facts behind a placement of [ns] at [[s, e)] that do not depend on
    the occupied slots. *)
Definition Fits (d : AppData) (line : ProductionLine) (targetDayStart : Z)
    (isToday : bool) (now : Z) (ns : ScheduledProductionRun) (s e : Z) : Prop :=
  exists oh,
    windowOf line targetDayStart = Some oh
    /\ isActive oh = true
    /\ 0 < durationOf d line ns
    /\ minutesOfDay (searchOrigin targetDayStart isToday now (timeToMinutes (oh_startTime oh)))
       < timeToMinutes (oh_endTime oh)
    /\ searchOrigin targetDayStart isToday now (timeToMinutes (oh_startTime oh)) <= s
    /\ e = s + durationOf d line ns * 60000
    /\ attemptInWindow targetDayStart (timeToMinutes (oh_endTime oh))
         (durationOf d line ns) s = true.

Definition clearOfRun (p x : ScheduledProductionRun) : Prop :=
  overlaps (startTime p) (endTime p) (startTime x) (endTime x) = false.

Fixpoint clearOf (slots new : list ScheduledProductionRun) : Prop :=
  match new with
  | [] => True
  | p :: rest => (forall x, In x slots -> clearOfRun p x) /\ clearOf (p :: slots) rest
  end.

Definition clearOnLine (p q : ScheduledProductionRun) : Prop :=
  lineId p = lineId q ->
  overlaps (startTime p) (endTime p) (startTime q) (endTime q) = false.

(** A run that already sits where the optimizer would put it. *)
Definition Settled (d : AppData) (line : ProductionLine) (targetDayStart : Z)
    (isToday : bool) (now : Z) (q : ScheduledProductionRun) : Prop :=
  Fits d line targetDayStart isToday now q (startTime q) (endTime q)
  /\ epochDay (endTime q) = epochDay targetDayStart.

(** Every earlier start is blocked by a slot of [slots] or by a run of
    [qs] that starts before [q]. *)
Definition BlockedBefore (d : AppData) (line : ProductionLine) (targetDayStart : Z)
    (isToday : bool) (now : Z) (slots qs : list ScheduledProductionRun)
    (q : ScheduledProductionRun) : Prop :=
  forall oh, windowOf line targetDayStart = Some oh ->
  forall t,
    searchOrigin targetDayStart isToday now (timeToMinutes (oh_startTime oh)) <= t
    < startTime q ->
    exists x, (In x slots \/ (In x qs /\ startTime x < startTime q))
              /\ overlaps t (t + durationOf d line q * 60000)
                   (startTime x) (endTime x) = true.

End Placement.

(** ** The tests on which the validator rejects a move

    The four tests as [checkDropValidity] makes them: the window is judged
    on the day of the month and the clock minute, and a run whose product
    does not resolve is passed over.  [SpecGrounds] below words the window
    and the overlap as the specification does. *)

Module Grounds.
Import Gantt.

(** The first run of a list that conflicts with the proposed interval:
    its product resolves and it overlaps by the half-open rule. *)
Definition firstConflict (d : AppData) (newStartTime newEndTime : Z)
    (existing : list ScheduledProductionRun) : option ScheduledProductionRun :=
  find (fun x => match getProductById d (productId x) with
                 | Some _ => overlaps newStartTime newEndTime (startTime x) (endTime x)
                 | None => false
                 end) existing.

Definition conflictMessage (existingProduct : Product) : DropMessage :=
  if classification_eqb (classification existingProduct) TopSeller
  then ConflictTopSeller (p_name existingProduct)
  else ConflictNormal (p_name existingProduct).

(** The target line is inactive on the weekday of the move. *)
Definition lineInactive (d : AppData) (day : Z) (targetLineId : string) : Prop :=
  forall oh, getLineOperatingHoursForDay d day targetLineId = Some oh -> isActive oh = false.

(** The window test of the code fails: the clock minute of the start is
    before the window start, or the end is not on the chart's day, or the
    clock minute of the end is after the window end. *)
Definition outsideWindow (d : AppData) (day : Z) (item : ScheduledProductionRun)
    (targetLineId : string) (newStartTime : Z) : Prop :=
  let newEndTime := newStartTime + (endTime item - startTime item) in
  exists oh,
    getLineOperatingHoursForDay d day targetLineId = Some oh
    /\ isActive oh = true
    /\ ~ (timeToMinutes (oh_startTime oh) <= minutesOfDay newStartTime
          /\ epochDay newEndTime = epochDay day
          /\ minutesOfDay newEndTime <= timeToMinutes (oh_endTime oh)).

(** The chart's day is today and the proposed start is before the
    current minute. *)
Definition inThePast (day todayDate currentTime newStartTime : Z) : Prop :=
  isChartForToday day todayDate = true /\ newStartTime < setSeconds0 currentTime.

(** Another run of the target line that starts on the chart's day, whose
    product resolves, overlaps the proposed interval. *)
Definition conflictsWith (d : AppData) (day : Z) (item : ScheduledProductionRun)
    (targetLineId : string) (newStartTime : Z) (x : ScheduledProductionRun) : Prop :=
  let newEndTime := newStartTime + (endTime item - startTime item) in
  In x (schedules d) /\ lineId x = targetLineId /\ id x <> id item
  /\ sameYearMonthDate (startTime x) day = true
  /\ getProductById d (productId x) <> None
  /\ overlaps newStartTime newEndTime (startTime x) (endTime x) = true.

End Grounds.

(** ** Parts of the calendar computation *)

Module Calendar.

(** The day within the 400-year cycle, the year of the cycle, the first
    day of a year of the cycle, and the day of the month of a day of the
    year (years start on 1 March): the parts of [civilFromDays]. *)
Definition cycleDay (days : Z) : Z := (days + 719468) mod 146097.
Definition yoeOf (doe : Z) : Z := (doe - doe / 1460 + doe / 36524 - doe / 146096) / 365.
Definition yearStart (y : Z) : Z := 365 * y + y / 4 - y / 100.
Definition domOfDoy (doy : Z) : Z := doy - (153 * ((5 * doy + 2) / 153) + 2) / 5 + 1.

End Calendar.

(** ** Scenarios *)

Module Scenarios.

(** The instant [h]:[m] of day number [day]; day 4 is Monday 5 January
    1970, day 0 is Thursday 1 January 1970. *)
Definition instant (day h m : Z) : Z := day * 86400000 + h * 3600000 + m * 60000.

(** A line that operates Monday to Friday, 08:00 to 17:00. *)
Definition weekdays8to17 : list OperatingDayTime :=
  map (fun i => mkOperatingDayTime i (mkTimeOfDay 8 0) (mkTimeOfDay 17 0)
                  ((1 <=? i) && (i <=? 5)))
      [0; 1; 2; 3; 4; 5; 6].

Definition lineL : ProductionLine := mkProductionLine "L" "Line L" ["e1"%string] weekdays8to17.

(** One minute per unit on the line's equipment. *)
Definition normalProduct : Product :=
  mkProduct "n" "Normal product" [mkProcessingTime "e1" 1] Normal.

Definition topProduct : Product :=
  mkProduct "t" "Top product" [mkProcessingTime "e1" 1] TopSeller.

Definition monday : Z := instant 4 0 0.

(** A clock reading on another day than the ones optimized. *)
Definition someOtherDay : Z := instant 200 0 0.

(** A Top Seller run from Sunday 22:00 to Monday 09:00 and a movable run
    of 60 minutes on Monday. *)
Definition overnightTop : ScheduledProductionRun :=
  mkRun "top" "t" "L" (instant 3 22 0) (instant 4 9 0) 660 None Pendente.

Definition mondayNormal : ScheduledProductionRun :=
  mkRun "r1" "n" "L" (instant 4 10 0) (instant 4 11 0) 60 None Pendente.

Definition overnightData : AppData :=
  mkAppData [normalProduct; topProduct] [lineL] [overnightTop; mondayNormal].

(** A pending Top Seller run alone on Monday. *)
Definition mondayTop : ScheduledProductionRun :=
  mkRun "top" "t" "L" (instant 4 9 0) (instant 4 10 0) 60 None Pendente.

Definition topOnlyData : AppData :=
  mkAppData [normalProduct; topProduct] [lineL] [mondayTop].

(** Two movable runs of 120 minutes, both at 08:00 on Monday. *)
Definition twin1 : ScheduledProductionRun :=
  mkRun "r1" "n" "L" (instant 4 8 0) (instant 4 10 0) 120 None Pendente.

Definition twin2 : ScheduledProductionRun :=
  mkRun "r2" "n" "L" (instant 4 8 0) (instant 4 10 0) 120 None Pendente.

Definition twinsData : AppData :=
  mkAppData [normalProduct; topProduct] [lineL] [twin1; twin2].

(** A movable run of 44640 units, that is 31 days, on Thursday 1 January. *)
Definition monthLong : ScheduledProductionRun :=
  mkRun "big" "n" "L" (instant 0 9 0) (instant 0 10 0) 44640 None Pendente.

Definition monthLongData : AppData :=
  mkAppData [normalProduct; topProduct] [lineL] [monthLong].

(** For the duration calculator: a product with a negative per-unit time,
    on a line that uses that equipment; a product with two steps on a line
    of three pieces of equipment. *)
Definition negativeProfileProduct : Product :=
  mkProduct "p" "P" [mkProcessingTime "e1" (-5)] Normal.

Definition oneEquipmentLine : ProductionLine :=
  mkProductionLine "L" "L" ["e1"%string] [].

Definition twoStepProduct : Product :=
  mkProduct "p" "P" [mkProcessingTime "e1" 2; mkProcessingTime "e3" 7] Normal.

Definition threeEquipmentLine : ProductionLine :=
  mkProductionLine "L" "L" ["e1"; "e2"; "e3"]%string [].

(** Runs for the status clock. *)
Definition clockRunPending : ScheduledProductionRun :=
  mkRun "a" "p" "L" 1000 2000 1 None Pendente.

Definition clockRunInProgress : ScheduledProductionRun :=
  mkRun "b" "p" "L" 0 1500 1 None EmProgresso.

Definition clockRunCancelled : ScheduledProductionRun :=
  mkRun "c" "p" "L" 0 1500 1 None Cancelado.

Definition clockRunElapsed : ScheduledProductionRun :=
  mkRun "e" "p" "L" 100 200 1 None Pendente.

(** A run in progress, alone on line L on Monday. *)
Definition runInProgress : ScheduledProductionRun :=
  mkRun "r1" "n" "L" (instant 4 9 0) (instant 4 10 0) 60 None EmProgresso.

Definition inProgressData : AppData :=
  mkAppData [normalProduct; topProduct] [lineL] [runInProgress].

(** A pending run and a pending Top Seller run, on Monday 09:00 to 10:00
    and 13:00 to 14:00. *)
Definition pendingRun : ScheduledProductionRun :=
  mkRun "r1" "n" "L" (instant 4 9 0) (instant 4 10 0) 60 None Pendente.

Definition topRun : ScheduledProductionRun :=
  mkRun "r2" "t" "L" (instant 4 13 0) (instant 4 14 0) 60 None Pendente.

Definition conflictData : AppData :=
  mkAppData [normalProduct; topProduct] [lineL]
            [pendingRun; topRun].

(** The result of the first invocation on the two twin runs. *)
Definition twinsFirstPass : Optimizer.Acc :=
  Optimizer.mkAcc 2 0
    [withTimes twin1 (instant 4 8 0) (instant 4 10 0);
     withTimes twin2 (instant 4 10 0) (instant 4 12 0)]
    [Optimizer.OptimizedTo "Normal product" "r1" (8, 0) "Line L";
     Optimizer.OptimizedTo "Normal product" "r2" (10, 0) "Line L"].

(** A locked run and two runs of five hours behind it: only one of the two
    fits before the window closes. *)
Definition skippedLocked : ScheduledProductionRun :=
  mkRun "lk" "t" "L" (instant 4 8 0) (instant 4 11 0) 180 None Pendente.

Definition runA : ScheduledProductionRun :=
  mkRun "rA" "n" "L" (instant 4 9 0) (instant 4 14 0) 300 None Pendente.

Definition runB : ScheduledProductionRun :=
  mkRun "rB" "n" "L" (instant 4 10 0) (instant 4 15 0) 300 None Pendente.

Definition skippedData : AppData :=
  mkAppData [normalProduct; topProduct] [lineL]
            [skippedLocked; runA; runB].

End Scenarios.

Module Report.
Import Optimizer.

(** The runs of the day that the report counts: on a line that resolves,
    every run that is not a Top Seller run; on a line that does not, the
    Normal pending runs. *)
Definition counted (d : AppData) (s : ScheduledProductionRun) : bool :=
  match getProductionLineById d (lineId s) with
  | Some _ => negb (isClass (classificationOf d s) TopSeller)
  | None => isNormalPending d s
  end.

(** The runs that the trace reports as optimized, with the hour and minute
    it prints for each. *)
Definition optimizedIn (ds : list Detail) : list (string * (Z * Z)) :=
  flat_map (fun m => match m with
                     | OptimizedTo _ scheduleId proposedStartTime _ =>
                         [(scheduleId, proposedStartTime)]
                     | _ => []
                     end) ds.

(** The two closing notes of the trace. *)
Definition isClosingNote (m : Detail) : bool :=
  match m with
  | NoNormalPendingToday | NoSchedulesToday => true
  | _ => false
  end.

(** What one turn of a loop adds to the shared variables. *)
Record Adds (a a' : Acc) (nOpt nUnopt : Z) (ps : list ScheduledProductionRun) : Prop := mkAdds {
  adds_nonneg : 0 <= nOpt /\ 0 <= nUnopt;
  adds_opt : optimizedCount a' = optimizedCount a + nOpt;
  adds_unopt : unoptimizedCount a' = unoptimizedCount a + nUnopt;
  adds_updates : schedulesToUpdate a' = schedulesToUpdate a ++ ps;
  adds_details : exists ds,
      details a' = details a ++ ds
      /\ optimizedIn ds = map (fun p => (id p, toLocaleTimeString (startTime p))) ps
      /\ forallb (fun m => negb (isClosingNote m)) ds = true
}.

(** The runs that the partition keeps in place and counts as not optimized. *)
Definition keptAndCounted (d : AppData) (s : ScheduledProductionRun) : bool :=
  negb (isNormalPending d s) && negb (isClass (classificationOf d s) TopSeller).

End Report.

(** ** Views of the status clock *)

Module ClockView.

(** A run as the interval callback leaves it at one clock reading, and
    after a series of readings. *)
Definition seenAt (now : Z) (s : ScheduledProductionRun) : ScheduledProductionRun :=
  withStatus s (StatusClock.newStatus now s).

Definition seenAtAll (times : list Z) (s : ScheduledProductionRun) : ScheduledProductionRun :=
  fold_left (fun r t => seenAt t r) times s.

(** The order in which the clock moves a status: Pending, In Progress,
    Completed; Cancelled stands apart. *)
Definition advancesTo (a b : ScheduleStatus) : bool :=
  match a, b with
  | Pendente, (Pendente | EmProgresso | Concluido) => true
  | EmProgresso, (EmProgresso | Concluido) => true
  | Concluido, Concluido => true
  | Cancelado, Cancelado => true
  | _, _ => false
  end.

End ClockView.

(** ** The provider's collections and their operations *)

Module Store.

Record Equipment : Type := mkEquipment {
  e_id : string;
  e_name : string;
  e_type : string
}.

(** The state of [AppDataProvider] that the operations write: the four
    collections and the error set by [handleError]. *)
Record Provider : Type := mkProvider {
  equipment : list Equipment;
  appData : AppData;
  error : option string
}.

(** The answer of the remote store to an insert or an update followed by
    [select().single()]: an error, or the row (possibly none). *)
Inductive Answer (A : Type) : Type :=
| Row (data : option A)
| Refused (message : string).

Arguments Row {A} data.
Arguments Refused {A} message.

(** [handleError]: the error message names the operation; an empty
    message is replaced. *)
Definition handleError (operation message : string) (st : Provider) : Provider :=
  mkProvider (equipment st) (appData st)
    (Some ("Falha em " ++ operation ++ ": "
           ++ (if String.eqb message "" then "Erro desconhecido" else message))%string).

Definition setSchedules (f : list ScheduledProductionRun -> list ScheduledProductionRun)
    (st : Provider) : Provider :=
  mkProvider (equipment st)
    (mkAppData (products (appData st)) (productionLines (appData st))
       (f (schedules (appData st))))
    (error st).

Definition setProducts (f : list Product -> list Product) (st : Provider) : Provider :=
  mkProvider (equipment st)
    (mkAppData (f (products (appData st))) (productionLines (appData st))
       (schedules (appData st)))
    (error st).

Definition setProductionLines (f : list ProductionLine -> list ProductionLine)
    (st : Provider) : Provider :=
  mkProvider (equipment st)
    (mkAppData (products (appData st)) (f (productionLines (appData st)))
       (schedules (appData st)))
    (error st).

Definition setEquipment (f : list Equipment -> list Equipment) (st : Provider) : Provider :=
  mkProvider (f (equipment st)) (appData st) (error st).

(** [addScheduleOp], given the store's answer to the insert. *)
Definition addScheduleOp (answer : Answer ScheduledProductionRun) (st : Provider) : Provider :=
  match answer with
  | Refused message => handleError "addSchedule" message st
  | Row None => st
  | Row (Some data) => setSchedules (fun prev => sortByStart (prev ++ [data])) st
  end.

(** [updateScheduleOp], given the store's answer to the update. *)
Definition updateScheduleOp (item : ScheduledProductionRun)
    (answer : Answer ScheduledProductionRun) (st : Provider) : Provider :=
  match answer with
  | Refused message => handleError "updateSchedule" message st
  | Row None => st
  | Row (Some data) =>
      setSchedules
        (fun prev => sortByStart (map (fun s => if String.eqb (id s) (id item) then data else s)
                                      prev)) st
  end.

(** [deleteScheduleOp], given the error of the store's answer, if any. *)
Definition deleteScheduleOp (answer : option string) (id0 : string) (st : Provider) : Provider :=
  match answer with
  | Some message => handleError "deleteSchedule" message st
  | None => setSchedules (filter (fun s => negb (String.eqb (id s) id0))) st
  end.

(** [deleteProductOp] and [deleteProductionLineOp]: the runs are left to
    the store's cascade and stay in the local collection. *)
Definition deleteProductOp (answer : option string) (id0 : string) (st : Provider) : Provider :=
  match answer with
  | Some message => handleError "deleteProduct" message st
  | None => setProducts (filter (fun p => negb (String.eqb (p_id p) id0))) st
  end.

Definition deleteProductionLineOp (answer : option string) (id0 : string) (st : Provider)
  : Provider :=
  match answer with
  | Some message => handleError "deleteProductionLine" message st
  | None => setProductionLines (filter (fun l => negb (String.eqb (l_id l) id0))) st
  end.

Definition withProcessingTimes (p : Product) (pts : list ProcessingTime) : Product :=
  mkProduct (p_id p) (p_name p) pts (classification p).

Definition withEquipmentIds (l : ProductionLine) (eqs : list string) : ProductionLine :=
  mkProductionLine (l_id l) (l_name l) eqs (operatingHours l).

(** The answers of the store to the successive requests of one operation:
    the error of the n-th request, if it is refused. *)
Definition Answers : Type := nat -> option string.

(** The first loop of [deleteEquipmentOp]: the equipment is taken out of
    the processing times of each affected product, one request at a time;
    the first refusal is thrown. *)
Fixpoint cleanProducts (answers : Answers) (n : nat) (id0 : string)
    (affectedProducts prev : list Product) : list Product * nat * option string :=
  match affectedProducts with
  | [] => (prev, n, None)
  | prod :: rest =>
      let newProcessingTimes :=
        filter (fun pt => negb (String.eqb (equipmentId pt) id0)) (processingTimes prod) in
      match answers n with
      | Some message =>
          (prev, S n,
           Some ("Failed to update product " ++ p_name prod ++ ": " ++ message)%string)
      | None =>
          cleanProducts answers (S n) id0 rest
            (map (fun p => if String.eqb (p_id p) (p_id prod)
                           then withProcessingTimes p newProcessingTimes else p) prev)
      end
  end.

(** The second loop: the equipment is taken out of each affected line. *)
Fixpoint cleanLines (answers : Answers) (n : nat) (id0 : string)
    (affectedLines prev : list ProductionLine) : list ProductionLine * nat * option string :=
  match affectedLines with
  | [] => (prev, n, None)
  | line :: rest =>
      let newEquipmentIds :=
        filter (fun eqId => negb (String.eqb eqId id0)) (equipmentIds line) in
      match answers n with
      | Some message =>
          (prev, S n, Some ("Failed to update line " ++ l_name line ++ ": " ++ message)%string)
      | None =>
          cleanLines answers (S n) id0 rest
            (map (fun l => if String.eqb (l_id l) (l_id line)
                           then withEquipmentIds l newEquipmentIds else l) prev)
      end
  end.

(** [deleteEquipmentOp]: the references are cleaned, then the equipment is
    deleted; whatever is thrown on the way is handed to [handleError], the
    updates made before it being kept. *)
Definition deleteEquipmentOp (answers : Answers) (id0 : string) (st : Provider) : Provider :=
  let affectedProducts :=
    filter (fun p => existsb (fun pt => String.eqb (equipmentId pt) id0) (processingTimes p))
           (products (appData st)) in
  let affectedLines :=
    filter (fun l => existsb (fun eqId => String.eqb eqId id0) (equipmentIds l))
           (productionLines (appData st)) in
  match cleanProducts answers 0 id0 affectedProducts (products (appData st)) with
  | (products1, _, Some thrown) =>
      handleError "deleteEquipment" thrown (setProducts (fun _ => products1) st)
  | (products1, n1, None) =>
      let st1 := setProducts (fun _ => products1) st in
      match cleanLines answers n1 id0 affectedLines (productionLines (appData st)) with
      | (lines1, _, Some thrown) =>
          handleError "deleteEquipment" thrown (setProductionLines (fun _ => lines1) st1)
      | (lines1, n2, None) =>
          let st2 := setProductionLines (fun _ => lines1) st1 in
          match answers n2 with
          | Some message => handleError "deleteEquipment" message st2
          | None => setEquipment (filter (fun eq => negb (String.eqb (e_id eq) id0))) st2
          end
      end
  end.

End Store.

Module StoreView.

(** A product, a line that no longer mentions the equipment. *)
Definition productClean (id0 : string) (p : Product) : Prop :=
  forall pt, In pt (processingTimes p) -> equipmentId pt <> id0.

Definition lineClean (id0 : string) (l : ProductionLine) : Prop :=
  ~ In id0 (equipmentIds l).

(** A product, a line with the equipment taken out, as the two loops of
    [deleteEquipmentOp] rewrite them. *)
Definition withoutEquipmentP (id0 : string) (p : Product) : Product :=
  Store.withProcessingTimes p
    (filter (fun pt => negb (String.eqb (equipmentId pt) id0)) (processingTimes p)).

Definition withoutEquipmentL (id0 : string) (l : ProductionLine) : ProductionLine :=
  Store.withEquipmentIds l
    (filter (fun eqId => negb (String.eqb eqId id0)) (equipmentIds l)).

(** The number of times the equipment occurs in a sequence. *)
Definition occurrences (id0 : string) (eqs : list string) : Z :=
  Z.of_nat (List.length (filter (fun eqId => String.eqb eqId id0) eqs)).

End StoreView.

(** ** Dragging a run on the chart *)

Module Drag.
Import Gantt.

(** The three state variables of [GanttChart] that the drag handlers
    write.  The click offset kept with the dragged item and the pointer
    position of an event enter the handlers only through the number of
    quarter hours that [Math.round(minutes / 15)] gives, which is what the
    events carry here; the feedback messages are not modelled. *)
Record DragState : Type := mkDragState {
  draggedItem : option ScheduledProductionRun;
  dropTargetLineId : option string;
  isDropValid : option bool
}.

Definition idle : DragState := mkDragState None None None.

(** [isTopSeller], [isDraggable] and [isLocked] of the rendering of a run. *)
Definition isTopSeller (d : AppData) (scheduleItem : ScheduledProductionRun) : bool :=
  match getProductById d (productId scheduleItem) with
  | Some product => classification_eqb (classification product) TopSeller
  | None => false
  end.

Definition isDraggable (d : AppData) (scheduleItem : ScheduledProductionRun) : bool :=
  negb (isTopSeller d scheduleItem) && status_eqb (status scheduleItem) Pendente.

Definition isLocked (d : AppData) (scheduleItem : ScheduledProductionRun) : bool :=
  isTopSeller d scheduleItem || negb (status_eqb (status scheduleItem) Pendente).

(** [newStartTime]: the chart's day at [snappedMinutes] past midnight. *)
Definition proposedStart (day : Z) (quarters : N) : Z :=
  let snappedMinutes := Z.of_N quarters * 15 in
  setHours day (snappedMinutes / 60) (snappedMinutes mod 60).

(** [handleDragStart] on the state. *)
Definition dragStart (d : AppData) (st : DragState) (scheduleItem : ScheduledProductionRun)
  : DragState :=
  mkDragState (handleDragStart d (draggedItem st) scheduleItem)
              (dropTargetLineId st) (isDropValid st).

(** The [onDragStart] of a rendered run: [isDraggable && handleDragStart]. *)
Definition onDragStart (d : AppData) (st : DragState) (scheduleItem : ScheduledProductionRun)
  : DragState :=
  if isDraggable d scheduleItem then dragStart d st scheduleItem else st.

(** [handleDragOver] on the state. *)
Definition dragOver (d : AppData) (day todayDate currentTime : Z) (st : DragState)
    (lineId0 : string) (quarters : N) : DragState :=
  match draggedItem st with
  | None => st
  | Some item =>
      let validityCheck :=
        checkDropValidity d day todayDate currentTime item lineId0
          (proposedStart day quarters) in
      mkDragState (draggedItem st) (Some lineId0) (Some (valid validityCheck))
  end.

(** The run that [handleDrop] hands to [updateSchedule]. *)
Definition moved (item : ScheduledProductionRun) (targetLineId : string) (newStartTime : Z)
  : ScheduledProductionRun :=
  mkRun (id item) (productId item) targetLineId newStartTime
        (newStartTime + (endTime item - startTime item))
        (quantity item) (notes item) (status item).

(** [handleDrop]: the new state and the run handed to [updateSchedule],
    if any. *)
Definition drop (day : Z) (st : DragState) (targetLineId : string) (quarters : N)
  : DragState * option ScheduledProductionRun :=
  match draggedItem st, isDropValid st with
  | Some item, Some true => (idle, Some (moved item targetLineId (proposedStart day quarters)))
  | _, _ => (idle, None)
  end.

(** [handleDragEnd]. *)
Definition dragEnd (st : DragState) : DragState := idle.

Inductive Event : Type :=
| DragStart (scheduleItem : ScheduledProductionRun)
| DragOver (lineId0 : string) (quarters : N)
| Drop (targetLineId : string) (quarters : N)
| DragEnd.

(** One event.  [updateSchedule] is a prop of the chart: what it does to
    the collections is the parameter [commit]. *)
Definition step (commit : ScheduledProductionRun -> AppData -> AppData)
    (day todayDate currentTime : Z) (d : AppData) (st : DragState) (ev : Event)
  : AppData * DragState * option ScheduledProductionRun :=
  match ev with
  | DragStart scheduleItem => (d, onDragStart d st scheduleItem, None)
  | DragOver lineId0 quarters =>
      (d, dragOver d day todayDate currentTime st lineId0 quarters, None)
  | Drop targetLineId quarters =>
      match drop day st targetLineId quarters with
      | (st', Some u) => (commit u d, st', Some u)
      | (st', None) => (d, st', None)
      end
  | DragEnd => (d, dragEnd st, None)
  end.

(** A series of events: the final collections and state, and the runs
    handed to [updateSchedule], in order. *)
Fixpoint runEvents (commit : ScheduledProductionRun -> AppData -> AppData)
    (day todayDate currentTime : Z) (d : AppData) (st : DragState) (evs : list Event)
  : AppData * DragState * list ScheduledProductionRun :=
  match evs with
  | [] => (d, st, [])
  | ev :: rest =>
      let '(d1, st1, out) := step commit day todayDate currentTime d st ev in
      let '(d2, st2, outs) := runEvents commit day todayDate currentTime d1 st1 rest in
      (d2, st2, match out with Some u => u :: outs | None => outs end)
  end.

(** The provider's [updateSchedule], for a store that returns the row it
    was given. *)
Definition commitToProvider (u : ScheduledProductionRun) (d : AppData) : AppData :=
  mkAppData (products d) (productionLines d) (updateScheduleOp u (schedules d)).

End Drag.

(** ** Line setup: the equipment sequence and the summary of the hours *)

Module LineSetup.

Inductive Direction : Type := up | down.

Section Arrays.

Variable A : Type.

(** [Array.prototype.splice(start, deleteCount, ...items)] for integer
    arguments: the deleted elements, and the array as it is left.  A
    negative [start] counts from the end; both arguments are clamped. *)
Definition splice (start deleteCount : Z) (items l : list A) : list A * list A :=
  let len := Z.of_nat (List.length l) in
  let actualStart := if start <? 0 then Z.max (len + start) 0 else Z.min start len in
  let actualDeleteCount := Z.min (Z.max deleteCount 0) (len - actualStart) in
  (firstn (Z.to_nat actualDeleteCount) (skipn (Z.to_nat actualStart) l),
   firstn (Z.to_nat actualStart) l ++ items
   ++ skipn (Z.to_nat (actualStart + actualDeleteCount)) l).

(** What reading an index that is not there gives. *)
Variable undefined : A.

(** [moveEquipment]: the element at [index] is taken out and put back one
    place earlier or later. *)
Definition moveEquipment (index : Z) (direction : Direction) (lineEquipmentIds : list A)
  : list A :=
  let '(removed, newOrder) := splice index 1 [] lineEquipmentIds in
  let item := match removed with x :: _ => x | [] => undefined end in
  match direction with
  | up => snd (splice (Z.max 0 (index - 1)) 0 [item] newOrder)
  | down =>
      snd (splice (Z.min (Z.of_nat (List.length newOrder)) (index + 1)) 0 [item] newOrder)
  end.

End Arrays.

(** [addEquipmentToLine], [removeEquipmentFromLine] and
    [availableEquipment] of the configurator. *)
Definition addEquipmentToLine (equipmentId : string) (prev : list string) : list string :=
  prev ++ [equipmentId].

Definition removeEquipmentFromLine (equipmentId : string) (prev : list string) : list string :=
  filter (fun i => negb (String.eqb i equipmentId)) prev.

Definition availableEquipment (allEquipment : list Store.Equipment)
    (lineEquipmentIds : list string) : list Store.Equipment :=
  filter (fun eq => negb (existsb (String.eqb (Store.e_id eq)) lineEquipmentIds)) allEquipment.

(** The default operating hours of a new line in [LineInfoForm]. *)
Definition defaultOperatingHours : list OperatingDayTime :=
  map (fun i => mkOperatingDayTime i (mkTimeOfDay 8 0) (mkTimeOfDay 17 0)
                  ((i >=? 1) && (i <=? 5)))
      [0; 1; 2; 3; 4; 5; 6].

(** The [===] of two clock strings: written as "HH:MM", two strings are
    equal exactly when their hours and their minutes are. *)
Definition tod_eqb (a b : TimeOfDay) : bool :=
  N.eqb (tod_hours a) (tod_hours b) && N.eqb (tod_minutes a) (tod_minutes b).

(** The entries of the summary: one day, or a span of consecutive days
    with the same hours.  Each carries the day numbers whose names the text
    abbreviates, and the hours of the first day. *)
Inductive SummaryPart : Type :=
| OneDay (day : Z) (startTime endTime : TimeOfDay)
| DaySpan (firstDay lastDay : Z) (startTime endTime : TimeOfDay).

Inductive Summary : Type :=
| DoesNotOperate
| Parts (parts : list SummaryPart).

(** The test of the inner [while]: the next active day continues the
    group. *)
Definition continues (last next : OperatingDayTime) : bool :=
  (dayOfWeek next =? dayOfWeek last + 1)
  && tod_eqb (oh_startTime next) (oh_startTime last)
  && tod_eqb (oh_endTime next) (oh_endTime last).

(** [daysOfWeekNames[d]] is defined for the seven day numbers only. *)
Definition hasName (d : Z) : bool := (0 <=? d) && (d <=? 6).

(** The two nested loops, as one pass over the active days: the group
    that starts at [first] and has reached [last]; [single] tells whether
    the two are the same entry.  [None] when a name that the text needs is
    missing, where the code throws. *)
Fixpoint summarize (first last : OperatingDayTime) (single : bool)
    (rest : list OperatingDayTime) : option (list SummaryPart) :=
  let part :=
    if hasName (dayOfWeek first) && hasName (dayOfWeek last)
    then Some (if single
               then OneDay (dayOfWeek first) (oh_startTime first) (oh_endTime first)
               else DaySpan (dayOfWeek first) (dayOfWeek last)
                            (oh_startTime first) (oh_endTime first))
    else None in
  match rest with
  | [] => option_map (fun p => [p]) part
  | next :: rest' =>
      if continues last next then summarize first next false rest'
      else match part, summarize next next true rest' with
           | Some p, Some ps => Some (p :: ps)
           | _, _ => None
           end
  end.

(** [formatOperatingHoursSummary]. *)
Definition formatOperatingHoursSummary (operatingHours : list OperatingDayTime)
  : option Summary :=
  match filter isActive operatingHours with
  | [] => Some DoesNotOperate
  | first :: rest =>
      match summarize first first true rest with
      | Some [] => Some DoesNotOperate
      | Some parts => Some (Parts parts)
      | None => None
      end
  end.

Definition dayAndHours (oh : OperatingDayTime) : Z * TimeOfDay * TimeOfDay :=
  (dayOfWeek oh, oh_startTime oh, oh_endTime oh).

(** The first and last day and the hours of a part. *)
Definition firstDayOf (p : SummaryPart) : Z :=
  match p with OneDay day _ _ => day | DaySpan firstDay _ _ _ => firstDay end.

Definition lastDayOf (p : SummaryPart) : Z :=
  match p with OneDay day _ _ => day | DaySpan _ lastDay _ _ => lastDay end.

Definition hoursOf (p : SummaryPart) : TimeOfDay * TimeOfDay :=
  match p with
  | OneDay _ startTime endTime | DaySpan _ _ startTime endTime => (startTime, endTime)
  end.

(** No part could have been joined to the part that follows it. *)
Fixpoint maximal (parts : list SummaryPart) : Prop :=
  match parts with
  | p :: ((q :: _) as rest) =>
      ~ (firstDayOf q = lastDayOf p + 1 /\ hoursOf q = hoursOf p) /\ maximal rest
  | _ => True
  end.

(** The days that a part of the summary stands for, with their hours. *)
Definition expand (p : SummaryPart) : list (Z * TimeOfDay * TimeOfDay) :=
  match p with
  | OneDay day startTime endTime => [(day, startTime, endTime)]
  | DaySpan firstDay lastDay startTime endTime =>
      map (fun k => (firstDay + Z.of_nat k, startTime, endTime))
          (seq 0 (Z.to_nat (lastDay - firstDay + 1)))
  end.

End LineSetup.

(** ** The grounds of rejection as the specification words them *)

Module SpecGrounds.
Import Gantt.

(** The operating window of the chart's day, as instants. *)
Definition windowStart (day : Z) (oh : OperatingDayTime) : Z :=
  setHours day 0 0 + timeToMinutes (oh_startTime oh) * msPerMinute.

Definition windowEnd (day : Z) (oh : OperatingDayTime) : Z :=
  setHours day 0 0 + timeToMinutes (oh_endTime oh) * msPerMinute.

(** The proposed interval falls outside that day's operating window,
    boundary-inclusive at the window edges. *)
Definition outsideWindow (d : AppData) (day : Z) (item : ScheduledProductionRun)
    (targetLineId : string) (newStartTime : Z) : bool :=
  let newEndTime := newStartTime + (endTime item - startTime item) in
  match getLineOperatingHoursForDay d day targetLineId with
  | Some oh =>
      isActive oh
      && ((newStartTime <? windowStart day oh) || (windowEnd day oh <? newEndTime))
  | None => false
  end.

(** The proposed interval overlaps another run already on that line that
    day. *)
Definition overlapsAnotherRun (d : AppData) (day : Z) (item : ScheduledProductionRun)
    (targetLineId : string) (newStartTime : Z) : bool :=
  let newEndTime := newStartTime + (endTime item - startTime item) in
  existsb (fun x => String.eqb (lineId x) targetLineId
                    && negb (String.eqb (id x) (id item))
                    && sameYearMonthDate (startTime x) day
                    && overlaps newStartTime newEndTime (startTime x) (endTime x))
          (schedules d).

End SpecGrounds.

(** ** The range in which the duration is computed exactly *)

Module Exact.

(** A double holds every integer up to 2^53 in magnitude. *)
Definition maxSafe : Z := 9007199254740992.

Definition exact (z : Z) : Prop := Z.abs z <= maxSafe.

(** The values that [totalDurationForOneUnit] takes in the loop of
    [calculateProductDurationOnLine], one for each addition, in order. *)
Fixpoint runningTotals (pts : list ProcessingTime) (eqs : list string) (acc : Z) : list Z :=
  match eqs with
  | [] => []
  | eqIdInLine :: rest =>
      match find (fun pt => String.eqb (equipmentId pt) eqIdInLine) pts with
      | Some productTimeForEq =>
          (acc + timePerUnitMinutes productTimeForEq)
          :: runningTotals pts rest (acc + timePerUnitMinutes productTimeForEq)
      | None => runningTotals pts rest acc
      end
  end.

(** The sum of the magnitudes of the per-unit minutes that the loop adds,
    times the magnitude of the quantity: no value of the computation is
    larger. *)
Definition magnitude (product : Product) (line : ProductionLine) (quantity : Z) : Z :=
  sumZ (map (fun eqId => Z.abs (perUnitMinutes product eqId)) (equipmentIds line))
  * Z.abs quantity.

(** Every value that [calculateProductDurationOnLine] computes on these
    arguments, the running totals of the loop and the result, is an integer
    that a double holds exactly, so that the additions and the
    multiplication of the code are exact. *)
Definition computedExactly (product : Product) (line : ProductionLine) (quantity : Z) : Prop :=
  (0 < quantity ->
   Forall exact (runningTotals (processingTimes product) (equipmentIds line) 0))
  /\ exact (calculateProductDurationOnLine product line quantity).

End Exact.

(** ** Further scenarios *)

Module Cases.
Import Scenarios.

(** The result of the optimizer on [conflictData]: the pending run is
    brought forward to the opening of the line. *)
Definition conflictFirstPass : Optimizer.Acc :=
  Optimizer.mkAcc 1 0
    [withTimes pendingRun (instant 4 8 0) (instant 4 9 0)]
    [Optimizer.OptimizedTo "Normal product" "r1" (8, 0) "Line L"].

(** A product that is deleted while a run of it is on line L on Monday from
    08:00 to 09:00; a movable run of 60 minutes at 12:00. *)
Definition goneProduct : Product :=
  mkProduct "gone" "Gone product" [mkProcessingTime "e1" 1] Normal.

Definition ghostRun : ScheduledProductionRun :=
  mkRun "g" "gone" "L" (instant 4 8 0) (instant 4 9 0) 60 None Pendente.

Definition lateRun : ScheduledProductionRun :=
  mkRun "r1" "n" "L" (instant 4 12 0) (instant 4 13 0) 60 None Pendente.

Definition beforeDelete : Store.Provider :=
  Store.mkProvider []
    (mkAppData [normalProduct; topProduct; goneProduct] [lineL] [ghostRun; lateRun]) None.

Definition ghostData : AppData :=
  mkAppData [normalProduct; topProduct] [lineL] [ghostRun; lateRun].

(** The result of the optimizer on [ghostData]. *)
Definition ghostPass : Optimizer.Acc :=
  Optimizer.mkAcc 1 1
    [withTimes lateRun (instant 4 9 0) (instant 4 10 0)]
    [Optimizer.KeptUnexpected "g" "Desconhecido";
     Optimizer.OptimizedTo "Normal product" "r1" (9, 0) "Line L"].

(** Thursday 1 January 1970, and a pending run of 31 days on line L. *)
Definition thursday : Z := instant 0 0 0.

Definition monthRun : ScheduledProductionRun :=
  mkRun "big" "n" "L" (instant 0 9 0) (instant 31 9 0) 44640 None Pendente.

Definition monthRunData : AppData :=
  mkAppData [normalProduct; topProduct] [lineL] [monthRun].

(** A pending run of 60 minutes and 30 seconds, on Monday. *)
Definition halfMinuteRun : ScheduledProductionRun :=
  mkRun "s" "n" "L" (instant 4 9 0) (instant 4 10 0 + 30000) 60 None Pendente.

Definition halfMinuteData : AppData :=
  mkAppData [normalProduct; topProduct] [lineL] [halfMinuteRun].

End Cases.

(** * Properties *)

(** ** Equality tests *)

Lemma classification_eqb_eq a b : classification_eqb a b = true <-> a = b.
Proof. destruct a, b; simpl; split; congruence. Qed.

Lemma status_eqb_eq a b : status_eqb a b = true <-> a = b.
Proof. destruct a, b; simpl; split; congruence. Qed.

Lemma status_eqb_refl a : status_eqb a a = true.
Proof. now destruct a. Qed.

Lemma status_eqb_neq a b : status_eqb a b = false <-> a <> b.
Proof. destruct a, b; simpl; split; congruence. Qed.

(** ** Duration calculator *)

Section Duration.

Variable product : Product.

Lemma totalDurationForOneUnit_acc eqs acc :
  totalDurationForOneUnit (processingTimes product) eqs acc
  = acc + sumZ (map (perUnitMinutes product) eqs).
Proof.
  revert acc. induction eqs as [|e eqs IH]; intros acc; simpl.
  - lia.
  - unfold perUnitMinutes at 1.
    destruct (find _ (processingTimes product)) as [pt|]; rewrite IH; lia.
Qed.

Lemma perUnitMinutes_nonneg e :
  (forall pt, In pt (processingTimes product) -> 0 <= timePerUnitMinutes pt) ->
  0 <= perUnitMinutes product e.
Proof.
  intros H. unfold perUnitMinutes.
  destruct (find _ (processingTimes product)) as [pt|] eqn:E; [|lia].
  apply find_some in E. now apply H.
Qed.

Lemma sum_perUnit_nonneg eqs :
  (forall pt, In pt (processingTimes product) -> 0 <= timePerUnitMinutes pt) ->
  0 <= sumZ (map (perUnitMinutes product) eqs).
Proof.
  intros H. induction eqs as [|e eqs IH]; simpl; [lia|].
  pose proof (perUnitMinutes_nonneg e H). lia.
Qed.

Lemma perUnitMinutes_no_profile e :
  processingTimes product = [] -> perUnitMinutes product e = 0.
Proof. unfold perUnitMinutes. now intros ->. Qed.

Lemma calculate_positive_quantity line quantity :
  0 < quantity ->
  calculateProductDurationOnLine product line quantity = durationSpec product line quantity.
Proof.
  intros Hq. unfold calculateProductDurationOnLine, durationSpec.
  destruct (Z.leb_spec quantity 0); [lia|].
  destruct (processingTimes product) as [|pt pts] eqn:Ep.
  - assert (Hz : sumZ (map (perUnitMinutes product) (equipmentIds line)) = 0).
    { induction (equipmentIds line) as [|e l IH]; simpl; [reflexivity|].
      rewrite (perUnitMinutes_no_profile e Ep). lia. }
    rewrite Hz. reflexivity.
  - destruct (equipmentIds line) as [|e l] eqn:El; [reflexivity|].
    rewrite <- Ep, totalDurationForOneUnit_acc. reflexivity.
Qed.

End Duration.

(** C4, as stated, fails: per-unit minutes are plain numbers, and a
    negative one makes the duration negative. *)
Lemma duration_can_be_negative :
  calculateProductDurationOnLine Scenarios.negativeProfileProduct Scenarios.oneEquipmentLine 1 = -5
  /\ ~ 0 <= calculateProductDurationOnLine Scenarios.negativeProfileProduct Scenarios.oneEquipmentLine 1.
Proof. split; [reflexivity | vm_compute; congruence]. Qed.

(** C4 (amended): for a positive quantity the duration calculator returns
    the sum, over the equipment ids of the line's sequence, of the product's
    per-unit minutes for that id (zero when absent), times the quantity; it
    returns 0 when the line has no equipment, the product has no processing
    profile, or the quantity is not positive; and the result is non-negative
    whenever no per-unit time of the product's profile is negative. *)
Theorem duration_calculator_contract (product : Product) (line : ProductionLine) (quantity : Z) :
  (0 < quantity ->
   calculateProductDurationOnLine product line quantity
   = sumZ (map (perUnitMinutes product) (equipmentIds line)) * quantity)
  /\ (equipmentIds line = [] -> calculateProductDurationOnLine product line quantity = 0)
  /\ (processingTimes product = [] -> calculateProductDurationOnLine product line quantity = 0)
  /\ (quantity <= 0 -> calculateProductDurationOnLine product line quantity = 0)
  /\ ((forall pt, In pt (processingTimes product) -> 0 <= timePerUnitMinutes pt) ->
      0 <= calculateProductDurationOnLine product line quantity).
Proof.
  repeat split.
  - apply calculate_positive_quantity.
  - intros El. unfold calculateProductDurationOnLine. rewrite El.
    destruct (quantity <=? 0); [reflexivity|]. now destruct (processingTimes product).
  - intros Ep. unfold calculateProductDurationOnLine. rewrite Ep.
    now destruct (quantity <=? 0).
  - intros Hq. unfold calculateProductDurationOnLine.
    destruct (Z.leb_spec quantity 0); [reflexivity | lia].
  - intros Hpt. destruct (Z.leb_spec quantity 0) as [Hq|Hq].
    + unfold calculateProductDurationOnLine.
      destruct (Z.leb_spec quantity 0); [lia | lia].
    + rewrite calculate_positive_quantity by assumption. unfold durationSpec.
      pose proof (sum_perUnit_nonneg product (equipmentIds line) Hpt). nia.
Qed.

Lemma duration_calculator_contract_witness :
  calculateProductDurationOnLine Scenarios.twoStepProduct Scenarios.threeEquipmentLine 10 = 90
  /\ 0 <= calculateProductDurationOnLine Scenarios.twoStepProduct Scenarios.threeEquipmentLine 10
  /\ calculateProductDurationOnLine Scenarios.twoStepProduct Scenarios.threeEquipmentLine 0 = 0.
Proof.
  split; [|split].
  - rewrite (proj1 (duration_calculator_contract Scenarios.twoStepProduct Scenarios.threeEquipmentLine 10)) by lia.
    reflexivity.
  - apply (duration_calculator_contract Scenarios.twoStepProduct Scenarios.threeEquipmentLine 10).
    simpl. intros pt [<-|[<-|[]]]; simpl; lia.
  - apply (duration_calculator_contract Scenarios.twoStepProduct Scenarios.threeEquipmentLine 0). lia.
Defined.

(** ** Conflict detector *)

Lemma overlaps_iff cs ce es ee : overlaps cs ce es ee = true <-> cs < ee /\ ce > es.
Proof.
  unfold overlaps. rewrite andb_true_iff, Z.ltb_lt, Z.gtb_gt. reflexivity.
Qed.

Lemma overlaps_false_iff cs ce es ee : overlaps cs ce es ee = false <-> ee <= cs \/ ce <= es.
Proof.
  unfold overlaps. rewrite andb_false_iff, Z.ltb_ge, Z.gtb_ltb, Z.ltb_ge. reflexivity.
Qed.

Lemma overlaps_sym a b c e : overlaps a b c e = overlaps c e a b.
Proof.
  unfold overlaps. rewrite !Z.gtb_ltb. apply andb_comm.
Qed.

Lemma findCollision_overlaps ps pe slots :
  Optimizer.findCollision ps pe slots
  = option_map endTime (find (fun x => overlaps ps pe (startTime x) (endTime x)) slots).
Proof.
  induction slots as [|x slots IH]; simpl; [reflexivity|].
  unfold overlaps at 1. destruct (_ && _); [reflexivity | exact IH].
Qed.

Lemma findCollision_none ps pe slots :
  Optimizer.findCollision ps pe slots = None
  <-> forall x, In x slots -> overlaps ps pe (startTime x) (endTime x) = false.
Proof.
  rewrite findCollision_overlaps. split.
  - intros H x Hx.
    destruct (find _ slots) eqn:E; [discriminate|].
    now apply (find_none _ _ E).
  - intros H. destruct (find _ slots) as [x|] eqn:E; [|reflexivity].
    apply find_some in E. destruct E as [Hin Ho]. rewrite (H x Hin) in Ho. discriminate.
Qed.

Lemma findCollision_some ps pe slots e :
  Optimizer.findCollision ps pe slots = Some e ->
  exists x, In x slots /\ endTime x = e /\ overlaps ps pe (startTime x) (endTime x) = true.
Proof.
  rewrite findCollision_overlaps.
  destruct (find _ slots) as [x|] eqn:E; simpl; [|discriminate].
  intros [= <-]. apply find_some in E. exists x. tauto.
Qed.

Lemma conflictScan_valid d ns ne existing :
  Gantt.valid (Gantt.conflictScan d ns ne existing) = true
  <-> forall x, In x existing -> getProductById d (productId x) <> None ->
                overlaps ns ne (startTime x) (endTime x) = false.
Proof.
  induction existing as [|x l IH]; simpl.
  - split; [intros _ x [] | reflexivity].
  - destruct (getProductById d (productId x)) as [p|] eqn:Ep.
    + fold (overlaps ns ne (startTime x) (endTime x)).
      destruct (overlaps ns ne (startTime x) (endTime x)) eqn:Eo.
      * split.
        -- destruct (classification_eqb _ _); discriminate.
        -- intros H. specialize (H x (or_introl eq_refl)).
           rewrite Ep in H. rewrite Eo in H. discriminate H. congruence.
      * rewrite IH. split.
        -- intros H y [<-|Hy] Hp; [assumption | now apply H].
        -- intros H y Hy Hp. apply H; [now right | assumption].
    + rewrite IH. split.
      * intros H y [<-|Hy] Hp; [congruence | now apply H].
      * intros H y Hy Hp. apply H; [now right | assumption].
Qed.

(** The collision test of the optimizer and the one of the validator
    both decide overlap by the half-open rule
    [candidateStart < existingEnd && candidateEnd > existingStart]: the
    optimizer reports a collision exactly when an occupied slot overlaps the
    proposed interval by that rule (and then resumes at the end of the first
    such slot), the validator reports a conflict exactly when a run it scans
    (one whose product resolves) overlaps by that rule; hence an interval
    that merely touches another (its end is the other's start, or its start
    the other's end) is not a conflict on either path. *)
Theorem collision_tests_half_open :
  (forall cs ce es ee, overlaps cs ce es ee = true <-> cs < ee /\ ce > es)
  /\ (forall ps pe slots,
        Optimizer.findCollision ps pe slots
        = option_map endTime (find (fun x => overlaps ps pe (startTime x) (endTime x)) slots))
  /\ (forall ps pe slots,
        Optimizer.findCollision ps pe slots = None
        <-> forall x, In x slots -> overlaps ps pe (startTime x) (endTime x) = false)
  /\ (forall d ns ne existing,
        Gantt.valid (Gantt.conflictScan d ns ne existing) = true
        <-> forall x, In x existing -> getProductById d (productId x) <> None ->
                      overlaps ns ne (startTime x) (endTime x) = false)
  /\ (forall cs ce es ee, ce = es \/ cs = ee -> overlaps cs ce es ee = false)
  /\ (forall ps pe slots,
        (forall x, In x slots -> pe = startTime x \/ ps = endTime x) ->
        Optimizer.findCollision ps pe slots = None)
  /\ (forall d ns ne existing,
        (forall x, In x existing -> ne = startTime x \/ ns = endTime x) ->
        Gantt.conflictScan d ns ne existing = Gantt.mkValidity true None).
Proof.
  assert (Htouch : forall cs ce es ee, ce = es \/ cs = ee -> overlaps cs ce es ee = false).
  { intros cs ce es ee H. apply overlaps_false_iff. lia. }
  split; [|split; [|split; [|split; [|split; [|split]]]]].
  - apply overlaps_iff.
  - apply findCollision_overlaps.
  - apply findCollision_none.
  - apply conflictScan_valid.
  - exact Htouch.
  - intros ps pe slots H. apply findCollision_none. intros x Hx. apply Htouch. auto.
  - intros d ns ne existing H.
    induction existing as [|x l IH]; simpl; [reflexivity|].
    assert (IH' : Gantt.conflictScan d ns ne l = Gantt.mkValidity true None).
    { apply IH. intros y Hy. apply H. now right. }
    destruct (getProductById d (productId x)); [|exact IH'].
    fold (overlaps ns ne (startTime x) (endTime x)).
    rewrite (Htouch ns ne (startTime x) (endTime x) (H x (or_introl eq_refl))). exact IH'.
Qed.

(** C5: the validator does not decide overlap by the half-open rule for
    every existing interval: its loop passes over a run whose product does
    not resolve, whatever its interval.  After the product of a run that
    occupies line L on Monday from 08:00 to 09:00 is deleted, the run is
    still in the collection and among the runs the validator scans; a move
    of another run to 08:00-09:00 overlaps it by the rule, and the
    validator accepts the move, while the optimizer's test on the same
    interval reports the collision and the optimizer places the run after
    it, at 09:00. *)
Theorem validator_passes_over_an_unresolved_run :
  (forall d ns ne x rest,
     getProductById d (productId x) = None ->
     Gantt.conflictScan d ns ne (x :: rest) = Gantt.conflictScan d ns ne rest)
  /\ Store.appData (Store.deleteProductOp None "gone" Cases.beforeDelete) = Cases.ghostData
  /\ Gantt.schedulesOnTargetDayAndLine Cases.ghostData Scenarios.monday Cases.lateRun "L"
     = [Cases.ghostRun]
  /\ overlaps (Scenarios.instant 4 8 0) (Scenarios.instant 4 9 0)
       (startTime Cases.ghostRun) (endTime Cases.ghostRun) = true
  /\ SpecGrounds.overlapsAnotherRun Cases.ghostData Scenarios.monday Cases.lateRun "L"
       (Scenarios.instant 4 8 0) = true
  /\ Gantt.checkDropValidity Cases.ghostData Scenarios.monday Scenarios.someOtherDay
       Scenarios.someOtherDay Cases.lateRun "L" (Scenarios.instant 4 8 0)
     = Gantt.mkValidity true None
  /\ Optimizer.findCollision (Scenarios.instant 4 8 0) (Scenarios.instant 4 9 0)
       [Cases.ghostRun] = Some (Scenarios.instant 4 9 0)
  /\ Optimizer.optimizeDaySchedulesOp Cases.ghostData Scenarios.monday Scenarios.someOtherDay
     = Some Cases.ghostPass.
Proof.
  split.
  { intros d ns ne x rest H. cbn [Gantt.conflictScan]. now rewrite H. }
  split; [reflexivity|].
  split; [vm_compute; reflexivity|].
  split; [vm_compute; reflexivity|].
  split; [vm_compute; reflexivity|].
  split; [vm_compute; reflexivity|].
  split; vm_compute; reflexivity.
Qed.

(** ** Sorting and committing *)

Lemma insertByStart_perm x l : Permutation (insertByStart x l) (x :: l).
Proof.
  induction l as [|y l IH]; simpl; [reflexivity|].
  destruct (startTime x <=? startTime y); [reflexivity|].
  rewrite IH. apply perm_swap.
Qed.

Lemma sortByStart_perm l : Permutation (sortByStart l) l.
Proof.
  induction l as [|x l IH]; simpl; [reflexivity|].
  rewrite insertByStart_perm. now constructor.
Qed.

Lemma sortByStart_In x l : In x (sortByStart l) <-> In x l.
Proof.
  split; apply Permutation_in; [|symmetry]; apply sortByStart_perm.
Qed.

Lemma find_id_absent s us :
  ~ In (id s) (map id us) -> find (fun u => String.eqb (id s) (id u)) us = None.
Proof.
  intros H. destruct (find _ us) as [u|] eqn:E; [|reflexivity].
  apply find_some in E. destruct E as [Hin He]. apply String.eqb_eq in He.
  exfalso. apply H. rewrite He. now apply in_map.
Qed.

Lemma commitAll_perm us ss :
  NoDup (map id us) -> Permutation (commitAll us ss) (map (replaceBy us) ss).
Proof.
  revert ss. induction us as [|u us IH]; intros ss Hnd; simpl.
  - unfold replaceBy. simpl. now rewrite map_id.
  - inversion Hnd as [|? ? Hnotin Hnd']; subst.
    unfold commitAll in *. simpl. rewrite (IH _ Hnd').
    unfold updateScheduleOp. rewrite (Permutation_map _ (sortByStart_perm _)).
    rewrite map_map. apply Permutation_refl'. apply map_ext. intros s.
    unfold replaceBy at 2. simpl.
    destruct (String.eqb (id s) (id u)) eqn:E.
    + unfold replaceBy. now rewrite (find_id_absent u us Hnotin).
    + reflexivity.
Qed.

Lemma commitAll_ids us ss :
  (forall u, In u us -> True) ->
  Permutation (map id (commitAll us ss)) (map id ss).
Proof.
  intros _. revert ss. induction us as [|u us IH]; intros ss; simpl; [reflexivity|].
  unfold commitAll in *. simpl. rewrite IH. unfold updateScheduleOp.
  rewrite (Permutation_map _ (sortByStart_perm _)). rewrite map_map.
  apply Permutation_refl'. apply map_ext. intros s.
  destruct (String.eqb (id s) (id u)) eqn:E; [|reflexivity].
  apply String.eqb_eq in E. now symmetry.
Qed.

(** ** Run status clock *)

Module ClockFacts.
Import ClockSpec.
Import StatusClock.

Lemma withStatus_same s : withStatus s (status s) = s.
Proof. now destruct s. Qed.

Lemma transition_newStatus now s : withStatus s (newStatus now s) = transition now s.
Proof.
  unfold transition, newStatus. rewrite Z.geb_leb.
  destruct (status s) eqn:E; simpl.
  - destruct (startTime s <=? now), (now <? endTime s); simpl;
      try reflexivity; rewrite <- E; apply withStatus_same.
  - rewrite Z.geb_leb. destruct (endTime s <=? now); [reflexivity|].
    rewrite <- E; apply withStatus_same.
  - rewrite <- E; apply withStatus_same.
  - rewrite <- E; apply withStatus_same.
Qed.

Lemma transition_changes now s :
  transition now s <> s <-> newStatus now s <> status s.
Proof.
  rewrite <- transition_newStatus. split.
  - intros H E. apply H. rewrite E. apply withStatus_same.
  - intros H E. apply H. apply (f_equal status) in E. exact E.
Qed.

Lemma newStatus_terminal now s :
  status s = Cancelado \/ status s = Concluido -> newStatus now s = status s.
Proof. unfold newStatus. intros [E|E]; rewrite E; reflexivity. Qed.

Lemma pushed_iff now s :
  negb (status_eqb (status s) Cancelado) && negb (status_eqb (status s) Concluido)
    && negb (status_eqb (newStatus now s) (status s)) = true
  <-> transition now s <> s.
Proof.
  rewrite transition_changes. split.
  - rewrite !andb_true_iff, !negb_true_iff. intros [_ H]. now apply status_eqb_neq.
  - intros H. rewrite !andb_true_iff, !negb_true_iff. repeat split.
    + apply status_eqb_neq. intros E. apply H. apply newStatus_terminal. now left.
    + apply status_eqb_neq. intros E. apply H. apply newStatus_terminal. now right.
    + now apply status_eqb_neq.
Qed.

Lemma schedulesToUpdate_In now ss u :
  In u (schedulesToUpdate now ss)
  <-> exists s, In s ss /\ u = transition now s /\ transition now s <> s.
Proof.
  induction ss as [|a ss IH]; simpl.
  - split; [intros [] | intros (s & [] & _)].
  - destruct (_ && _) eqn:E.
    + apply pushed_iff in E. simpl. rewrite IH, transition_newStatus. split.
      * intros [<-|(s & Hs & Hu)]; [exists a; auto | exists s; tauto].
      * intros (s & [<-|Hs] & Hu & Hc); [now left | right; exists s; tauto].
    + assert (Hn : ~ transition now a <> a) by (rewrite <- pushed_iff, E; discriminate).
      rewrite IH. split.
      * intros (s & Hs & Hu); exists s; tauto.
      * intros (s & [<-|Hs] & Hu & Hc); [contradiction | exists s; tauto].
Qed.

Lemma transition_id now s : id (transition now s) = id s.
Proof.
  unfold transition. destruct (status s); try reflexivity;
    match goal with |- context [if ?c then _ else _] => destruct c end; reflexivity.
Qed.

Lemma schedulesToUpdate_ids now ss i :
  In i (map id (schedulesToUpdate now ss)) -> In i (map id ss).
Proof.
  rewrite !in_map_iff. intros (u & <- & Hu).
  apply schedulesToUpdate_In in Hu. destruct Hu as (s & Hs & -> & _).
  exists s. split; [symmetry; apply transition_id | assumption].
Qed.

Lemma schedulesToUpdate_NoDup now ss :
  NoDup (map id ss) -> NoDup (map id (schedulesToUpdate now ss)).
Proof.
  induction ss as [|a ss IH]; simpl; [constructor|].
  intros Hnd. inversion Hnd as [|? ? Hnotin Hnd']; subst.
  destruct (_ && _); [|now apply IH].
  simpl. constructor; [|now apply IH].
  intros Hin. apply Hnotin. now apply (schedulesToUpdate_ids now).
Qed.

Lemma replaceBy_clock now ss s :
  NoDup (map id ss) -> In s ss -> replaceBy (schedulesToUpdate now ss) s = transition now s.
Proof.
  induction ss as [|a ss IH]; simpl; [intros _ []|].
  intros Hnd Hin. inversion Hnd as [|? ? Hnotin Hnd']; subst.
  assert (Hrest : ~ In (id a) (map id (schedulesToUpdate now ss))).
  { intros H. apply Hnotin. now apply (schedulesToUpdate_ids now). }
  destruct Hin as [<-|Hin].
  - destruct (_ && _) eqn:E.
    + unfold replaceBy. simpl. rewrite String.eqb_refl. apply transition_newStatus.
    + unfold replaceBy. rewrite (find_id_absent a _ Hrest).
      assert (Hn : ~ transition now a <> a) by (rewrite <- pushed_iff, E; discriminate).
      destruct (status a) eqn:Es; unfold transition in *; rewrite Es in *;
        try reflexivity;
        match goal with |- context [if ?c then _ else _] => destruct c eqn:Ec end;
        try reflexivity; exfalso; apply Hn; intros Heq;
        apply (f_equal status) in Heq; simpl in Heq; congruence.
  - assert (Hne : String.eqb (id s) (id a) = false).
    { apply String.eqb_neq. intros Heq. apply Hnotin. rewrite <- Heq. now apply in_map. }
    destruct (_ && _).
    + unfold replaceBy. simpl. rewrite Hne. now apply IH.
    + now apply IH.
Qed.

Lemma tick_perm now ss :
  NoDup (map id ss) -> Permutation (tick now ss) (map (transition now) ss).
Proof.
  intros Hnd. unfold tick.
  rewrite (commitAll_perm _ ss (schedulesToUpdate_NoDup now ss Hnd)).
  apply Permutation_refl'. apply map_ext_in. intros s Hs. now apply replaceBy_clock.
Qed.

Lemma tick_NoDup now ss : NoDup (map id ss) -> NoDup (map id (tick now ss)).
Proof.
  intros Hnd. eapply Permutation_NoDup; [|exact Hnd].
  symmetry. unfold tick. apply commitAll_ids. auto.
Qed.

End ClockFacts.

(** C8: on a tick of the status clock at [now], a pending run with
    [start <= now < end] becomes in progress, a run in progress with
    [end <= now] becomes completed, and nothing else changes: the status
    computed for a run is the one of [transition], the updates committed are
    exactly the transitions that change a run, cancelled and completed runs
    are left as they are, and (run ids being distinct) the collection after
    the tick holds each run's transition. *)
Theorem status_clock_transitions (now : Z) (ss : list ScheduledProductionRun) :
  (forall s, withStatus s (StatusClock.newStatus now s) = ClockSpec.transition now s)
  /\ (forall s, status s = Pendente -> startTime s <= now < endTime s ->
                StatusClock.newStatus now s = EmProgresso)
  /\ (forall s, status s = EmProgresso -> endTime s <= now ->
                StatusClock.newStatus now s = Concluido)
  /\ (forall s, StatusClock.newStatus now s <> status s ->
                (status s = Pendente /\ startTime s <= now < endTime s)
                \/ (status s = EmProgresso /\ endTime s <= now))
  /\ (forall u, In u (StatusClock.schedulesToUpdate now ss)
                <-> exists s, In s ss /\ u = ClockSpec.transition now s
                              /\ ClockSpec.transition now s <> s)
  /\ (forall s, status s = Cancelado \/ status s = Concluido ->
                StatusClock.newStatus now s = status s
                /\ ~ In (withStatus s (StatusClock.newStatus now s))
                        (StatusClock.schedulesToUpdate now [s]))
  /\ (NoDup (map id ss) ->
      Permutation (StatusClock.tick now ss) (map (ClockSpec.transition now) ss)).
Proof.
  split; [|split; [|split; [|split; [|split; [|split]]]]].
  - intros s. apply ClockFacts.transition_newStatus.
  - intros s Es [H1 H2]. unfold StatusClock.newStatus. rewrite Es. simpl.
    rewrite Z.geb_leb. destruct (Z.leb_spec (startTime s) now); [|lia].
    destruct (Z.ltb_spec now (endTime s)); [reflexivity | lia].
  - intros s Es H. unfold StatusClock.newStatus. rewrite Es. simpl.
    rewrite Z.geb_leb. destruct (Z.leb_spec (endTime s) now); [reflexivity | lia].
  - intros s. unfold StatusClock.newStatus. rewrite !Z.geb_leb.
    destruct (status s) eqn:Es; simpl; try congruence.
    + destruct (Z.leb_spec (startTime s) now); simpl; [|congruence].
      destruct (Z.ltb_spec now (endTime s)); [|congruence]. intros _. left. split; [reflexivity | lia].
    + destruct (Z.leb_spec (endTime s) now); [|congruence]. intros _. right. split; [reflexivity | lia].
  - intros u. apply ClockFacts.schedulesToUpdate_In.
  - intros s Hs. split; [now apply ClockFacts.newStatus_terminal|].
    simpl. destruct Hs as [E|E]; rewrite E; simpl; auto.
  - apply ClockFacts.tick_perm.
Qed.

Lemma status_clock_transitions_witness :
  Permutation
    (StatusClock.tick 1500 [Scenarios.clockRunInProgress; Scenarios.clockRunCancelled; Scenarios.clockRunPending])
    [withStatus Scenarios.clockRunInProgress Concluido; Scenarios.clockRunCancelled;
     withStatus Scenarios.clockRunPending EmProgresso].
Proof.
  apply (proj2 (proj2 (proj2 (proj2 (proj2 (proj2
    (status_clock_transitions 1500 [Scenarios.clockRunInProgress; Scenarios.clockRunCancelled; Scenarios.clockRunPending]))))))).
  simpl. repeat constructor; simpl; intuition discriminate.
Defined.

Lemma ticks_keep_untouched now r :
  status r = Pendente -> endTime r <= now ->
  forall times ss, Forall (fun t => now <= t) times ->
  NoDup (map id ss) -> In r ss -> In r (StatusClock.ticks times ss).
Proof.
  intros Es He times. induction times as [|t times IH]; intros ss Ht Hnd Hin; simpl.
  - exact Hin.
  - inversion Ht as [|? ? Hle Ht']; subst. apply IH; [assumption | |].
    + now apply ClockFacts.tick_NoDup.
    + apply (Permutation_in _ (Permutation_sym (ClockFacts.tick_perm t ss Hnd))).
      apply in_map_iff. exists r. split; [|assumption].
      unfold ClockSpec.transition. rewrite Es.
      destruct (Z.ltb_spec t (endTime r)); [lia|]. now rewrite andb_false_r.
Qed.

(** C10: the status clock never takes a run from pending to completed.
    For a pending run whose end is at or before [now], the status computed
    at [now] and at every later instant is still pending, and (run ids being
    distinct) the run is found unchanged in the collection after the tick at
    [now] and after any sequence of later ticks. *)
Theorem pending_elapsed_stays_pending (now : Z) (r : ScheduledProductionRun) :
  status r = Pendente -> endTime r <= now ->
  (forall t, now <= t -> StatusClock.newStatus t r = Pendente)
  /\ (forall ss later,
        NoDup (map id ss) -> In r ss -> Forall (fun t => now <= t) later ->
        In r (StatusClock.ticks (now :: later) ss)).
Proof.
  intros Es He. split.
  - intros t Ht. unfold StatusClock.newStatus. rewrite Es. simpl.
    destruct (Z.ltb_spec t (endTime r)); [lia|]. now rewrite andb_false_r.
  - intros ss later Hnd Hin Hl.
    apply (ticks_keep_untouched r Es He); [|assumption|assumption].
    constructor; [lia | assumption].
Qed.

Lemma pending_elapsed_stays_pending_witness :
  StatusClock.newStatus 900 Scenarios.clockRunElapsed = Pendente
  /\ In Scenarios.clockRunElapsed
        (StatusClock.ticks [300; 400; 900] [Scenarios.clockRunInProgress; Scenarios.clockRunElapsed]).
Proof.
  assert (Es : status Scenarios.clockRunElapsed = Pendente) by reflexivity.
  assert (He : endTime Scenarios.clockRunElapsed <= 300) by (simpl; lia).
  destruct (pending_elapsed_stays_pending Scenarios.clockRunElapsed Es He) as [H1 H2].
  split.
  - apply H1. lia.
  - apply H2.
    + simpl. repeat constructor; simpl; intuition discriminate.
    + simpl. auto.
    + repeat constructor; lia.
Defined.

(** ** Day optimizer: the slot search *)

Module SearchFacts.
Import Placement.
Import Optimizer.

Section Search.

Variables (targetDayStart lineOpEndMinutes durationMinutes origin : Z).
Variable slots : list ScheduledProductionRun.

Let search fuel attempt :=
  searchSlot fuel targetDayStart lineOpEndMinutes durationMinutes origin slots attempt.

Lemma search_unfold fuel attempt :
  search (S fuel) attempt
  = if attemptInWindow targetDayStart lineOpEndMinutes durationMinutes attempt
    then match findCollision attempt (attempt + durationMinutes * 60000) slots with
         | Some existingEnd => search fuel (Z.max existingEnd origin)
         | None => SlotFound attempt (attempt + durationMinutes * 60000)
         end
    else NoSlot.
Proof.
  unfold search, attemptInWindow. simpl.
  rewrite Z.geb_leb, Z.gtb_ltb.
  destruct (getDate attempt =? getDate targetDayStart); simpl; [|reflexivity].
  destruct (Z.leb_spec lineOpEndMinutes (minutesOfDay attempt)) as [H|H];
    destruct (Z.ltb_spec (minutesOfDay attempt) lineOpEndMinutes) as [H'|H'];
    try lia; simpl; [reflexivity|].
  destruct (getDate (attempt + durationMinutes * 60000) =? getDate targetDayStart);
    simpl; [|reflexivity].
  destruct (Z.ltb_spec lineOpEndMinutes (minutesOfDay (attempt + durationMinutes * 60000)));
    destruct (Z.leb_spec (minutesOfDay (attempt + durationMinutes * 60000)) lineOpEndMinutes);
    destruct (Z.eqb_spec (minutesOfDay (attempt + durationMinutes * 60000)) lineOpEndMinutes);
    try lia; reflexivity.
Qed.

(** What an accepted slot satisfies. *)
Lemma search_found fuel attempt s e :
  origin <= attempt ->
  search fuel attempt = SlotFound s e ->
  attempt <= s
  /\ e = s + durationMinutes * 60000
  /\ attemptInWindow targetDayStart lineOpEndMinutes durationMinutes s = true
  /\ findCollision s e slots = None
  /\ (forall t, attempt <= t < s ->
        exists x, In x slots
                  /\ overlaps t (t + durationMinutes * 60000) (startTime x) (endTime x) = true).
Proof.
  revert attempt. induction fuel as [|fuel IH]; intros attempt Ho; [discriminate|].
  rewrite search_unfold.
  destruct (attemptInWindow targetDayStart lineOpEndMinutes durationMinutes attempt) eqn:Ew; [|discriminate].
  destruct (findCollision attempt (attempt + durationMinutes * 60000) slots)
    as [existingEnd|] eqn:Ec.
  - intros H. apply findCollision_some in Ec. destruct Ec as (x & Hx & He & Hov).
    apply overlaps_iff in Hov.
    apply IH in H; [|lia]. destruct H as (H1 & H2 & H3 & H4 & H5).
    split; [lia|]. repeat split; try assumption.
    intros t Ht. destruct (Z.lt_ge_cases t (Z.max existingEnd origin)) as [Hlt|Hge].
    + exists x. split; [assumption|]. apply overlaps_iff. lia.
    + apply H5. lia.
  - intros [= <- <-]. repeat split; try assumption; try lia.
Qed.

Lemma filter_length_lt (A : Type) (f g : A -> bool) (l : list A) (x : A) :
  (forall y, g y = true -> f y = true) ->
  In x l -> f x = true -> g x = false ->
  (List.length (filter g l) < List.length (filter f l))%nat.
Proof.
  intros Hsub. induction l as [|y l IH]; intros Hin Hf Hg; [destruct Hin|].
  assert (Hle : forall l', (List.length (filter g l') <= List.length (filter f l'))%nat).
  { induction l' as [|z l' IH']; simpl; [lia|].
    destruct (g z) eqn:Egz.
    - rewrite (Hsub z Egz). simpl. lia.
    - destruct (f z); simpl; lia. }
  simpl. destruct Hin as [->|Hin].
  - rewrite Hf, Hg. simpl. specialize (Hle l). lia.
  - specialize (IH Hin Hf Hg). destruct (g y) eqn:Egy.
    + rewrite (Hsub y Egy). simpl. lia.
    + destruct (f y); simpl; lia.
Qed.

Lemma search_terminates fuel attempt :
  (slotsEndingAfter slots attempt < fuel)%nat -> search fuel attempt <> OutOfFuel.
Proof.
  revert attempt. induction fuel as [|fuel IH]; intros attempt Hm; [lia|].
  rewrite search_unfold.
  destruct (attemptInWindow targetDayStart lineOpEndMinutes durationMinutes attempt); [|discriminate].
  destruct (findCollision attempt (attempt + durationMinutes * 60000) slots)
    as [existingEnd|] eqn:Ec; [|discriminate].
  apply findCollision_some in Ec. destruct Ec as (x & Hx & He & Hov).
  apply overlaps_iff in Hov. apply IH.
  assert (slotsEndingAfter slots (Z.max existingEnd origin) < slotsEndingAfter slots attempt)%nat; [|lia].
  unfold slotsEndingAfter. apply filter_length_lt with (x := x).
  - intros y Hy. apply Z.ltb_lt in Hy. apply Z.ltb_lt. lia.
  - assumption.
  - apply Z.ltb_lt. lia.
  - apply Z.ltb_ge. lia.
Qed.

Lemma search_enough_fuel attempt :
  search (S (List.length slots)) attempt <> OutOfFuel.
Proof.
  apply search_terminates. unfold slotsEndingAfter.
  pose proof (filter_length_le (fun x => attempt <? endTime x) slots). lia.
Qed.

End Search.

End SearchFacts.

(** ** Day optimizer: the placements as a function of the snapshot *)

Module OptimizerFacts.
Import Placement.
Import Optimizer SearchFacts.

Section Line.

Variables (d : AppData) (line : ProductionLine) (targetDayStart : Z)
          (isToday : bool) (now : Z).

Lemma slotFor_fuel slots ns : slotFor d line targetDayStart isToday now slots ns <> OutOfFuel.
Proof.
  unfold slotFor.
  destruct (getProductById d (productId ns)); [|discriminate].
  destruct (_ <=? 0); [discriminate|].
  destruct (find _ (operatingHours line)); [|discriminate].
  destruct (negb _); [discriminate|].
  destruct (_ >=? _); [discriminate|].
  apply search_enough_fuel.
Qed.

Lemma placeStep_slotFor slots a ns :
  match slotFor d line targetDayStart isToday now slots ns with
  | SlotFound s e =>
      exists det,
        placeStep d line targetDayStart isToday now (slots, a) ns
        = Some (sortByStart (slots ++ [withTimes ns s e]),
                mkAcc (optimizedCount a + 1) (unoptimizedCount a)
                      (schedulesToUpdate a ++ [withTimes ns s e]) (details a ++ [det]))
  | NoSlot =>
      exists det,
        placeStep d line targetDayStart isToday now (slots, a) ns
        = Some (slots,
                mkAcc (optimizedCount a) (unoptimizedCount a + 1)
                      (schedulesToUpdate a) (details a ++ [det]))
  | OutOfFuel => False
  end.
Proof.
  pose proof (slotFor_fuel slots ns) as Hfuel.
  unfold slotFor, placeStep in *.
  destruct (getProductById d (productId ns)) as [product|]; [|eexists; reflexivity].
  destruct (_ <=? 0); [eexists; reflexivity|].
  destruct (find _ (operatingHours line)) as [oh|]; [|eexists; reflexivity].
  destruct (negb _); [eexists; reflexivity|].
  destruct (_ >=? _); [eexists; reflexivity|].
  destruct (searchSlot _ _ _ _ _ _ _) as [s e| |];
    [eexists; reflexivity | eexists; reflexivity | congruence].
Qed.

Lemma placeAll_placements normalPending : forall slots a,
  exists slots' a',
    placeAll d line targetDayStart isToday now (slots, a) normalPending = Some (slots', a')
    /\ schedulesToUpdate a'
       = schedulesToUpdate a ++ placements d line targetDayStart isToday now slots normalPending
    /\ optimizedCount a'
       = optimizedCount a
         + Z.of_nat (List.length
             (placements d line targetDayStart isToday now slots normalPending))
    /\ unoptimizedCount a' + Z.of_nat (List.length
             (placements d line targetDayStart isToday now slots normalPending))
       = unoptimizedCount a + Z.of_nat (List.length normalPending).
Proof.
  induction normalPending as [|ns rest IH]; intros slots a.
  - exists slots, a. simpl. rewrite app_nil_r. repeat split; lia.
  - pose proof (placeStep_slotFor slots a ns) as Hstep. cbn [placeAll placements].
    destruct (slotFor d line targetDayStart isToday now slots ns) as [s e| |];
      [| |contradiction]; destruct Hstep as [det Hstep]; rewrite Hstep.
    + destruct (IH (sortByStart (slots ++ [withTimes ns s e]))
                   (mkAcc (optimizedCount a + 1) (unoptimizedCount a)
                          (schedulesToUpdate a ++ [withTimes ns s e]) (details a ++ [det])))
        as (slots' & a' & H1 & H2 & H3 & H4).
      exists slots', a'. rewrite H1, H2, H3. cbn [schedulesToUpdate optimizedCount] in *.
      rewrite <- app_assoc. cbn [unoptimizedCount] in H4.
      repeat split; cbn [List.length]; lia.
    + destruct (IH slots (mkAcc (optimizedCount a) (unoptimizedCount a + 1)
                                (schedulesToUpdate a) (details a ++ [det])))
        as (slots' & a' & H1 & H2 & H3 & H4).
      exists slots', a'. rewrite H1, H2, H3. cbn [schedulesToUpdate optimizedCount] in *.
      cbn [unoptimizedCount] in H4. repeat split; cbn [List.length]; lia.
Qed.

End Line.

Section Day.

Variable d : AppData.

Lemma partition_fold l : forall fixedSchedules normalPending a,
  exists a',
    fold_left (partitionStep d) l (fixedSchedules, normalPending, a)
    = (fixedSchedules ++ fixedOf d l, normalPending ++ movableOf d l, a')
    /\ schedulesToUpdate a' = schedulesToUpdate a
    /\ optimizedCount a' = optimizedCount a.
Proof.
  induction l as [|s l IH]; intros f n a.
  - exists a. simpl. now rewrite !app_nil_r.
  - cbn [fold_left]. unfold fixedOf, movableOf in *. cbn [filter].
    assert (Hnp : isNormalPending d s
                  = isClass (option_map classification (getProductById d (productId s)))
                            Normal
                    && status_eqb (status s) Pendente) by reflexivity.
    rewrite !Hnp. unfold partitionStep at 2.
    destruct (getProductById d (productId s)) as [p|]; cbn [option_map isClass].
    + destruct (classification p); cbn [classification_eqb orb andb negb].
      * destruct (IH (f ++ [s]) n a) as (a' & H1 & H2 & H3).
        exists a'. rewrite H1, <- app_assoc. auto.
      * destruct (status_eqb (status s) Pendente); cbn [negb].
        -- destruct (IH f (n ++ [s]) a) as (a' & H1 & H2 & H3).
           exists a'. rewrite H1, <- app_assoc. auto.
        -- match goal with
           | |- context [fold_left _ l (_, _, ?acc)] =>
               destruct (IH (f ++ [s]) n acc) as (a' & H1 & H2 & H3)
           end.
           exists a'. rewrite H1, <- app_assoc. auto.
    + cbn [orb andb negb].
      match goal with
      | |- context [fold_left _ l (_, _, ?acc)] =>
          destruct (IH (f ++ [s]) n acc) as (a' & H1 & H2 & H3)
      end.
      exists a'. rewrite H1, <- app_assoc. auto.
Qed.

Variables (onDay : list ScheduledProductionRun) (targetDayStart : Z)
          (isToday : bool) (now : Z).

Lemma lineStep_placements a lineId0 :
  exists a',
    lineStep d onDay targetDayStart isToday now a lineId0 = Some a'
    /\ schedulesToUpdate a'
       = schedulesToUpdate a ++ linePlacements d onDay targetDayStart isToday now lineId0
    /\ optimizedCount a'
       = optimizedCount a
         + Z.of_nat (List.length
             (linePlacements d onDay targetDayStart isToday now lineId0)).
Proof.
  unfold lineStep, linePlacements. fold (forLine lineId0 onDay).
  destruct (getProductionLineById d lineId0) as [line|].
  - destruct (partition_fold (forLine lineId0 onDay) [] [] a) as (a1 & H1 & H2 & H3).
    rewrite H1. cbn [app].
    destruct (placeAll_placements d line targetDayStart isToday now
                (sortByStart (movableOf d (forLine lineId0 onDay)))
                (sortByStart (fixedOf d (forLine lineId0 onDay))) a1)
      as (slots' & a' & Hp & Hs & Ho & _).
    rewrite Hp. exists a'. rewrite Hs, Ho, H2, H3. auto.
  - eexists. split; [reflexivity|]. simpl. rewrite app_nil_r. split; [reflexivity | lia].
Qed.

Lemma linesLoop_placements lineIds : forall a,
  exists a',
    linesLoop d onDay targetDayStart isToday now a lineIds = Some a'
    /\ schedulesToUpdate a'
       = schedulesToUpdate a
         ++ flat_map (linePlacements d onDay targetDayStart isToday now) lineIds
    /\ optimizedCount a'
       = optimizedCount a
         + Z.of_nat (List.length
             (flat_map (linePlacements d onDay targetDayStart isToday now) lineIds)).
Proof.
  induction lineIds as [|l ls IH]; intros a.
  - exists a. simpl. rewrite app_nil_r. repeat split. lia.
  - cbn [linesLoop flat_map].
    destruct (lineStep_placements a l) as (a1 & H1 & H2 & H3). rewrite H1.
    destruct (IH a1) as (a' & H4 & H5 & H6). exists a'.
    rewrite H4, H5, H6, H2, H3, <- app_assoc, length_app. repeat split. lia.
Qed.

End Day.

(** The optimizer always returns, and what it commits is [dayPlacements];
    the count it reports is the number of these placements. *)
Lemma optimizeDay_placements d dateToOptimize now :
  exists a,
    optimizeDaySchedulesOp d dateToOptimize now = Some a
    /\ schedulesToUpdate a = dayPlacements d dateToOptimize now
    /\ optimizedCount a = Z.of_nat (List.length (dayPlacements d dateToOptimize now)).
Proof.
  unfold optimizeDaySchedulesOp, dayPlacements.
  set (target := setHours dateToOptimize 0 0).
  set (onDay := schedulesStartingOn d target).
  destruct (linesLoop_placements d onDay target (sameDateString target now) now
              (dedup (map lineId onDay)) (mkAcc 0 0 [] []))
    as (a & H1 & H2 & H3).
  rewrite H1. cbn [schedulesToUpdate optimizedCount app] in H2, H3.
  destruct (schedulesToUpdate a) as [|p ps] eqn:Es.
  - destruct (_ && _).
    + destruct (_ && _).
      * eexists. split; [reflexivity|]. cbn [pushDetail schedulesToUpdate optimizedCount].
        rewrite Es, H3. split; [exact H2 | reflexivity].
      * destruct onDay.
        -- eexists. split; [reflexivity|].
           cbn [pushDetail schedulesToUpdate optimizedCount].
           rewrite Es, H3. split; [exact H2 | reflexivity].
        -- exists a. rewrite Es, H3. auto.
    + exists a. rewrite Es, H3. auto.
  - exists a. rewrite Es, H3. auto.
Qed.

(** *** What an accepted slot satisfies *)

Section Slot.

Variables (d : AppData) (line : ProductionLine) (targetDayStart : Z)
          (isToday : bool) (now : Z).

Lemma slotFor_found slots ns s e :
  slotFor d line targetDayStart isToday now slots ns = SlotFound s e ->
  Fits d line targetDayStart isToday now ns s e
  /\ findCollision s e slots = None
  /\ (forall oh, windowOf line targetDayStart = Some oh ->
      forall t,
        searchOrigin targetDayStart isToday now (timeToMinutes (oh_startTime oh)) <= t < s ->
        exists x, In x slots
                  /\ overlaps t (t + durationOf d line ns * 60000)
                       (startTime x) (endTime x) = true).
Proof.
  unfold slotFor, Fits, durationOf, windowOf.
  destruct (getProductById d (productId ns)) as [product|]; [|discriminate].
  destruct (Z.leb_spec (calculateProductDurationOnLine product line (quantity ns)) 0);
    [discriminate|].
  destruct (find _ (operatingHours line)) as [oh|]; [|discriminate].
  destruct (isActive oh) eqn:Ea; [|discriminate]. cbn [negb].
  rewrite Z.geb_leb.
  destruct (Z.leb_spec (timeToMinutes (oh_endTime oh))
              (minutesOfDay (searchOrigin targetDayStart isToday now
                               (timeToMinutes (oh_startTime oh))))); [discriminate|].
  intros Hs. apply search_found in Hs; [|lia].
  destruct Hs as (H1 & H2 & H3 & H4 & H5).
  split; [|split].
  - exists oh. repeat split; assumption || lia.
  - assumption.
  - intros oh' [= <-]. exact H5.
Qed.

End Slot.

(** *** Placements keep clear of the occupied slots and of one another *)

Lemma clearOfRun_sym p x : clearOfRun p x -> clearOfRun x p.
Proof. unfold clearOfRun. now rewrite overlaps_sym. Qed.

Lemma clearOf_incl s1 s2 new :
  (forall x, In x s2 -> In x s1) -> clearOf s1 new -> clearOf s2 new.
Proof.
  revert s1 s2. induction new as [|p rest IH]; intros s1 s2 Hincl; simpl; [auto|].
  intros [H1 H2]. split.
  - intros x Hx. apply H1. now apply Hincl.
  - apply (IH (p :: s1)); [|assumption].
    intros x [<-|Hx]; [now left | right; now apply Hincl].
Qed.

Lemma clearOf_pairs slots new :
  clearOf slots new ->
  ForallOrdPairs clearOfRun new
  /\ (forall p x, In p new -> In x slots -> clearOfRun p x).
Proof.
  revert slots. induction new as [|p rest IH]; intros slots; simpl.
  - intros _. split; [constructor | intros p x []].
  - intros [H1 H2]. destruct (IH _ H2) as [H3 H4]. split.
    + constructor; [|assumption].
      apply Forall_forall. intros q Hq. apply clearOfRun_sym. apply H4; [assumption | now left].
    + intros q x [<-|Hq] Hx; [now apply H1 | apply H4; [assumption | now right]].
Qed.

Lemma placements_clear d line targetDayStart isToday now normalPending : forall slots,
  clearOf slots (placements d line targetDayStart isToday now slots normalPending).
Proof.
  induction normalPending as [|ns rest IH]; intros slots; simpl; [exact I|].
  destruct (slotFor d line targetDayStart isToday now slots ns) as [s e| |] eqn:Es;
    try apply IH.
  apply slotFor_found in Es. destruct Es as (_ & Hc & _).
  simpl. split.
  - intros x Hx. unfold clearOfRun. simpl.
    now apply (proj1 (findCollision_none s e slots) Hc).
  - eapply clearOf_incl; [|apply IH].
    intros x [<-|Hx]; apply sortByStart_In, in_or_app; [right; now left | now left].
Qed.

(** Every placement is a run of the loop's list with new times. *)
Lemma placements_origin d line targetDayStart isToday now normalPending : forall slots p,
  In p (placements d line targetDayStart isToday now slots normalPending) ->
  exists ns s e,
    In ns normalPending /\ p = withTimes ns s e
    /\ Fits d line targetDayStart isToday now ns s e.
Proof.
  induction normalPending as [|ns rest IH]; intros slots p; simpl; [intros []|].
  destruct (slotFor d line targetDayStart isToday now slots ns) as [s e| |] eqn:Es.
  - intros [<-|Hp].
    + exists ns, s, e. apply slotFor_found in Es. intuition.
    + destruct (IH _ _ Hp) as (ns' & s' & e' & H1 & H2 & H3).
      exists ns', s', e'. auto.
  - intros Hp. destruct (IH _ _ Hp) as (ns' & s' & e' & H1 & H2 & H3).
    exists ns', s', e'. auto.
  - intros Hp. destruct (IH _ _ Hp) as (ns' & s' & e' & H1 & H2 & H3).
    exists ns', s', e'. auto.
Qed.

(** *** Lines *)

Lemma dedup_In x xs : In x (dedup xs) <-> In x xs.
Proof.
  induction xs as [|y xs IH]; simpl; [tauto|].
  rewrite filter_In, IH, negb_true_iff, String.eqb_neq.
  destruct (string_dec y x) as [->|Hne]; [tauto|].
  split; [tauto|]. intros [H|H]; [contradiction | right; split; congruence].
Qed.

Lemma dedup_NoDup xs : NoDup (dedup xs).
Proof.
  induction xs as [|y xs IH]; simpl; constructor.
  - rewrite filter_In, negb_true_iff, String.eqb_neq. tauto.
  - now apply NoDup_filter.
Qed.

Lemma FOP_app (A : Type) (R : A -> A -> Prop) (l1 l2 : list A) :
  ForallOrdPairs R l1 -> ForallOrdPairs R l2 ->
  (forall x y, In x l1 -> In y l2 -> R x y) ->
  ForallOrdPairs R (l1 ++ l2).
Proof.
  induction l1 as [|a l1 IH]; intros H1 H2 H12; simpl; [assumption|].
  inversion H1 as [|? ? Ha H1']; subst. constructor.
  - apply Forall_forall. intros y Hy. apply in_app_or in Hy. destruct Hy as [Hy|Hy].
    + now apply (proj1 (Forall_forall _ _) Ha).
    + apply H12; [now left | assumption].
  - apply IH; [assumption | assumption |].
    intros x y Hx Hy. apply H12; [now right | assumption].
Qed.

Lemma FOP_impl (A : Type) (R R' : A -> A -> Prop) (l : list A) :
  (forall x y, R x y -> R' x y) -> ForallOrdPairs R l -> ForallOrdPairs R' l.
Proof.
  intros HR. induction 1 as [|a l Ha Hl IH]; constructor; [|assumption].
  eapply Forall_impl; [|exact Ha]. intros y. apply HR.
Qed.

Lemma FOP_lines (f : string -> list ScheduledProductionRun) (ids : list string) :
  NoDup ids ->
  (forall i, ForallOrdPairs clearOfRun (f i)) ->
  (forall i p, In p (f i) -> lineId p = i) ->
  ForallOrdPairs clearOnLine (flat_map f ids).
Proof.
  intros Hnd Hf Hid. induction ids as [|i ids IH]; simpl; [constructor|].
  inversion Hnd as [|? ? Hnotin Hnd']; subst. apply FOP_app.
  - eapply FOP_impl; [|apply Hf]. intros x y Hxy _. exact Hxy.
  - now apply IH.
  - intros x y Hx Hy Hl. exfalso. apply Hnotin.
    apply in_flat_map in Hy. destruct Hy as (j & Hj & Hy).
    rewrite (Hid i x Hx) in Hl. rewrite (Hid j y Hy) in Hl. now subst.
Qed.

Section DayPlacements.

Variables (d : AppData) (onDay : list ScheduledProductionRun) (targetDayStart : Z)
          (isToday : bool) (now : Z).

Lemma movable_In lineId0 ns :
  In ns (sortByStart (movableOf d (forLine lineId0 onDay)))
  <-> In ns onDay /\ lineId ns = lineId0 /\ isNormalPending d ns = true.
Proof.
  rewrite sortByStart_In. unfold movableOf, forLine.
  rewrite !filter_In, String.eqb_eq. tauto.
Qed.

Lemma fixed_In lineId0 x :
  In x (sortByStart (fixedOf d (forLine lineId0 onDay)))
  <-> In x onDay /\ lineId x = lineId0 /\ isNormalPending d x = false.
Proof.
  rewrite sortByStart_In. unfold fixedOf, forLine.
  rewrite !filter_In, String.eqb_eq, negb_true_iff. tauto.
Qed.

Lemma linePlacements_origin lineId0 p :
  In p (linePlacements d onDay targetDayStart isToday now lineId0) ->
  exists line ns s e,
    getProductionLineById d lineId0 = Some line
    /\ In ns onDay /\ lineId ns = lineId0 /\ isNormalPending d ns = true
    /\ p = withTimes ns s e
    /\ Fits d line targetDayStart isToday now ns s e.
Proof.
  unfold linePlacements.
  destruct (getProductionLineById d lineId0) as [line|]; [|intros []].
  intros Hp. apply placements_origin in Hp.
  destruct Hp as (ns & s & e & Hns & Hp & Hf).
  apply movable_In in Hns. exists line, ns, s, e. tauto.
Qed.

Lemma linePlacements_lineId lineId0 p :
  In p (linePlacements d onDay targetDayStart isToday now lineId0) -> lineId p = lineId0.
Proof.
  intros Hp. apply linePlacements_origin in Hp.
  destruct Hp as (line & ns & s & e & _ & _ & Hl & _ & -> & _). exact Hl.
Qed.

Lemma linePlacements_clear lineId0 :
  ForallOrdPairs clearOfRun (linePlacements d onDay targetDayStart isToday now lineId0)
  /\ (forall p x,
        In p (linePlacements d onDay targetDayStart isToday now lineId0) ->
        In x onDay -> lineId x = lineId0 -> isNormalPending d x = false ->
        clearOfRun p x).
Proof.
  unfold linePlacements.
  destruct (getProductionLineById d lineId0) as [line|];
    [|split; [constructor | intros p x []]].
  destruct (clearOf_pairs _ _
              (placements_clear d line targetDayStart isToday now
                 (sortByStart (movableOf d (forLine lineId0 onDay)))
                 (sortByStart (fixedOf d (forLine lineId0 onDay))))) as [H1 H2].
  split; [assumption|].
  intros p x Hp Hx Hl Hn. apply H2; [assumption|]. apply fixed_In. tauto.
Qed.

End DayPlacements.

Lemma dayPlacements_origin d dateToOptimize now p :
  In p (dayPlacements d dateToOptimize now) ->
  exists line ns s e,
    getProductionLineById d (lineId p) = Some line
    /\ In ns (schedules d)
    /\ sameYearMonthDate (startTime ns) (setHours dateToOptimize 0 0) = true
    /\ isNormalPending d ns = true
    /\ p = withTimes ns s e
    /\ Fits d line (setHours dateToOptimize 0 0)
         (sameDateString (setHours dateToOptimize 0 0) now) now ns s e.
Proof.
  unfold dayPlacements. intros Hp. apply in_flat_map in Hp.
  destruct Hp as (l & _ & Hp). pose proof (linePlacements_lineId _ _ _ _ _ _ _ Hp) as Hl.
  apply linePlacements_origin in Hp.
  destruct Hp as (line & ns & s & e & H1 & H2 & H3 & H4 & H5 & H6).
  unfold schedulesStartingOn in H2. apply filter_In in H2.
  exists line, ns, s, e. rewrite Hl. tauto.
Qed.

Lemma dayPlacements_clear d dateToOptimize now :
  ForallOrdPairs clearOnLine (dayPlacements d dateToOptimize now)
  /\ (forall p x,
        In p (dayPlacements d dateToOptimize now) ->
        In x (schedules d) -> lineId x = lineId p ->
        sameYearMonthDate (startTime x) (setHours dateToOptimize 0 0) = true ->
        isNormalPending d x = false ->
        overlaps (startTime p) (endTime p) (startTime x) (endTime x) = false).
Proof.
  unfold dayPlacements. split.
  - apply FOP_lines.
    + apply dedup_NoDup.
    + intros i. apply linePlacements_clear.
    + intros i p. apply linePlacements_lineId.
  - intros p x Hp Hx Hl Hd Hn. apply in_flat_map in Hp. destruct Hp as (l & _ & Hp).
    pose proof (linePlacements_lineId _ _ _ _ _ _ _ Hp) as Hlp.
    eapply (proj2 (linePlacements_clear _ _ _ _ _ l)); try eassumption.
    + unfold schedulesStartingOn. apply filter_In. tauto.
    + congruence.
Qed.

End OptimizerFacts.


(** ** Day optimizer: non-overlap, frame and lock *)

(** C1, as stated, fails: a locked run that started the day before and runs
    into the target day is not among the occupied slots, and a movable run
    is placed over it. *)
Lemma placement_overlaps_overnight_locked_run :
  exists a p,
    Optimizer.optimizeDaySchedulesOp Scenarios.overnightData Scenarios.monday
      Scenarios.someOtherDay = Some a
    /\ In p (Optimizer.schedulesToUpdate a)
    /\ In Scenarios.overnightTop (schedules Scenarios.overnightData)
    /\ lineId Scenarios.overnightTop = lineId p
    /\ getProductById Scenarios.overnightData (productId Scenarios.overnightTop)
       = Some Scenarios.topProduct
    /\ overlaps (startTime p) (endTime p)
         (startTime Scenarios.overnightTop) (endTime Scenarios.overnightTop) = true.
Proof.
  eexists. exists (withTimes Scenarios.mondayNormal (Scenarios.instant 4 8 0)
                     (Scenarios.instant 4 9 0)).
  split; [vm_compute; reflexivity|].
  split; [left; reflexivity|].
  split; [left; reflexivity|].
  repeat split.
Qed.

(** C1 (amended): the optimizer returns, and among the placements it
    commits no two on the same line overlap, and none overlaps a run of the
    same line that starts on the target day and is not movable (a Top
    Seller run, a run that is not pending, or a run whose product does not
    resolve); overlap by the half-open rule. *)
Theorem optimizeDay_placements_do_not_overlap (d : AppData) (dateToOptimize now : Z) :
  exists a,
    Optimizer.optimizeDaySchedulesOp d dateToOptimize now = Some a
    /\ ForallOrdPairs
         (fun p q => lineId p = lineId q ->
                     overlaps (startTime p) (endTime p) (startTime q) (endTime q) = false)
         (Optimizer.schedulesToUpdate a)
    /\ (forall p x,
          In p (Optimizer.schedulesToUpdate a) ->
          In x (schedules d) -> lineId x = lineId p ->
          sameYearMonthDate (startTime x) (setHours dateToOptimize 0 0) = true ->
          Optimizer.isNormalPending d x = false ->
          overlaps (startTime p) (endTime p) (startTime x) (endTime x) = false).
Proof.
  destruct (OptimizerFacts.optimizeDay_placements d dateToOptimize now) as (a & H1 & H2 & _).
  exists a. rewrite H2. split; [assumption|].
  apply OptimizerFacts.dayPlacements_clear.
Qed.

(** C9: every placement the optimizer commits is a run of the snapshot
    with only its start and end replaced: id, line, product, quantity,
    status and notes are those of the run. *)
Theorem optimizeDay_changes_only_times (d : AppData) (dateToOptimize now : Z) :
  exists a,
    Optimizer.optimizeDaySchedulesOp d dateToOptimize now = Some a
    /\ forall p, In p (Optimizer.schedulesToUpdate a) ->
         exists r, In r (schedules d)
                   /\ p = withTimes r (startTime p) (endTime p)
                   /\ id p = id r /\ lineId p = lineId r /\ productId p = productId r
                   /\ quantity p = quantity r /\ status p = status r /\ notes p = notes r.
Proof.
  destruct (OptimizerFacts.optimizeDay_placements d dateToOptimize now) as (a & H1 & H2 & _).
  exists a. rewrite H2. split; [assumption|].
  intros p Hp. apply OptimizerFacts.dayPlacements_origin in Hp.
  destruct Hp as (line & r & s & e & _ & Hr & _ & _ & -> & _).
  exists r. simpl. repeat split; assumption || reflexivity.
Qed.

(** ** The Top Seller lock *)

Lemma isNormalPending_product d r :
  Optimizer.isNormalPending d r = true ->
  exists product, getProductById d (productId r) = Some product
                  /\ classification product = Normal /\ status r = Pendente.
Proof.
  unfold Optimizer.isNormalPending, Optimizer.classificationOf.
  destruct (getProductById d (productId r)) as [product|]; simpl; [|discriminate].
  rewrite andb_true_iff, classification_eqb_eq, status_eqb_eq. intros [H1 H2].
  exists product. auto.
Qed.

Lemma checkDropValidity_not_pending d day todayDate currentTime item targetLineId newStartTime :
  status item <> Pendente ->
  Gantt.valid (Gantt.checkDropValidity d day todayDate currentTime item targetLineId newStartTime)
  = false.
Proof.
  intros Hs. unfold Gantt.checkDropValidity.
  destruct (getProductById d (productId item)); [|reflexivity].
  destruct (getProductionLineById d targetLineId); [|reflexivity].
  apply status_eqb_neq in Hs. now rewrite Hs.
Qed.

(** C3, as stated, fails for the validator: [checkDropValidity] tests the
    status of the dragged run and not its classification, so a pending Top
    Seller run proposed at a free, in-window time is accepted. *)
Lemma validator_accepts_pending_top_seller :
  getProductById Scenarios.topOnlyData (productId Scenarios.mondayTop)
  = Some Scenarios.topProduct
  /\ classification Scenarios.topProduct = TopSeller
  /\ Gantt.checkDropValidity Scenarios.topOnlyData Scenarios.monday Scenarios.someOtherDay
       Scenarios.someOtherDay Scenarios.mondayTop "L" (Scenarios.instant 4 13 0)
     = Gantt.mkValidity true None.
Proof. repeat split. Qed.

(** C3 (amended): a run whose product is a Top Seller is never among the
    placements of the optimizer (the partition keeps it in the fixed set);
    on the interactive path the lock is applied when the drag starts:
    [handleDragStart] refuses the run and leaves the drag state as it was,
    so no verdict is computed for it from an idle state; [checkDropValidity]
    itself rejects every run that is not pending, whatever the target. *)
Theorem top_seller_is_never_moved (d : AppData) (r : ScheduledProductionRun)
    (product : Product) :
  getProductById d (productId r) = Some product ->
  classification product = TopSeller ->
  (forall dateToOptimize now,
     exists a,
       Optimizer.optimizeDaySchedulesOp d dateToOptimize now = Some a
       /\ (forall s e, ~ In (withTimes r s e) (Optimizer.schedulesToUpdate a))
       /\ (forall p, In p (Optimizer.schedulesToUpdate a) -> productId p <> productId r))
  /\ (forall l acc, In r l ->
        In r (fst (fst (fold_left (Optimizer.partitionStep d) l ([], [], acc))))
        /\ ~ In r (snd (fst (fold_left (Optimizer.partitionStep d) l ([], [], acc)))))
  /\ (forall draggedItem, Gantt.handleDragStart d draggedItem r = draggedItem)
  /\ (forall day todayDate currentTime lineId0 newStartTime,
        Gantt.handleDragOver d day todayDate currentTime
          (Gantt.handleDragStart d None r) lineId0 newStartTime = None)
  /\ (forall day todayDate currentTime item lineId0 newStartTime,
        status item <> Pendente ->
        Gantt.valid (Gantt.checkDropValidity d day todayDate currentTime item lineId0
                       newStartTime) = false).
Proof.
  intros Hp Hc.
  assert (Hnp : forall r', productId r' = productId r -> Optimizer.isNormalPending d r' = false).
  { intros r' He. unfold Optimizer.isNormalPending, Optimizer.classificationOf.
    rewrite He, Hp. simpl. now rewrite Hc. }
  assert (Hrefuse : Gantt.dragRefused d r = true).
  { unfold Gantt.dragRefused. rewrite Hp, Hc. reflexivity. }
  split; [|split; [|split; [|split]]].
  - intros dateToOptimize now.
    destruct (OptimizerFacts.optimizeDay_placements d dateToOptimize now) as (a & H1 & H2 & _).
    exists a. rewrite H2. split; [assumption|].
    assert (H : forall p, In p (Placement.dayPlacements d dateToOptimize now) ->
                          productId p <> productId r).
    { intros p Hin He. apply OptimizerFacts.dayPlacements_origin in Hin.
      destruct Hin as (line & ns & s & e & _ & _ & _ & Hn & -> & _).
      simpl in He. rewrite (Hnp ns He) in Hn. discriminate. }
    split; [|exact H].
    intros s e Hin. now apply (H _ Hin).
  - intros l acc Hin.
    destruct (OptimizerFacts.partition_fold d l [] [] acc) as (a' & H1 & _).
    rewrite H1. simpl. unfold Placement.fixedOf, Placement.movableOf.
    rewrite !filter_In, (Hnp r eq_refl). split; [auto | intros [_ H]; discriminate].
  - intros draggedItem. unfold Gantt.handleDragStart. now rewrite Hrefuse.
  - intros. unfold Gantt.handleDragStart. now rewrite Hrefuse.
  - intros. now apply checkDropValidity_not_pending.
Qed.

Lemma top_seller_is_never_moved_witness :
  (exists a,
     Optimizer.optimizeDaySchedulesOp Scenarios.overnightData Scenarios.monday
       Scenarios.someOtherDay = Some a
     /\ forall s e, ~ In (withTimes Scenarios.overnightTop s e) (Optimizer.schedulesToUpdate a))
  /\ Gantt.handleDragStart Scenarios.overnightData None Scenarios.overnightTop = None.
Proof.
  assert (Hp : getProductById Scenarios.overnightData (productId Scenarios.overnightTop)
               = Some Scenarios.topProduct) by reflexivity.
  assert (Hc : classification Scenarios.topProduct = TopSeller) by reflexivity.
  destruct (top_seller_is_never_moved Scenarios.overnightData Scenarios.overnightTop Hp Hc)
    as (H1 & _ & H3 & _).
  split.
  - destruct (H1 Scenarios.monday Scenarios.someOtherDay) as (a & Ha & Hn & _).
    exists a. split; assumption.
  - apply H3.
Defined.

(** ** Calendar: the day of the month does not repeat within 27 days *)

Module CalendarFacts.
Import Calendar.

Lemma civil_dayOfMonth days :
  snd (civilFromDays days) = domOfDoy (cycleDay days - yearStart (yoeOf (cycleDay days))).
Proof.
  unfold civilFromDays, cycleDay, yoeOf, yearStart, domOfDoy. cbn [snd].
  rewrite (Z.mod_eq (days + 719468) 146097) by lia.
  rewrite (Z.mul_comm 146097). reflexivity.
Qed.

Lemma cycleDay_range days : 0 <= cycleDay days < 146097.
Proof. unfold cycleDay. apply Z.mod_pos_bound. lia. Qed.

Lemma cycleDay_add days k :
  0 <= k < 146097 ->
  cycleDay (days + k) = cycleDay days + k \/ cycleDay (days + k) = cycleDay days + k - 146097.
Proof. intros H. unfold cycleDay. Z.div_mod_to_equations. lia. Qed.

Lemma yoeOf_year doe :
  0 <= doe < 146097 ->
  0 <= yoeOf doe <= 399
  /\ yearStart (yoeOf doe) <= doe
  /\ (yoeOf doe < 399 -> doe < yearStart (yoeOf doe + 1))
  /\ doe - yearStart (yoeOf doe) <= 365.
Proof. intros H. unfold yoeOf, yearStart. Z.div_mod_to_equations. lia. Qed.

Lemma yearStart_step y : 365 <= yearStart (y + 1) - yearStart y <= 366.
Proof. unfold yearStart. Z.div_mod_to_equations. lia. Qed.

Lemma yearStart_mono a b :
  a <= b -> yearStart a <= yearStart b /\ yearStart a + 365 * (b - a) - 2 <= yearStart b.
Proof.
  intros H. destruct (Z.eq_dec a b) as [->|Hne]; [lia|].
  unfold yearStart. Z.div_mod_to_equations. lia.
Qed.

Lemma within_year doy k :
  0 <= doy -> 1 <= k <= 27 -> doy + k <= 365 -> domOfDoy (doy + k) <> domOfDoy doy.
Proof. intros. unfold domOfDoy. Z.div_mod_to_equations. lia. Qed.

Lemma across_year_end len j k :
  365 <= len <= 366 -> 1 <= j -> j <= k <= 27 -> domOfDoy (k - j) <> domOfDoy (len - j).
Proof. intros. unfold domOfDoy. Z.div_mod_to_equations. lia. Qed.

Lemma dayOfMonth_distinct days k :
  1 <= k <= 27 -> snd (civilFromDays (days + k)) <> snd (civilFromDays days).
Proof.
  intros Hk. rewrite !civil_dayOfMonth.
  pose proof (cycleDay_range days) as R1.
  pose proof (cycleDay_range (days + k)) as R2.
  pose proof (yoeOf_year R1) as (A1 & A2 & A3 & A4).
  pose proof (yoeOf_year R2) as (B1 & B2 & B3 & B4).
  set (c1 := cycleDay days) in *. set (c2 := cycleDay (days + k)) in *.
  set (y1 := yoeOf c1) in *. set (y2 := yoeOf c2) in *.
  pose proof (yearStart_step y1) as S1.
  assert (Y399 : yearStart 399 = 145731) by reflexivity.
  assert (Y0 : yearStart 0 = 0) by reflexivity.
  destruct (cycleDay_add days (k := k)) as [E|E]; [lia| |]; fold c1 c2 in E.
  - destruct (Z.eq_dec y2 y1) as [Ey|Ney].
    + rewrite Ey in *. replace (c2 - yearStart y1) with ((c1 - yearStart y1) + k) by lia.
      apply within_year; lia.
    + assert (Hlt : y1 < y2).
      { destruct (Z.lt_ge_cases y1 y2); [assumption|].
        pose proof (@yearStart_mono (y2 + 1) y1 ltac:(lia)).
        specialize (B3 ltac:(lia)). lia. }
      assert (Hs : y2 = y1 + 1).
      { destruct (Z.eq_dec y2 (y1 + 1)); [assumption|].
        pose proof (@yearStart_mono (y1 + 1) y2 ltac:(lia)).
        specialize (A3 ltac:(lia)). lia. }
      subst y2. rewrite Hs in *. specialize (A3 ltac:(lia)).
      replace (c2 - yearStart (y1 + 1)) with (k - (yearStart (y1 + 1) - c1)) by lia.
      replace (c1 - yearStart y1)
        with ((yearStart (y1 + 1) - yearStart y1) - (yearStart (y1 + 1) - c1)) by lia.
      apply across_year_end; lia.
  - assert (H1 : y1 = 399).
    { destruct (Z.eq_dec y1 399); [assumption|]. specialize (A3 ltac:(lia)).
      pose proof (@yearStart_mono (y1 + 1) 399 ltac:(lia)). lia. }
    assert (H2 : y2 = 0).
    { destruct (Z.eq_dec y2 0); [assumption|].
      pose proof (@yearStart_mono 0 y2 ltac:(lia)). lia. }
    rewrite H1, H2, Y399, Y0 in *.
    replace (c2 - 0) with (k - (146097 - c1)) by lia.
    replace (c1 - 145731) with (366 - (146097 - c1)) by lia.
    apply across_year_end; lia.
Qed.

(** Two instants at most 27 calendar days apart have the same day of
    month only if they fall on the same day. *)
Lemma getDate_same_day s e :
  epochDay s <= epochDay e <= epochDay s + 27 ->
  getDate e = getDate s -> epochDay e = epochDay s.
Proof.
  intros H Hd. destruct (Z.eq_dec (epochDay e) (epochDay s)) as [|Hne]; [assumption|].
  exfalso. unfold getDate in Hd.
  replace (epochDay e) with (epochDay s + (epochDay e - epochDay s)) in Hd by lia.
  revert Hd. apply dayOfMonth_distinct. lia.
Qed.

Lemma getDate_epochDay a b : epochDay a = epochDay b -> getDate a = getDate b.
Proof. unfold getDate. now intros ->. Qed.

Lemma epochDay_add s dur :
  0 <= dur <= 27 * msPerDay -> epochDay s <= epochDay (s + dur) <= epochDay s + 27.
Proof.
  unfold epochDay, msPerDay. intros H. Z.div_mod_to_equations. lia.
Qed.

End CalendarFacts.

(** ** Day optimizer: the operating window *)

Lemma setHours_minutes t m :
  0 <= m -> setHours t (m / 60) (Z.rem m 60) = epochDay t * msPerDay + m * msPerMinute.
Proof.
  intros Hm. unfold setHours, msPerHour, msPerMinute.
  rewrite Z.rem_mod_nonneg by lia. Z.div_mod_to_equations. lia.
Qed.

Lemma timeToMinutes_nonneg t : 0 <= timeToMinutes t.
Proof. unfold timeToMinutes. lia. Qed.

Lemma searchOrigin_after_window_start targetDayStart isToday now opStart :
  0 <= opStart ->
  epochDay targetDayStart * msPerDay + opStart * msPerMinute
  <= Optimizer.searchOrigin targetDayStart isToday now opStart.
Proof.
  intros H. unfold Optimizer.searchOrigin. rewrite setHours_minutes by assumption.
  destruct isToday; [|lia].
  destruct (Z.gtb_spec (setSeconds0 now)
              (epochDay targetDayStart * msPerDay + opStart * msPerMinute)); lia.
Qed.

(** What the window tests of the search give for every placement: it
    starts at or after the window start of the target day, at a clock minute
    before the window end; its end has the target's day of the month and a
    clock minute at or before the window end. *)
Lemma placement_window_checks d dateToOptimize now p :
  In p (Placement.dayPlacements d dateToOptimize now) ->
  exists line oh,
    getProductionLineById d (lineId p) = Some line
    /\ Placement.windowOf line (setHours dateToOptimize 0 0) = Some oh
    /\ isActive oh = true
    /\ epochDay dateToOptimize * msPerDay + timeToMinutes (oh_startTime oh) * msPerMinute
       <= startTime p
    /\ getDate (startTime p) = getDate (setHours dateToOptimize 0 0)
    /\ minutesOfDay (startTime p) < timeToMinutes (oh_endTime oh)
    /\ getDate (endTime p) = getDate (setHours dateToOptimize 0 0)
    /\ minutesOfDay (endTime p) <= timeToMinutes (oh_endTime oh)
    /\ startTime p < endTime p.
Proof.
  intros Hp. apply OptimizerFacts.dayPlacements_origin in Hp.
  destruct Hp as (line & ns & s & e & Hl & _ & _ & _ & -> & Hf).
  destruct Hf as (oh & H1 & H2 & H3 & H4 & H5 & H6 & H7).
  exists line, oh. simpl.
  unfold Placement.attemptInWindow in H7. rewrite <- H6 in H7.
  rewrite !andb_true_iff, !Z.eqb_eq, Z.ltb_lt, Z.leb_le in H7.
  pose proof (searchOrigin_after_window_start (setHours dateToOptimize 0 0)
                (sameDateString (setHours dateToOptimize 0 0) now) now
                (timeToMinutes_nonneg (oh_startTime oh))) as Ho.
  assert (Hd : epochDay (setHours dateToOptimize 0 0) = epochDay dateToOptimize).
  { unfold setHours, epochDay, msPerDay. Z.div_mod_to_equations. lia. }
  rewrite Hd in Ho.
  repeat split; try tauto; lia.
Qed.

(** A placement that ends on the target day ends less than one minute
    after the window end, and at or before it when it ends on a whole
    minute. *)
Lemma placement_ends_in_window_on_target_day d dateToOptimize now p :
  In p (Placement.dayPlacements d dateToOptimize now) ->
  epochDay (endTime p) = epochDay dateToOptimize ->
  exists line oh,
    getProductionLineById d (lineId p) = Some line
    /\ Placement.windowOf line (setHours dateToOptimize 0 0) = Some oh
    /\ epochDay dateToOptimize * msPerDay + timeToMinutes (oh_startTime oh) * msPerMinute
       <= startTime p
    /\ endTime p
       < epochDay dateToOptimize * msPerDay + (timeToMinutes (oh_endTime oh) + 1) * msPerMinute
    /\ (endTime p mod msPerMinute = 0 ->
        endTime p
        <= epochDay dateToOptimize * msPerDay + timeToMinutes (oh_endTime oh) * msPerMinute).
Proof.
  intros Hp He.
  destruct (placement_window_checks d dateToOptimize now p Hp)
    as (line & oh & H1 & H2 & _ & H3 & _ & _ & _ & H4 & _).
  exists line, oh. split; [assumption|]. split; [assumption|]. split; [assumption|].
  revert H4 He. generalize (timeToMinutes (oh_endTime oh)) as opEnd.
  generalize (endTime p) as e. generalize dateToOptimize as t.
  unfold minutesOfDay, getHours, getMinutes, epochDay, msPerDay, msPerHour, msPerMinute.
  intros t e opEnd H4 He. split; [|intros Hm]; Z.div_mod_to_equations; lia.
Qed.

(** C2 fails on the code for a run whose duration is a whole number of
    months: the search compares only the day of the month of the proposed
    end with the target's, so a 31-day run placed at 08:00 on 1 January is
    accepted although it ends on 1 February, long after the window of the
    target day has closed. *)
Lemma month_long_run_is_placed_past_the_window :
  exists a,
    Optimizer.optimizeDaySchedulesOp Scenarios.monthLongData (Scenarios.instant 0 0 0)
      Scenarios.someOtherDay = Some a
    /\ Optimizer.schedulesToUpdate a
       = [withTimes Scenarios.monthLong (Scenarios.instant 0 8 0) (Scenarios.instant 31 8 0)]
    /\ Placement.windowOf Scenarios.lineL (Scenarios.instant 0 0 0)
       = Some (mkOperatingDayTime 4 (mkTimeOfDay 8 0) (mkTimeOfDay 17 0) true)
    /\ Scenarios.instant 0 17 0 < Scenarios.instant 31 8 0
    /\ getDate (Scenarios.instant 31 8 0) = getDate (Scenarios.instant 0 0 0)
    /\ epochDay (Scenarios.instant 31 8 0) <> epochDay (Scenarios.instant 0 0 0).
Proof.
  eexists. split; [vm_compute; reflexivity|].
  split; [reflexivity|]. split; [reflexivity|].
  split; [reflexivity|]. split; [reflexivity|]. vm_compute. discriminate.
Qed.

(** ** Interactive placement validator *)

Module GanttFacts.
Import Grounds.
Import Gantt.

Lemma conflictScan_firstConflict d ns ne existing :
  match firstConflict d ns ne existing with
  | None => conflictScan d ns ne existing = mkValidity true None
  | Some x =>
      exists existingProduct,
        getProductById d (productId x) = Some existingProduct
        /\ conflictScan d ns ne existing
           = mkValidity false (Some (conflictMessage existingProduct))
  end.
Proof.
  unfold firstConflict, conflictMessage.
  induction existing as [|x l IH]; simpl; [reflexivity|].
  destruct (getProductById d (productId x)) as [p|] eqn:Ep; [|exact IH].
  fold (overlaps ns ne (startTime x) (endTime x)).
  destruct (overlaps ns ne (startTime x) (endTime x)); [|exact IH].
  exists p. split; [assumption|]. now destruct (classification_eqb _ _).
Qed.

(** The window test of [checkDropValidity] on a proposal that starts on
    the chart's day and lasts at most 27 days. *)
Lemma window_test day opStart opEnd newStartTime duration :
  epochDay newStartTime = epochDay day ->
  0 <= duration <= 27 * msPerDay ->
  (negb (getDate newStartTime =? getDate day)
   || (minutesOfDay newStartTime <? opStart)
   || negb (getDate (newStartTime + duration) =? getDate day)
   || (minutesOfDay (newStartTime + duration) >? opEnd))
  && negb ((getDate (newStartTime + duration) =? getDate day)
           && (minutesOfDay (newStartTime + duration) =? opEnd)
           && (minutesOfDay newStartTime >=? opStart)) = false
  <-> opStart <= minutesOfDay newStartTime
      /\ epochDay (newStartTime + duration) = epochDay day
      /\ minutesOfDay (newStartTime + duration) <= opEnd.
Proof.
  intros Hs Hd.
  rewrite (CalendarFacts.getDate_epochDay _ _ Hs), Z.eqb_refl. cbn [negb orb].
  assert (He : getDate (newStartTime + duration) = getDate day
               <-> epochDay (newStartTime + duration) = epochDay day).
  { split.
    - intros H. rewrite <- Hs. apply CalendarFacts.getDate_same_day.
      + now apply CalendarFacts.epochDay_add.
      + rewrite H. symmetry. now apply CalendarFacts.getDate_epochDay.
    - apply CalendarFacts.getDate_epochDay. }
  rewrite Z.gtb_ltb, Z.geb_leb.
  destruct (Z.eqb_spec (getDate (newStartTime + duration)) (getDate day)) as [E|E];
    destruct (Z.ltb_spec (minutesOfDay newStartTime) opStart);
    destruct (Z.ltb_spec opEnd (minutesOfDay (newStartTime + duration)));
    destruct (Z.eqb_spec (minutesOfDay (newStartTime + duration)) opEnd);
    destruct (Z.leb_spec opStart (minutesOfDay newStartTime));
    cbn [negb orb andb]; try lia;
    (split; [try discriminate; intros _ | try reflexivity; intros (? & ? & ?)]);
    try lia; try tauto.
Qed.

(** The conflict loop finds a run exactly when one satisfies
    [conflictsWith]. *)
Section Grounds.

Variables (d : AppData) (day todayDate currentTime : Z)
          (item : ScheduledProductionRun) (targetLineId : string) (newStartTime : Z).

Let newEndTime := newStartTime + (endTime item - startTime item).

Lemma firstConflict_none :
  firstConflict d newStartTime newEndTime
    (schedulesOnTargetDayAndLine d day item targetLineId) = None
  <-> ~ exists x, conflictsWith d day item targetLineId newStartTime x.
Proof.
  unfold firstConflict, conflictsWith, schedulesOnTargetDayAndLine, newEndTime. split.
  - intros Hn (x & H1 & H2 & H3 & H4 & H5 & H6).
    assert (Hin : In x (filter (fun s => String.eqb (lineId s) targetLineId
                                         && negb (String.eqb (id s) (id item))
                                         && sameYearMonthDate (startTime s) day)
                               (schedules d))).
    { apply filter_In. split; [assumption|].
      rewrite !andb_true_iff, negb_true_iff, String.eqb_eq, String.eqb_neq. tauto. }
    pose proof (find_none _ _ Hn x Hin) as Hf. cbn beta in Hf.
    destruct (getProductById d (productId x)); congruence.
  - intros Hn. destruct (find _ _) as [x|] eqn:E; [|reflexivity].
    exfalso. apply Hn. apply find_some in E. destruct E as [Hin Hx].
    apply filter_In in Hin. destruct Hin as [Hin Hc].
    rewrite !andb_true_iff, negb_true_iff, String.eqb_eq, String.eqb_neq in Hc.
    exists x. destruct (getProductById d (productId x)); [|discriminate].
    repeat split; try tauto. discriminate.
Qed.

Lemma firstConflict_some x :
  firstConflict d newStartTime newEndTime
    (schedulesOnTargetDayAndLine d day item targetLineId) = Some x ->
  conflictsWith d day item targetLineId newStartTime x.
Proof.
  unfold firstConflict, conflictsWith, schedulesOnTargetDayAndLine, newEndTime.
  intros E. apply find_some in E. destruct E as [Hin Hx].
  apply filter_In in Hin. destruct Hin as [Hin Hc].
  rewrite !andb_true_iff, negb_true_iff, String.eqb_eq, String.eqb_neq in Hc.
  destruct (getProductById d (productId x)); [|discriminate].
  repeat split; try tauto. discriminate.
Qed.

End Grounds.

End GanttFacts.


(** The guards ahead of the four tests: a run in progress proposed at a
    free time inside the window of an active line, on a day that is not
    today, is rejected although none of the four tests fails. *)
Lemma validator_rejects_outside_the_four_grounds :
  Gantt.checkDropValidity Scenarios.inProgressData Scenarios.monday Scenarios.someOtherDay
    Scenarios.someOtherDay Scenarios.runInProgress "L" (Scenarios.instant 4 13 0)
  = Gantt.mkValidity false
      (Some (Gantt.StatusCannotMove "Normal product" EmProgresso))
  /\ ~ Grounds.lineInactive Scenarios.inProgressData Scenarios.monday "L"
  /\ ~ Grounds.outsideWindow Scenarios.inProgressData Scenarios.monday
         Scenarios.runInProgress "L" (Scenarios.instant 4 13 0)
  /\ ~ Grounds.inThePast Scenarios.monday Scenarios.someOtherDay Scenarios.someOtherDay
         (Scenarios.instant 4 13 0)
  /\ ~ (exists x, Grounds.conflictsWith Scenarios.inProgressData Scenarios.monday
                    Scenarios.runInProgress "L" (Scenarios.instant 4 13 0) x).
Proof.
  split; [reflexivity|]. split; [|split; [|split]].
  - intros H. specialize (H _ eq_refl). discriminate.
  - intros (oh & H1 & _ & H3). injection H1 as <-. apply H3. vm_compute.
    repeat split; congruence.
  - intros [H _]. vm_compute in H. discriminate.
  - intros (x & Hin & _ & Hid & _). destruct Hin as [<-|[]]. now apply Hid.
Qed.

(** X30: what [checkDropValidity] does, test by test.  For a pending run
    whose product and target line resolve, proposed to start on the chart's
    day and lasting between 0 and 27 days, it rejects, with a message,
    exactly when the target line has no active entry for the day's weekday,
    or the window test fails (judged on clock minutes: the start's minute
    before the window start, the end not on the chart's day, or the end's
    minute after the window end), or the chart's day is today and the
    proposed start is before the current minute, or the proposed interval
    overlaps another run of that line that starts that day and whose
    product resolves; it accepts otherwise, with no message.  The message
    names the first test that fails, in that order, and for an overlap tells
    a Top Seller from a Normal product. *)
Theorem validateMove_rejects_exactly
    (d : AppData) (day todayDate currentTime : Z) (item : ScheduledProductionRun)
    (targetLineId : string) (newStartTime : Z) (product : Product)
    (targetLine : ProductionLine) :
  getProductById d (productId item) = Some product ->
  getProductionLineById d targetLineId = Some targetLine ->
  status item = Pendente ->
  epochDay newStartTime = epochDay day ->
  0 <= endTime item - startTime item <= 27 * msPerDay ->
  let v := Gantt.checkDropValidity d day todayDate currentTime item targetLineId newStartTime in
  let inactive := Grounds.lineInactive d day targetLineId in
  let outside := Grounds.outsideWindow d day item targetLineId newStartTime in
  let past := Grounds.inThePast day todayDate currentTime newStartTime in
  let conflict := Grounds.conflictsWith d day item targetLineId newStartTime in
  (Gantt.valid v = false <-> inactive \/ outside \/ past \/ exists x, conflict x)
  /\ (Gantt.valid v = true -> Gantt.message v = None)
  /\ (Gantt.valid v = false -> Gantt.message v <> None)
  /\ (inactive -> Gantt.message v = Some (Gantt.LineDoesNotOperate (l_name targetLine)))
  /\ (outside ->
      exists oh, Gantt.getLineOperatingHoursForDay d day targetLineId = Some oh
                 /\ Gantt.message v
                    = Some (Gantt.OutsideOperatingHours (oh_startTime oh) (oh_endTime oh)))
  /\ (~ inactive -> ~ outside -> past ->
      Gantt.message v
      = Some (Gantt.BeforeCurrentTime (toLocaleTimeString (setSeconds0 currentTime))))
  /\ (~ inactive -> ~ outside -> ~ past ->
      forall x,
        Grounds.firstConflict d newStartTime
          (newStartTime + (endTime item - startTime item))
          (Gantt.schedulesOnTargetDayAndLine d day item targetLineId) = Some x ->
        exists existingProduct,
          getProductById d (productId x) = Some existingProduct
          /\ Gantt.message v
             = Some (if classification_eqb (classification existingProduct) TopSeller
                     then Gantt.ConflictTopSeller (p_name existingProduct)
                     else Gantt.ConflictNormal (p_name existingProduct))).
Proof.
  intros Hp Hl Hs Hday Hdur v inactive outside past conflict.
  subst v inactive outside past conflict.
  unfold Gantt.checkDropValidity, Grounds.lineInactive, Grounds.outsideWindow,
    Grounds.inThePast.
  rewrite Hp, Hl, Hs. cbn [status_eqb negb].
  destruct (Gantt.getLineOperatingHoursForDay d day targetLineId) as [oh|] eqn:Eoh.
  2:{ cbn [Gantt.valid Gantt.message].
      split; [split; [intros _; left; intros oh' H'; discriminate | reflexivity]|].
      split; [discriminate|]. split; [discriminate|]. split; [reflexivity|].
      split; [intros (oh' & H' & _); discriminate|].
      split; intros Hn; exfalso; apply Hn; intros oh' H'; discriminate. }
  destruct (isActive oh) eqn:Ea; cbn [negb].
  2:{ cbn [Gantt.valid Gantt.message].
      split; [split; [intros _; left; intros oh' [= <-]; assumption | reflexivity]|].
      split; [discriminate|]. split; [discriminate|]. split; [reflexivity|].
      split; [intros (oh' & [= <-] & H' & _); congruence|].
      split; intros Hn; exfalso; apply Hn; intros oh' [= <-]; assumption. }
  assert (Hact : ~ (forall oh0, Some oh = Some oh0 -> isActive oh0 = false)).
  { intros H. specialize (H oh eq_refl). congruence. }
  pose proof (@GanttFacts.window_test day (timeToMinutes (oh_startTime oh))
                (timeToMinutes (oh_endTime oh)) newStartTime
                (endTime item - startTime item) Hday Hdur) as Hw.
  match type of Hw with ?b = false <-> _ => destruct b eqn:Ew end.
  { assert (Hout : exists oh0, Some oh = Some oh0 /\ isActive oh0 = true
                     /\ ~ (timeToMinutes (oh_startTime oh0) <= minutesOfDay newStartTime
                           /\ epochDay (newStartTime + (endTime item - startTime item))
                              = epochDay day
                           /\ minutesOfDay (newStartTime + (endTime item - startTime item))
                              <= timeToMinutes (oh_endTime oh0))).
    { exists oh. split; [reflexivity|]. split; [assumption|].
      intros H. apply Hw in H. discriminate. }
    cbn [Gantt.valid Gantt.message].
    split; [split; [intros _; right; left; exact Hout | reflexivity]|].
    split; [discriminate|]. split; [discriminate|].
    split; [intros H; contradiction|].
    split; [intros _; exists oh; split; reflexivity|].
    split; intros _ Hn; contradiction. }
  assert (Hin : ~ exists oh0, Some oh = Some oh0 /\ isActive oh0 = true
                  /\ ~ (timeToMinutes (oh_startTime oh0) <= minutesOfDay newStartTime
                        /\ epochDay (newStartTime + (endTime item - startTime item))
                           = epochDay day
                        /\ minutesOfDay (newStartTime + (endTime item - startTime item))
                           <= timeToMinutes (oh_endTime oh0))).
  { intros (oh0 & [= <-] & _ & H). apply H. now apply Hw. }
  destruct (Gantt.isChartForToday day todayDate && (newStartTime <? setSeconds0 currentTime))
    eqn:Epast.
  { apply andb_true_iff in Epast. destruct Epast as [E1 E2]. apply Z.ltb_lt in E2.
    cbn [Gantt.valid Gantt.message].
    split; [split; [intros _; right; right; left; split; assumption | reflexivity]|].
    split; [discriminate|]. split; [discriminate|].
    split; [intros H; contradiction|].
    split; [intros H; contradiction|].
    split; [reflexivity|]. intros _ _ Hn. exfalso. apply Hn. split; assumption. }
  assert (Hnp : ~ (Gantt.isChartForToday day todayDate = true
                   /\ newStartTime < setSeconds0 currentTime)).
  { intros [E1 E2]. apply Z.ltb_lt in E2. rewrite E1, E2 in Epast. discriminate. }
  pose proof (GanttFacts.conflictScan_firstConflict d newStartTime
                (newStartTime + (endTime item - startTime item))
                (Gantt.schedulesOnTargetDayAndLine d day item targetLineId)) as Hscan.
  pose proof (GanttFacts.firstConflict_none d day item targetLineId newStartTime) as Hnone.
  destruct (Grounds.firstConflict d newStartTime
              (newStartTime + (endTime item - startTime item))
              (Gantt.schedulesOnTargetDayAndLine d day item targetLineId)) as [x|] eqn:Ef.
  - destruct Hscan as (ep & Hep & Hscan). rewrite Hscan. cbn [Gantt.valid Gantt.message].
    assert (Hex : exists x0, Grounds.conflictsWith d day item targetLineId newStartTime x0).
    { exists x. now apply GanttFacts.firstConflict_some. }
    split; [split; [intros _; right; right; right; exact Hex | reflexivity]|].
    split; [discriminate|]. split; [discriminate|].
    split; [intros H; contradiction|].
    split; [intros H; contradiction|].
    split; [intros _ _ H; contradiction|].
    intros _ _ _ x' [= <-]. exists ep. split; [assumption | reflexivity].
  - rewrite Hscan. cbn [Gantt.valid Gantt.message].
    split; [split; [discriminate|]|].
    + intros [H|[H|[H|H]]]; try contradiction. exfalso. now apply (proj1 Hnone).
    + split; [reflexivity|]. split; [congruence|].
      split; [intros H; contradiction|].
      split; [intros H; contradiction|].
      split; [intros _ _ H; contradiction|].
      intros _ _ _ x' Hx. discriminate.
Qed.

Lemma validateMove_rejects_exactly_witness :
  Gantt.valid
    (Gantt.checkDropValidity Scenarios.conflictData Scenarios.monday Scenarios.someOtherDay
       Scenarios.someOtherDay Scenarios.pendingRun "L" (Scenarios.instant 4 13 30))
  = false.
Proof.
  assert (Hp : getProductById Scenarios.conflictData (productId Scenarios.pendingRun)
               = Some Scenarios.normalProduct) by reflexivity.
  assert (Hl : getProductionLineById Scenarios.conflictData "L" = Some Scenarios.lineL)
    by reflexivity.
  assert (Hs : status Scenarios.pendingRun = Pendente) by reflexivity.
  assert (Hday : epochDay (Scenarios.instant 4 13 30) = epochDay Scenarios.monday)
    by (vm_compute; reflexivity).
  assert (Hdur : 0 <= endTime Scenarios.pendingRun
                      - startTime Scenarios.pendingRun <= 27 * msPerDay)
    by (vm_compute; split; discriminate).
  pose proof (@validateMove_rejects_exactly Scenarios.conflictData Scenarios.monday
                Scenarios.someOtherDay Scenarios.someOtherDay Scenarios.pendingRun
                "L" (Scenarios.instant 4 13 30) Scenarios.normalProduct Scenarios.lineL
                Hp Hl Hs Hday Hdur) as H.
  cbv zeta in H. destruct H as [H _]. apply H. right. right. right.
  exists Scenarios.topRun. unfold Grounds.conflictsWith.
  split; [right; left; reflexivity|]. split; [reflexivity|].
  split; [discriminate|]. split; [vm_compute; reflexivity|].
  split; [discriminate | vm_compute; reflexivity].
Defined.

(** C6: [checkDropValidity] accepts moves whose interval falls outside the
    operating window of the day.  The window test compares the day of the
    month and the clock minute of the proposed end with the chart's day and
    the window end.  A pending run of 31 days proposed on Thursday 1 January
    at 08:00, on a line open from 08:00 to 17:00, ends on 1 February at
    08:00: the day of the month is again 1 and the clock minute 480 is not
    after 1020, so the move is accepted although it ends a month after the
    window closed.  A run of 60 minutes and 30 seconds proposed on Monday at
    16:00 ends at 17:00:30, thirty seconds after the window closed, and is
    accepted as well, its clock minute being that of the window end. *)
Theorem validator_accepts_a_move_past_the_window :
  (Gantt.checkDropValidity Cases.monthRunData Cases.thursday Scenarios.someOtherDay
     Scenarios.someOtherDay Cases.monthRun "L" (Scenarios.instant 0 8 0)
   = Gantt.mkValidity true None
   /\ Gantt.getLineOperatingHoursForDay Cases.monthRunData Cases.thursday "L"
      = Some (mkOperatingDayTime 4 (mkTimeOfDay 8 0) (mkTimeOfDay 17 0) true)
   /\ Scenarios.instant 0 8 0 + (endTime Cases.monthRun - startTime Cases.monthRun)
      = Scenarios.instant 31 8 0
   /\ SpecGrounds.windowEnd Cases.thursday
        (mkOperatingDayTime 4 (mkTimeOfDay 8 0) (mkTimeOfDay 17 0) true)
      = Scenarios.instant 0 17 0
   /\ SpecGrounds.outsideWindow Cases.monthRunData Cases.thursday Cases.monthRun "L"
        (Scenarios.instant 0 8 0) = true)
  /\ (Gantt.checkDropValidity Cases.halfMinuteData Scenarios.monday Scenarios.someOtherDay
        Scenarios.someOtherDay Cases.halfMinuteRun "L" (Scenarios.instant 4 16 0)
      = Gantt.mkValidity true None
      /\ Scenarios.instant 4 16 0
         + (endTime Cases.halfMinuteRun - startTime Cases.halfMinuteRun)
         = Scenarios.instant 4 17 0 + 30000
      /\ SpecGrounds.windowEnd Scenarios.monday
           (mkOperatingDayTime 1 (mkTimeOfDay 8 0) (mkTimeOfDay 17 0) true)
         = Scenarios.instant 4 17 0
      /\ SpecGrounds.outsideWindow Cases.halfMinuteData Scenarios.monday Cases.halfMinuteRun
           "L" (Scenarios.instant 4 16 0) = true).
Proof.
  split.
  - split; [vm_compute; reflexivity|].
    split; [reflexivity|].
    split; [vm_compute; reflexivity|].
    split; vm_compute; reflexivity.
  - split; [vm_compute; reflexivity|].
    split; [vm_compute; reflexivity|].
    split; vm_compute; reflexivity.
Qed.

(** ** Sorted order *)

Lemma insertByStart_sorted x l :
  StronglySorted startsNoLater l -> StronglySorted startsNoLater (insertByStart x l).
Proof.
  induction 1 as [|y l Hs IH Hy]; simpl.
  - repeat constructor.
  - destruct (Z.leb_spec (startTime x) (startTime y)) as [Hle|Hgt].
    + constructor; [now constructor|].
      constructor; [exact Hle|].
      eapply Forall_impl; [|exact Hy]. unfold startsNoLater. intros z Hz. lia.
    + constructor; [assumption|].
      apply Forall_forall. intros z Hz.
      apply (Permutation_in _ (insertByStart_perm x l)) in Hz.
      destruct Hz as [<-|Hz]; [unfold startsNoLater; lia|].
      now apply (proj1 (Forall_forall _ _) Hy).
Qed.

Lemma sortByStart_sorted l : StronglySorted startsNoLater (sortByStart l).
Proof.
  induction l as [|x l IH]; simpl; [constructor | now apply insertByStart_sorted].
Qed.

(** ** The search finds the earliest free slot *)

Module SearchReplay.
Import Placement.
Import Optimizer SearchFacts.

Section Replay.

Variables (targetDayStart lineOpEndMinutes durationMinutes origin : Z).
Variable slots : list ScheduledProductionRun.
Variable s : Z.

Hypothesis free_at_s :
  findCollision s (s + durationMinutes * 60000) slots = None.
Hypothesis blocked_before_s :
  forall t, origin <= t < s ->
    exists x, In x slots
              /\ overlaps t (t + durationMinutes * 60000) (startTime x) (endTime x) = true.
Hypothesis window_up_to_s :
  forall t, origin <= t <= s ->
    attemptInWindow targetDayStart lineOpEndMinutes durationMinutes t = true.

Lemma search_finds fuel attempt :
  origin <= attempt <= s ->
  (slotsEndingAfter slots attempt < fuel)%nat ->
  searchSlot fuel targetDayStart lineOpEndMinutes durationMinutes origin slots attempt
  = SlotFound s (s + durationMinutes * 60000).
Proof.
  revert attempt. induction fuel as [|fuel IH]; intros attempt Ha Hm; [lia|].
  rewrite search_unfold, (window_up_to_s Ha).
  destruct (Z.eq_dec attempt s) as [->|Hne].
  - now rewrite free_at_s.
  - destruct (findCollision attempt (attempt + durationMinutes * 60000) slots)
      as [existingEnd|] eqn:Ec.
    + apply findCollision_some in Ec. destruct Ec as (x & Hx & He & Hov).
      apply overlaps_iff in Hov.
      assert (Hle : existingEnd <= s).
      { destruct (Z.le_gt_cases existingEnd s) as [|Hgt]; [assumption|].
        pose proof (proj1 (findCollision_none _ _ _) free_at_s x Hx) as Hf.
        apply overlaps_false_iff in Hf. lia. }
      apply IH; [lia|].
      assert (slotsEndingAfter slots (Z.max existingEnd origin)
              < slotsEndingAfter slots attempt)%nat; [|lia].
      unfold slotsEndingAfter. apply filter_length_lt with (x := x).
      * intros y Hy. apply Z.ltb_lt in Hy. apply Z.ltb_lt. lia.
      * assumption.
      * apply Z.ltb_lt. lia.
      * apply Z.ltb_ge. lia.
    + exfalso. destruct (blocked_before_s (t := attempt)) as (x & Hx & Hov); [lia|].
      rewrite (proj1 (findCollision_none _ _ _) Ec x Hx) in Hov. discriminate.
Qed.

Lemma search_finds_from_origin :
  origin <= s ->
  searchSlot (S (List.length slots)) targetDayStart lineOpEndMinutes durationMinutes
    origin slots origin
  = SlotFound s (s + durationMinutes * 60000).
Proof.
  intros Ho. apply search_finds; [lia|]. unfold slotsEndingAfter.
  pose proof (filter_length_le (fun x => origin <? endTime x) slots). lia.
Qed.

End Replay.

End SearchReplay.

(** ** Replaying the placements of a line *)

Lemma epochDay_between t e day :
  epochDay day * msPerDay <= t -> t <= e -> epochDay e = epochDay day ->
  epochDay t = epochDay day.
Proof. unfold epochDay, msPerDay. intros. Z.div_mod_to_equations. lia. Qed.

Lemma minutesOfDay_mono a b :
  epochDay a = epochDay b -> a <= b -> minutesOfDay a <= minutesOfDay b.
Proof.
  unfold epochDay, minutesOfDay, getHours, getMinutes, msPerDay, msPerHour, msPerMinute.
  intros. Z.div_mod_to_equations. lia.
Qed.

Module ReplayFacts.
Import Placement.
Import Optimizer SearchFacts OptimizerFacts.

Section Line.

Variables (d : AppData) (line : ProductionLine) (targetDayStart : Z)
          (isToday : bool) (now : Z).

Lemma window_up_to opEnd dur origin s :
  epochDay targetDayStart * msPerDay <= origin ->
  0 < dur ->
  epochDay (s + dur * 60000) = epochDay targetDayStart ->
  attemptInWindow targetDayStart opEnd dur s = true ->
  forall t, origin <= t <= s -> attemptInWindow targetDayStart opEnd dur t = true.
Proof.
  intros Ho Hd He Hw t Ht. unfold attemptInWindow in *.
  rewrite !andb_true_iff, !Z.eqb_eq, Z.ltb_lt, Z.leb_le in *.
  destruct Hw as (((W1 & W2) & W3) & W4).
  assert (E1 : epochDay t = epochDay targetDayStart).
  { apply epochDay_between with (e := s + dur * 60000); [lia | lia | assumption]. }
  assert (E2 : epochDay (t + dur * 60000) = epochDay targetDayStart).
  { apply epochDay_between with (e := s + dur * 60000); [lia | lia | assumption]. }
  assert (E3 : epochDay s = epochDay targetDayStart).
  { apply epochDay_between with (e := s + dur * 60000); [lia | lia | assumption]. }
  repeat split.
  - now apply CalendarFacts.getDate_epochDay.
  - pose proof (@minutesOfDay_mono t s ltac:(congruence) ltac:(lia)). lia.
  - now apply CalendarFacts.getDate_epochDay.
  - pose proof (@minutesOfDay_mono (t + dur * 60000) (s + dur * 60000)
                  ltac:(congruence) ltac:(lia)). lia.
Qed.

Lemma slotFor_settled slots q :
  Settled d line targetDayStart isToday now q ->
  (forall x, In x slots -> clearOfRun q x) ->
  BlockedBefore d line targetDayStart isToday now slots [] q ->
  slotFor d line targetDayStart isToday now slots q
  = SlotFound (startTime q) (endTime q).
Proof.
  intros [(oh & H1 & H2 & H3 & H4 & H5 & H6 & H7) He] Hclear Hblocked.
  unfold slotFor. unfold durationOf in *. unfold windowOf in *.
  destruct (getProductById d (productId q)) as [product|] eqn:Ep; [|lia].
  destruct (Z.leb_spec (calculateProductDurationOnLine product line (quantity q)) 0);
    [lia|].
  rewrite H1, H2. cbn [negb]. rewrite Z.geb_leb.
  destruct (Z.leb_spec (timeToMinutes (oh_endTime oh))
              (minutesOfDay (searchOrigin targetDayStart isToday now
                               (timeToMinutes (oh_startTime oh))))); [lia|].
  rewrite H6. apply SearchReplay.search_finds_from_origin.
  - apply findCollision_none. intros x Hx. rewrite <- H6. now apply Hclear.
  - intros t Ht. destruct (Hblocked oh H1 t Ht) as (x & [Hx|[[] _]] & Hov).
    unfold durationOf in Hov. rewrite Ep in Hov.
    exists x. split; assumption.
  - apply window_up_to; try assumption.
    + pose proof (searchOrigin_after_window_start targetDayStart isToday now
                    (timeToMinutes_nonneg (oh_startTime oh))).
      pose proof (timeToMinutes_nonneg (oh_startTime oh)). unfold msPerMinute in *. lia.
    + now rewrite <- H6.
  - assumption.
Qed.

Lemma placements_replay qs : forall slots,
  StronglySorted startsNoLater qs ->
  NoDup qs ->
  (forall q, In q qs -> Settled d line targetDayStart isToday now q) ->
  (forall p q, In p qs -> In q qs -> p <> q -> clearOfRun p q) ->
  (forall q x, In q qs -> In x slots -> clearOfRun q x) ->
  (forall q, In q qs -> BlockedBefore d line targetDayStart isToday now slots qs q) ->
  placements d line targetDayStart isToday now slots qs = qs.
Proof.
  induction qs as [|q rest IH]; intros slots Hsorted Hnd Hset Hpair Hslots Hblock;
    [reflexivity|].
  inversion Hsorted as [|? ? Hs' Hq]; subst.
  inversion Hnd as [|? ? Hnotin Hnd']; subst.
  assert (Hfound : slotFor d line targetDayStart isToday now slots q
                   = SlotFound (startTime q) (endTime q)).
  { apply slotFor_settled.
    - apply Hset. now left.
    - intros x Hx. apply Hslots; [now left | assumption].
    - intros oh Hoh t Ht.
      destruct (Hblock q (or_introl eq_refl) oh Hoh t Ht) as (x & [Hx|[Hx Hlt]] & Hov).
      + exists x. split; [now left | assumption].
      + exfalso. destruct Hx as [<-|Hx]; [lia|].
        pose proof (proj1 (Forall_forall _ _) Hq x Hx) as Hle.
        unfold startsNoLater in Hle. lia. }
  cbn [placements]. rewrite Hfound.
  assert (Hq_eq : withTimes q (startTime q) (endTime q) = q) by now destruct q.
  rewrite Hq_eq. f_equal. apply IH; try assumption.
  - intros q' Hq'. apply Hset. now right.
  - intros p' q' Hp' Hq'. apply Hpair; now right.
  - intros q' x Hq' Hx. apply sortByStart_In, in_app_or in Hx.
    destruct Hx as [Hx|[<-|[]]].
    + apply Hslots; [now right | assumption].
    + apply Hpair; [now right | now left | intros ->; contradiction].
  - intros q' Hq' oh Hoh t Ht.
    destruct (Hblock q' (or_intror Hq') oh Hoh t Ht) as (x & Hx & Hov).
    exists x. split; [|assumption].
    destruct Hx as [Hx|[[<-|Hx] Hlt]].
    + left. apply sortByStart_In, in_or_app. now left.
    + left. apply sortByStart_In, in_or_app. right. now left.
    + right. split; assumption.
Qed.

End Line.

End ReplayFacts.

(** ** Run identifiers *)

Lemma NoDup_id_inj (l : list ScheduledProductionRun) a b :
  NoDup (map id l) -> In a l -> In b l -> id a = id b -> a = b.
Proof.
  induction l as [|x l IH]; simpl; [intros _ []|].
  intros Hnd Ha Hb He. inversion Hnd as [|? ? Hnotin Hnd']; subst.
  destruct Ha as [<-|Ha], Hb as [<-|Hb].
  - reflexivity.
  - exfalso. apply Hnotin. rewrite He. now apply in_map.
  - exfalso. apply Hnotin. rewrite <- He. now apply in_map.
  - now apply IH.
Qed.

Lemma NoDup_id_filter (f : ScheduledProductionRun -> bool) l :
  NoDup (map id l) -> NoDup (map id (filter f l)).
Proof.
  induction l as [|x l IH]; simpl; [auto|].
  intros Hnd. inversion Hnd as [|? ? Hnotin Hnd']; subst.
  destruct (f x); [|now apply IH].
  simpl. constructor; [|now apply IH].
  intros Hin. apply Hnotin. apply in_map_iff in Hin. destruct Hin as (y & Hy & Hin).
  apply filter_In in Hin. rewrite <- Hy. apply in_map. tauto.
Qed.

Lemma FOP_In (A : Type) (R : A -> A -> Prop) (l : list A) p q :
  (forall x y, R x y -> R y x) ->
  ForallOrdPairs R l -> In p l -> In q l -> p <> q -> R p q.
Proof.
  intros Hsym. induction 1 as [|a l Ha Hl IH]; [intros []|].
  intros [<-|Hp] [<-|Hq] Hne.
  - contradiction.
  - now apply (proj1 (Forall_forall _ _) Ha).
  - apply Hsym. now apply (proj1 (Forall_forall _ _) Ha).
  - now apply IH.
Qed.

Lemma sameYearMonthDate_epochDay a b :
  epochDay a = epochDay b -> sameYearMonthDate a b = true.
Proof.
  intros H. unfold sameYearMonthDate, getFullYear, getMonth, getDate.
  rewrite H, !Z.eqb_refl. reflexivity.
Qed.

(** ** The first pass, line by line *)

Module FirstPass.
Import Placement.
Import Optimizer SearchFacts OptimizerFacts ReplayFacts.

Section Line.

Variables (d : AppData) (line : ProductionLine) (targetDayStart : Z)
          (isToday : bool) (now : Z).

Lemma placements_fit normalPending slots q :
  In q (placements d line targetDayStart isToday now slots normalPending) ->
  Fits d line targetDayStart isToday now q (startTime q) (endTime q).
Proof.
  intros Hq. apply placements_origin in Hq.
  destruct Hq as (ns & s & e & _ & -> & Hf). exact Hf.
Qed.

Lemma placements_ids normalPending : forall slots,
  (forall p, In p (placements d line targetDayStart isToday now slots normalPending) ->
             In (id p) (map id normalPending))
  /\ (NoDup (map id normalPending) ->
      NoDup (map id (placements d line targetDayStart isToday now slots normalPending))).
Proof.
  induction normalPending as [|ns rest IH]; intros slots; cbn [placements].
  - split; [intros p [] | intros _; constructor].
  - destruct (slotFor d line targetDayStart isToday now slots ns) as [s e| |].
    + destruct (IH (sortByStart (slots ++ [withTimes ns s e]))) as [H1 H2]. split.
      * intros p [<-|Hp]; [now left | right; now apply H1].
      * intros Hnd. inversion Hnd as [|? ? Hnotin Hnd']; subst.
        cbn [map]. constructor; [|now apply H2].
        intros Hin. apply Hnotin. apply in_map_iff in Hin.
        destruct Hin as (p & Hp & Hin). cbn [id withTimes] in Hp.
        rewrite <- Hp. now apply H1.
    + destruct (IH slots) as [H1 H2]. split.
      * intros p Hp. right. now apply H1.
      * intros Hnd. inversion Hnd; subst. now apply H2.
    + destruct (IH slots) as [H1 H2]. split.
      * intros p Hp. right. now apply H1.
      * intros Hnd. inversion Hnd; subst. now apply H2.
Qed.

Lemma placements_blocked normalPending : forall slots q,
  In q (placements d line targetDayStart isToday now slots normalPending) ->
  BlockedBefore d line targetDayStart isToday now slots
    (placements d line targetDayStart isToday now slots normalPending) q.
Proof.
  induction normalPending as [|ns rest IH]; intros slots q; cbn [placements];
    [intros []|].
  pose proof (placements_clear d line targetDayStart isToday now (ns :: rest) slots)
    as Hclear.
  cbn [placements] in Hclear.
  destruct (slotFor d line targetDayStart isToday now slots ns) as [s e| |] eqn:Es;
    try (now apply IH).
  set (p := withTimes ns s e) in *.
  pose proof (slotFor_found _ _ _ _ _ _ _ Es) as (Hfit & Hfree & Hblk).
  intros [<-|Hq] oh Hoh t Ht.
  - destruct (Hblk oh Hoh t Ht) as (x & Hx & Hov). exists x. split; [now left | exact Hov].
  - destruct (IH _ _ Hq oh Hoh t Ht) as (x & Hx & Hov).
    exists x. split; [|exact Hov].
    destruct Hx as [Hx|[Hx Hlt]].
    + apply sortByStart_In, in_app_or in Hx. destruct Hx as [Hx|[<-|[]]]; [now left|].
      right. split; [now left|].
      destruct (Z.lt_ge_cases (startTime p) (startTime q)) as [|Hge]; [assumption|].
      exfalso.
      destruct Hclear as [_ Hrest]. apply clearOf_pairs in Hrest.
      destruct Hrest as [_ Hrest].
      pose proof (Hrest q p Hq (or_introl eq_refl)) as Hqp.
      unfold clearOfRun in Hqp. apply overlaps_false_iff in Hqp.
      apply overlaps_iff in Hov.
      pose proof (placements_fit _ _ _ Hq) as (oh1 & _ & _ & _ & _ & _ & Heq & _).
      destruct Hfit as (oh2 & _ & _ & Hdp & _ & _ & Hep & _).
      subst p. unfold withTimes in Hov, Hge, Hqp. cbn [startTime endTime] in *. lia.
    + right. split; [now right | assumption].
Qed.

End Line.

End FirstPass.

(** ** The second pass *)

Module SecondPass.
Import Placement.
Import Optimizer SearchFacts OptimizerFacts ReplayFacts.

(** The optimizer reads the products and lines only through the lookups,
    so two collections with the same products give the same slots. *)
Lemma slotFor_products d1 d2 line targetDayStart isToday now slots ns :
  products d1 = products d2 ->
  slotFor d1 line targetDayStart isToday now slots ns
  = slotFor d2 line targetDayStart isToday now slots ns.
Proof. intros H. unfold slotFor, getProductById. now rewrite H. Qed.

Lemma placements_products d1 d2 line targetDayStart isToday now normalPending :
  products d1 = products d2 ->
  forall slots,
    placements d1 line targetDayStart isToday now slots normalPending
    = placements d2 line targetDayStart isToday now slots normalPending.
Proof.
  intros H. induction normalPending as [|ns rest IH]; intros slots; cbn [placements];
    [reflexivity|].
  rewrite (@slotFor_products d1 d2 line targetDayStart isToday now slots ns H).
  destruct (slotFor d2 line targetDayStart isToday now slots ns); rewrite ?IH; reflexivity.
Qed.

Lemma isNormalPending_products d1 d2 s :
  products d1 = products d2 -> isNormalPending d1 s = isNormalPending d2 s.
Proof.
  intros H. unfold isNormalPending, classificationOf, getProductById. now rewrite H.
Qed.

Lemma NoDup_id_flat_map (f : string -> list ScheduledProductionRun) (ids : list string) :
  NoDup ids ->
  (forall i, NoDup (map id (f i))) ->
  (forall i j p q, In p (f i) -> In q (f j) -> id p = id q -> i = j) ->
  NoDup (map id (flat_map f ids)).
Proof.
  intros Hnd Hf Hx. induction ids as [|i ids IH]; simpl; [constructor|].
  inversion Hnd as [|? ? Hnotin Hnd']; subst.
  rewrite map_app. apply NoDup_app; [apply Hf | now apply IH |].
  intros a Ha Hb. apply in_map_iff in Ha. destruct Ha as (p & <- & Hp).
  apply in_map_iff in Hb. destruct Hb as (q & Hq & Hin).
  apply in_flat_map in Hin. destruct Hin as (j & Hj & Hin).
  assert (i = j) by (eapply Hx; eauto). now subst.
Qed.

Section Day.

Variables (d : AppData) (dateToOptimize now : Z).

Let T := setHours dateToOptimize 0 0.
Let iT := sameDateString T now.
Let onDay := schedulesStartingOn d T.
Let P1 := dayPlacements d dateToOptimize now.

Hypothesis ids_distinct : NoDup (map id (schedules d)).

Lemma epochDay_T : epochDay T = epochDay dateToOptimize.
Proof.
  unfold T, setHours, epochDay, msPerDay, msPerHour, msPerMinute.
  Z.div_mod_to_equations. lia.
Qed.

Lemma onDay_In r :
  In r onDay <-> In r (schedules d) /\ sameYearMonthDate (startTime r) T = true.
Proof. unfold onDay, schedulesStartingOn. apply filter_In. Qed.

Lemma line_in_P1 l p : In p (linePlacements d onDay T iT now l) -> In p P1.
Proof.
  intros Hp. unfold P1, dayPlacements. fold T. fold onDay. fold iT.
  apply in_flat_map. exists l. split; [|assumption].
  apply dedup_In. apply linePlacements_origin in Hp.
  destruct Hp as (line & ns & s & e & _ & Hns & Hl & _).
  rewrite <- Hl. now apply in_map.
Qed.

Lemma P1_in_line p : In p P1 -> In p (linePlacements d onDay T iT now (lineId p)).
Proof.
  unfold P1, dayPlacements. fold T. fold onDay. fold iT.
  intros Hp. apply in_flat_map in Hp. destruct Hp as (l & _ & Hp).
  now rewrite (linePlacements_lineId _ _ _ _ _ _ _ Hp).
Qed.

Lemma P1_origin p :
  In p P1 ->
  exists r, In r onDay /\ isNormalPending d r = true
            /\ p = withTimes r (startTime p) (endTime p).
Proof.
  intros Hp. apply P1_in_line, linePlacements_origin in Hp.
  destruct Hp as (line & ns & s & e & _ & Hns & _ & Hm & -> & _).
  exists ns. auto.
Qed.

Lemma linePlacements_ids l : NoDup (map id (linePlacements d onDay T iT now l)).
Proof.
  unfold linePlacements. destruct (getProductionLineById d l) as [line|]; [|constructor].
  apply FirstPass.placements_ids.
  eapply Permutation_NoDup;
    [apply Permutation_map; symmetry; apply sortByStart_perm|].
  unfold movableOf, forLine, onDay, schedulesStartingOn.
  now repeat apply NoDup_id_filter.
Qed.

Lemma P1_ids : NoDup (map id P1).
Proof.
  unfold P1, dayPlacements. fold T. fold onDay. fold iT.
  apply NoDup_id_flat_map.
  - apply dedup_NoDup.
  - apply linePlacements_ids.
  - intros i j p q Hp Hq He.
    apply linePlacements_origin in Hp, Hq.
    destruct Hp as (_ & r1 & s1 & e1 & _ & Hr1 & Hl1 & _ & -> & _).
    destruct Hq as (_ & r2 & s2 & e2 & _ & Hr2 & Hl2 & _ & -> & _).
    cbn [id withTimes] in He. apply onDay_In in Hr1, Hr2.
    assert (r1 = r2) by (eapply NoDup_id_inj; try eassumption; tauto).
    congruence.
Qed.

(** A placement of the first pass is the run with its id, moved. *)
Lemma P1_of_run p r :
  In p P1 -> In r (schedules d) -> id p = id r ->
  p = withTimes r (startTime p) (endTime p)
  /\ In r onDay /\ isNormalPending d r = true.
Proof.
  intros Hp Hr He. destruct (P1_origin p Hp) as (r' & Hr' & Hm & Heq).
  assert (r' = r).
  { apply NoDup_id_inj with (l := schedules d);
      [assumption | apply onDay_In in Hr'; tauto | assumption |].
    rewrite <- He, Heq. reflexivity. }
  subst r'. auto.
Qed.

Lemma replaceBy_cases r :
  (exists p, In p P1 /\ id r = id p /\ replaceBy P1 r = p)
  \/ ((forall p, In p P1 -> id r <> id p) /\ replaceBy P1 r = r).
Proof.
  unfold replaceBy. destruct (find _ P1) as [p|] eqn:E.
  - left. apply find_some in E. destruct E as [Hin He]. apply String.eqb_eq in He.
    exists p. auto.
  - right. split; [|reflexivity]. intros p Hp He.
    pose proof (find_none _ _ E p Hp) as Hf. cbn beta in Hf.
    apply String.eqb_neq in Hf. contradiction.
Qed.

(** Every movable run of the day was placed by the first pass, and
    every placement ends on the target day. *)
Hypothesis all_placed :
  forall r, In r (schedules d) -> sameYearMonthDate (startTime r) T = true ->
            isNormalPending d r = true -> exists p, In p P1 /\ id p = id r.
Hypothesis end_on_day :
  forall p, In p P1 -> epochDay (endTime p) = epochDay dateToOptimize.

(** The collections once the placements are committed. *)
Let d' := mkAppData (products d) (productionLines d) (commitAll P1 (schedules d)).
Let onDay' := schedulesStartingOn d' T.

Lemma committed_In q :
  In q (schedules d') <-> exists r, In r (schedules d) /\ q = replaceBy P1 r.
Proof.
  unfold d'. cbn [schedules]. split.
  - intros Hq. apply (Permutation_in _ (commitAll_perm P1 (schedules d) P1_ids)) in Hq.
    apply in_map_iff in Hq. destruct Hq as (r & <- & Hr). exists r. auto.
  - intros (r & Hr & ->).
    apply (Permutation_in _ (Permutation_sym (commitAll_perm P1 (schedules d) P1_ids))).
    now apply in_map.
Qed.

Lemma committed_ids : NoDup (map id (schedules d')).
Proof.
  unfold d'. cbn [schedules]. eapply Permutation_NoDup; [|exact ids_distinct].
  symmetry. apply commitAll_ids. auto.
Qed.

Lemma placement_on_day p :
  In p P1 -> sameYearMonthDate (startTime p) T = true.
Proof.
  intros Hp. apply sameYearMonthDate_epochDay. rewrite epochDay_T.
  pose proof (end_on_day p Hp) as He.
  destruct (placement_window_checks d dateToOptimize now p Hp)
    as (line & oh & _ & _ & _ & Hs & _ & _ & _ & _ & Hlt).
  pose proof (timeToMinutes_nonneg (oh_startTime oh)).
  apply epochDay_between with (e := endTime p); [unfold msPerMinute in *; lia | lia |].
  assumption.
Qed.

Lemma placement_committed p : In p P1 -> In p (schedules d').
Proof.
  intros Hp. destruct (P1_origin p Hp) as (r & Hr & _ & Heq).
  apply committed_In. exists r. split; [apply onDay_In in Hr; tauto|].
  destruct (replaceBy_cases r) as [(p' & Hp' & He & ->)|[Hn _]].
  - apply NoDup_id_inj with (l := P1); [apply P1_ids | | |]; try assumption.
    rewrite <- He, Heq. reflexivity.
  - exfalso. apply (Hn p Hp). rewrite Heq. reflexivity.
Qed.

Lemma movable_second l q :
  In q (sortByStart (movableOf d' (forLine l onDay')))
  <-> In q (linePlacements d onDay T iT now l).
Proof.
  rewrite movable_In. unfold onDay', schedulesStartingOn. rewrite filter_In.
  rewrite (@isNormalPending_products d' d q eq_refl). split.
  - intros ((Hq & Hday) & Hl & Hm). apply committed_In in Hq.
    destruct Hq as (r & Hr & ->).
    destruct (replaceBy_cases r) as [(p & Hp & He & Hrep)|[Hn Hrep]];
      rewrite Hrep in *.
    + rewrite <- Hl. now apply P1_in_line.
    + exfalso. destruct (all_placed r Hr Hday Hm) as (p & Hp & He).
      apply (Hn p Hp). now symmetry.
  - intros Hq. pose proof (line_in_P1 l q Hq) as Hp.
    split; [split|split].
    + now apply placement_committed.
    + now apply placement_on_day.
    + eapply linePlacements_lineId. eassumption.
    + destruct (P1_origin q Hp) as (r & _ & Hm & ->). exact Hm.
Qed.

Lemma fixed_second l x :
  In x (sortByStart (fixedOf d' (forLine l onDay')))
  <-> In x (sortByStart (fixedOf d (forLine l onDay))).
Proof.
  rewrite !fixed_In. unfold onDay', onDay, schedulesStartingOn. rewrite !filter_In.
  rewrite (@isNormalPending_products d' d x eq_refl). split.
  - intros ((Hx & Hday) & Hl & Hm). apply committed_In in Hx.
    destruct Hx as (r & Hr & ->).
    destruct (replaceBy_cases r) as [(p & Hp & He & Hrep)|[Hn Hrep]];
      rewrite Hrep in *.
    + exfalso. destruct (P1_origin p Hp) as (r' & _ & Hm' & Heq).
      rewrite Heq in Hm. unfold isNormalPending, classificationOf in Hm, Hm'.
      cbn [productId status withTimes] in Hm. congruence.
    + tauto.
  - intros ((Hx & Hday) & Hl & Hm). split; [split|]; try tauto.
    apply committed_In. exists x. split; [assumption|].
    destruct (replaceBy_cases x) as [(p & Hp & He & Hrep)|[Hn Hrep]]; [|now symmetry].
    exfalso. destruct (P1_of_run p x Hp Hx (eq_sym He)) as (_ & _ & Hm'). congruence.
Qed.

Lemma second_line l :
  linePlacements d' onDay' T iT now l
  = match getProductionLineById d l with
    | Some _ => sortByStart (movableOf d' (forLine l onDay'))
    | None => []
    end.
Proof.
  unfold linePlacements at 1.
  change (getProductionLineById d' l) with (getProductionLineById d l).
  destruct (getProductionLineById d l) as [line|] eqn:El; [|reflexivity].
  rewrite (@placements_products d' d line T iT now
             (sortByStart (movableOf d' (forLine l onDay'))) eq_refl).
  assert (Hfirst : linePlacements d onDay T iT now l
                   = placements d line T iT now
                       (sortByStart (fixedOf d (forLine l onDay)))
                       (sortByStart (movableOf d (forLine l onDay)))).
  { unfold linePlacements. now rewrite El. }
  apply placements_replay.
  - apply sortByStart_sorted.
  - eapply Permutation_NoDup; [symmetry; apply sortByStart_perm|].
    apply NoDup_map_inv with (f := id). unfold movableOf, forLine, onDay', schedulesStartingOn.
    repeat apply NoDup_id_filter. apply committed_ids.
  - intros q Hq. apply movable_second in Hq. split.
    + rewrite Hfirst in Hq. eapply FirstPass.placements_fit. eassumption.
    + rewrite epochDay_T. apply end_on_day. eapply line_in_P1. eassumption.
  - intros p q Hp Hq Hne. apply movable_second in Hp, Hq.
    apply FOP_In with (l := linePlacements d onDay T iT now l); try assumption.
    + apply clearOfRun_sym.
    + apply linePlacements_clear.
  - intros q x Hq Hx. apply movable_second in Hq. apply fixed_second, fixed_In in Hx.
    eapply (proj2 (linePlacements_clear d onDay T iT now l)); try eassumption; tauto.
  - intros q Hq oh Hoh t Ht. apply movable_second in Hq. rewrite Hfirst in Hq.
    pose proof (FirstPass.placements_blocked d line T iT now _ _ q Hq) as Hb.
    destruct (Hb oh Hoh t Ht) as (x & Hx & Hov).
    exists x. split; [|exact Hov]. destruct Hx as [Hx|[Hx Hlt]].
    + left. now apply fixed_second.
    + right. split; [|assumption]. apply movable_second. now rewrite Hfirst.
Qed.

Lemma second_line_In l p :
  In p (linePlacements d' onDay' T iT now l) <-> In p (linePlacements d onDay T iT now l).
Proof.
  rewrite second_line. destruct (getProductionLineById d l) as [line|] eqn:El.
  - apply movable_second.
  - unfold linePlacements. rewrite El. reflexivity.
Qed.

(** The second pass emits the placements of the first. *)
Lemma second_day p : In p (dayPlacements d' dateToOptimize now) <-> In p P1.
Proof.
  unfold dayPlacements at 1. fold T. fold onDay'. fold iT. rewrite in_flat_map. split.
  - intros (l & _ & Hp). apply second_line_In in Hp. eapply line_in_P1. eassumption.
  - intros Hp. exists (lineId p). split.
    + apply dedup_In. apply in_map. unfold onDay', schedulesStartingOn.
      apply filter_In. split; [now apply placement_committed | now apply placement_on_day].
    + apply second_line_In. now apply P1_in_line.
Qed.

Lemma second_day_ids : NoDup (dayPlacements d' dateToOptimize now).
Proof.
  apply NoDup_map_inv with (f := id).
  unfold dayPlacements. fold T. fold onDay'. fold iT.
  apply NoDup_id_flat_map.
  - apply dedup_NoDup.
  - intros l. rewrite second_line. destruct (getProductionLineById d l); [|constructor].
    eapply Permutation_NoDup;
      [apply Permutation_map; symmetry; apply sortByStart_perm|].
    unfold movableOf, forLine, onDay', schedulesStartingOn.
    repeat apply NoDup_id_filter. apply committed_ids.
  - intros i j p q Hp Hq He. apply second_line_In in Hp, Hq.
    pose proof (line_in_P1 i p Hp) as Hp1. pose proof (line_in_P1 j q Hq) as Hq1.
    assert (p = q) by (apply NoDup_id_inj with (l := P1); try assumption; apply P1_ids).
    subst q. rewrite <- (linePlacements_lineId d onDay T iT now i p Hp).
    now apply (linePlacements_lineId d onDay T iT now j p).
Qed.

End Day.

End SecondPass.

(** ** Invoking the optimizer twice *)


(** C7, as stated, fails: the count the optimizer reports is the number of
    runs for which it found a slot, moved or not, so a second invocation on
    a stable schedule reports the same count again, not 0. *)
Lemma second_invocation_reports_nonzero_count :
  Optimizer.optimizeDaySchedulesOp Scenarios.twinsData Scenarios.monday Scenarios.someOtherDay
  = Some Scenarios.twinsFirstPass
  /\ exists a2,
       Optimizer.optimizeDaySchedulesOp
         (Optimizer.afterOptimize Scenarios.twinsData Scenarios.twinsFirstPass)
         Scenarios.monday Scenarios.someOtherDay = Some a2
       /\ Optimizer.optimizedCount a2 = 2
       /\ Optimizer.optimizedCount a2 <> 0.
Proof.
  split; [vm_compute; reflexivity|].
  eexists. split; [vm_compute; reflexivity|]. split; [reflexivity | discriminate].
Qed.

(** C7 (amended): when the run ids are distinct, the first invocation placed
    every movable run that starts on the target day, and each of its
    placements ends on the target day, a second invocation on the same day
    with the same clock reading, the placements of the first being committed
    and nothing else changed, moves no run: it emits the same placements
    again, each equal to the run as it now stands, and it reports them as
    optimized once more (the count of the first invocation, not 0). *)
Theorem second_optimize_moves_nothing
    (d : AppData) (dateToOptimize now : Z) (a1 : Optimizer.Acc) :
  NoDup (map id (schedules d)) ->
  Optimizer.optimizeDaySchedulesOp d dateToOptimize now = Some a1 ->
  (forall r, In r (schedules d) ->
             sameYearMonthDate (startTime r) (setHours dateToOptimize 0 0) = true ->
             Optimizer.isNormalPending d r = true ->
             exists s e, In (withTimes r s e) (Optimizer.schedulesToUpdate a1)) ->
  (forall p, In p (Optimizer.schedulesToUpdate a1) ->
             epochDay (endTime p) = epochDay dateToOptimize) ->
  exists a2,
    Optimizer.optimizeDaySchedulesOp (Optimizer.afterOptimize d a1) dateToOptimize now = Some a2
    /\ Permutation (Optimizer.schedulesToUpdate a2) (Optimizer.schedulesToUpdate a1)
    /\ (forall p, In p (Optimizer.schedulesToUpdate a2) ->
                  In p (schedules (Optimizer.afterOptimize d a1)))
    /\ Optimizer.optimizedCount a2 = Z.of_nat (List.length (Optimizer.schedulesToUpdate a2))
    /\ Optimizer.optimizedCount a2 = Optimizer.optimizedCount a1.
Proof.
  intros Hnd H1 Hall Hend.
  destruct (OptimizerFacts.optimizeDay_placements d dateToOptimize now) as (a & Ha & Hs & Hc).
  rewrite H1 in Ha. injection Ha as <-.
  assert (Hall' : forall r, In r (schedules d) ->
                    sameYearMonthDate (startTime r) (setHours dateToOptimize 0 0) = true ->
                    Optimizer.isNormalPending d r = true ->
                    exists p, In p (Placement.dayPlacements d dateToOptimize now)
                              /\ id p = id r).
  { intros r Hr Hday Hm. destruct (Hall r Hr Hday Hm) as (s & e & Hin).
    exists (withTimes r s e). rewrite <- Hs. split; [assumption | reflexivity]. }
  assert (Hend' : forall p, In p (Placement.dayPlacements d dateToOptimize now) ->
                            epochDay (endTime p) = epochDay dateToOptimize).
  { intros p Hp. apply Hend. now rewrite Hs. }
  unfold Optimizer.afterOptimize. rewrite Hs.
  set (d' := mkAppData (products d) (productionLines d)
               (commitAll (Placement.dayPlacements d dateToOptimize now) (schedules d))).
  destruct (OptimizerFacts.optimizeDay_placements d' dateToOptimize now)
    as (a2 & Ha2 & Hs2 & Hc2).
  exists a2. split; [assumption|].
  assert (Hperm : Permutation (Optimizer.schedulesToUpdate a2)
                    (Placement.dayPlacements d dateToOptimize now)).
  { rewrite Hs2. apply NoDup_Permutation.
    - exact (SecondPass.second_day_ids d dateToOptimize now Hnd Hall' Hend').
    - apply NoDup_map_inv with (f := id). now apply SecondPass.P1_ids.
    - intros p. exact (SecondPass.second_day d dateToOptimize now Hnd Hall' Hend' p). }
  split; [assumption|]. split; [|split].
  - intros p Hp. apply (Permutation_in _ Hperm) in Hp.
    exact (SecondPass.placement_committed d dateToOptimize now Hnd p Hp).
  - now rewrite Hc2, Hs2.
  - rewrite Hc2, Hc, <- Hs2. f_equal. now apply Permutation_length.
Qed.

Lemma second_optimize_moves_nothing_witness :
  exists a2,
    Optimizer.optimizeDaySchedulesOp
      (Optimizer.afterOptimize Scenarios.twinsData Scenarios.twinsFirstPass)
      Scenarios.monday Scenarios.someOtherDay = Some a2
    /\ Permutation (Optimizer.schedulesToUpdate a2)
         (Optimizer.schedulesToUpdate Scenarios.twinsFirstPass)
    /\ Optimizer.optimizedCount a2 = 2.
Proof.
  assert (H1 : NoDup (map id (schedules Scenarios.twinsData))).
  { simpl. repeat constructor; simpl; intuition discriminate. }
  assert (H2 : Optimizer.optimizeDaySchedulesOp Scenarios.twinsData Scenarios.monday
                 Scenarios.someOtherDay = Some Scenarios.twinsFirstPass).
  { vm_compute. reflexivity. }
  assert (H3 : forall r, In r (schedules Scenarios.twinsData) ->
                 sameYearMonthDate (startTime r) (setHours Scenarios.monday 0 0) = true ->
                 Optimizer.isNormalPending Scenarios.twinsData r = true ->
                 exists s e, In (withTimes r s e)
                               (Optimizer.schedulesToUpdate Scenarios.twinsFirstPass)).
  { intros r [<-|[<-|[]]] _ _.
    - exists (Scenarios.instant 4 8 0), (Scenarios.instant 4 10 0). left. reflexivity.
    - exists (Scenarios.instant 4 10 0), (Scenarios.instant 4 12 0). right. left. reflexivity. }
  assert (H4 : forall p, In p (Optimizer.schedulesToUpdate Scenarios.twinsFirstPass) ->
                 epochDay (endTime p) = epochDay Scenarios.monday).
  { intros p [<-|[<-|[]]]; vm_compute; reflexivity. }
  destruct (second_optimize_moves_nothing Scenarios.twinsData Scenarios.monday
              Scenarios.someOtherDay H1 H2 H3 H4) as (a2 & Ha & Hp & _ & _ & Hc).
  exists a2. split; [assumption|]. split; [assumption|]. rewrite Hc. reflexivity.
Defined.

(** The first condition of the amended C7 cannot be dropped: a run that the
    first invocation could not place is sorted ahead of the run it did place
    on the next invocation, and takes its slot. *)
Lemma second_invocation_moves_a_skipped_run :
  exists a1 a2,
    Optimizer.optimizeDaySchedulesOp Scenarios.skippedData Scenarios.monday
      Scenarios.someOtherDay = Some a1
    /\ Optimizer.schedulesToUpdate a1
       = [withTimes Scenarios.runA (Scenarios.instant 4 11 0) (Scenarios.instant 4 16 0)]
    /\ Optimizer.optimizeDaySchedulesOp (Optimizer.afterOptimize Scenarios.skippedData a1)
         Scenarios.monday Scenarios.someOtherDay = Some a2
    /\ Optimizer.schedulesToUpdate a2
       = [withTimes Scenarios.runB (Scenarios.instant 4 11 0) (Scenarios.instant 4 16 0)].
Proof.
  eexists. eexists. split; [vm_compute; reflexivity|]. split; [reflexivity|].
  split; [vm_compute; reflexivity|]. reflexivity.
Qed.

(** * Further properties *)

Module CivilFacts.
Import Calendar CalendarFacts.

Lemma monthIndex_range doy : 0 <= doy <= 365 -> 0 <= (5 * doy + 2) / 153 <= 11.
Proof. intros H. Z.div_mod_to_equations. lia. Qed.

Lemma civil_parts days :
  let c := cycleDay days in
  let yoe := yoeOf c in
  let doy := c - yearStart yoe in
  let mp := (5 * doy + 2) / 153 in
  civilFromDays days
  = ((if (if mp <? 10 then mp + 3 else mp - 9) <=? 2
      then yoe + ((days + 719468) / 146097) * 400 + 1
      else yoe + ((days + 719468) / 146097) * 400),
     (if mp <? 10 then mp + 3 else mp - 9),
     domOfDoy doy).
Proof.
  cbv zeta. unfold civilFromDays, cycleDay, yoeOf, yearStart, domOfDoy.
  rewrite (Z.mod_eq (days + 719468) 146097) by lia.
  rewrite (Z.mul_comm 146097). reflexivity.
Qed.

Lemma domOfDoy_month_inj a b :
  0 <= a <= 365 -> 0 <= b <= 365 ->
  (5 * a + 2) / 153 = (5 * b + 2) / 153 -> domOfDoy a = domOfDoy b -> a = b.
Proof. unfold domOfDoy. intros Ha Hb Hm. rewrite Hm. lia. Qed.

Lemma civilFromDays_inj a b : civilFromDays a = civilFromDays b -> a = b.
Proof.
  rewrite !civil_parts. cbv zeta.
  pose proof (cycleDay_range a) as Ra. pose proof (cycleDay_range b) as Rb.
  pose proof (yoeOf_year Ra) as (A1 & A2 & _ & A4).
  pose proof (yoeOf_year Rb) as (B1 & B2 & _ & B4).
  set (ca := cycleDay a) in *. set (cb := cycleDay b) in *.
  set (ya := yoeOf ca) in *. set (yb := yoeOf cb) in *.
  pose proof (@monthIndex_range (ca - yearStart ya) ltac:(lia)) as Ma.
  pose proof (@monthIndex_range (cb - yearStart yb) ltac:(lia)) as Mb.
  set (ma := (5 * (ca - yearStart ya) + 2) / 153) in *.
  set (mb := (5 * (cb - yearStart yb) + 2) / 153) in *.
  set (ea := (a + 719468) / 146097). set (eb := (b + 719468) / 146097).
  intros H. injection H as Hy Hm Hd.
  assert (Em : ma = mb).
  { destruct (Z.ltb_spec ma 10), (Z.ltb_spec mb 10); lia. }
  assert (Ey : ya + ea * 400 = yb + eb * 400).
  { rewrite Em in Hy. destruct (_ <=? 2) in Hy; lia. }
  assert (Ee : ea = eb) by lia.
  assert (Eyo : ya = yb) by lia.
  assert (Edoy : ca - yearStart ya = cb - yearStart yb).
  { apply domOfDoy_month_inj; try lia; assumption. }
  rewrite Eyo in Edoy. assert (Ec : ca = cb) by lia.
  subst ca cb ea eb. unfold cycleDay in Ec.
  revert Ec Ee. Z.div_mod_to_equations. lia.
Qed.

End CivilFacts.

(** ** The tests for "the same calendar day" *)

Lemma sameYearMonthDate_iff a b : sameYearMonthDate a b = true <-> epochDay a = epochDay b.
Proof.
  split; [|apply sameYearMonthDate_epochDay].
  unfold sameYearMonthDate, getFullYear, getMonth, getDate.
  rewrite !andb_true_iff, !Z.eqb_eq. intros [[Hy Hm] Hd].
  apply CivilFacts.civilFromDays_inj.
  destruct (civilFromDays (epochDay a)) as [[y1 m1] d1].
  destruct (civilFromDays (epochDay b)) as [[y2 m2] d2].
  cbn [fst snd] in *. f_equal; [f_equal|]; lia.
Qed.

Lemma sameDateString_iff a b : sameDateString a b = true <-> epochDay a = epochDay b.
Proof.
  split.
  - unfold sameDateString, toDateString.
    rewrite !andb_true_iff, !Z.eqb_eq. intros [[[_ Hm] Hd] Hy].
    apply sameYearMonthDate_iff. unfold sameYearMonthDate.
    rewrite Hy, Hm, Hd, !Z.eqb_refl. reflexivity.
  - intros H. unfold sameDateString, toDateString, getDay, getMonth, getDate, getFullYear.
    rewrite H, !Z.eqb_refl. reflexivity.
Qed.

Lemma epochDay_setHours0 t : epochDay (setHours t 0 0) = epochDay t.
Proof. unfold setHours, epochDay, msPerDay. Z.div_mod_to_equations. lia. Qed.

Lemma epochDay_bounds t day :
  epochDay t = epochDay day <-> setHours day 0 0 <= t < setHours day 0 0 + msPerDay.
Proof. unfold setHours, epochDay, msPerDay. split; intros H; Z.div_mod_to_equations; lia. Qed.

(** X1: The two tests for "the target day is today" agree: the optimizer
    compares [toDateString], the chart compares year, month and date; both
    hold exactly when the two instants fall in the same 24 hours of the
    calendar. *)
Theorem today_tests_agree (date now : Z) :
  sameDateString (setHours date 0 0) now = Gantt.isChartForToday date now
  /\ (Gantt.isChartForToday date now = true
      <-> setHours date 0 0 <= now < setHours date 0 0 + msPerDay).
Proof.
  assert (H : Gantt.isChartForToday date now = true
              <-> setHours date 0 0 <= now < setHours date 0 0 + msPerDay).
  { unfold Gantt.isChartForToday. rewrite sameYearMonthDate_iff, <- epochDay_bounds.
    split; intros E; congruence. }
  split; [|exact H].
  apply eq_true_iff_eq. rewrite sameDateString_iff, epochDay_setHours0.
  unfold Gantt.isChartForToday. rewrite sameYearMonthDate_iff. reflexivity.
Qed.

(** X2: The day filter of the optimizer and of the validator selects exactly
    the runs that start within the 24 hours of the target day. *)
Theorem day_filter_selects_the_24_hours (d : AppData) (date : Z) (s : ScheduledProductionRun) :
  (In s (Optimizer.schedulesStartingOn d (setHours date 0 0))
   <-> In s (schedules d)
       /\ setHours date 0 0 <= startTime s < setHours date 0 0 + msPerDay)
  /\ (forall item targetLineId,
        In s (Gantt.schedulesOnTargetDayAndLine d date item targetLineId)
        <-> In s (schedules d) /\ lineId s = targetLineId /\ id s <> id item
            /\ setHours date 0 0 <= startTime s < setHours date 0 0 + msPerDay).
Proof.
  split.
  - unfold Optimizer.schedulesStartingOn. rewrite filter_In, sameYearMonthDate_iff.
    rewrite epochDay_setHours0, epochDay_bounds. reflexivity.
  - intros item targetLineId. unfold Gantt.schedulesOnTargetDayAndLine.
    rewrite filter_In, !andb_true_iff, negb_true_iff, sameYearMonthDate_iff, epochDay_bounds.
    rewrite String.eqb_eq, String.eqb_neq. tauto.
Qed.

Module ReportFacts.
Import Optimizer Placement Report OptimizerFacts.

Lemma optimizedIn_app a b : optimizedIn (a ++ b) = optimizedIn a ++ optimizedIn b.
Proof. apply flat_map_app. Qed.

Lemma closing_app a b :
  forallb (fun m => negb (isClosingNote m)) (a ++ b)
  = forallb (fun m => negb (isClosingNote m)) a && forallb (fun m => negb (isClosingNote m)) b.
Proof. apply forallb_app. Qed.

Lemma Adds_refl a : Adds a a 0 0 [].
Proof.
  split; try lia; try (now rewrite app_nil_r).
  exists []. now rewrite app_nil_r.
Qed.

Lemma Adds_eq a a' n u ps n' u' :
  Adds a a' n u ps -> n = n' -> u = u' -> Adds a a' n' u' ps.
Proof. now intros H <- <-. Qed.

Lemma Adds_trans a b c n1 u1 p1 n2 u2 p2 :
  Adds a b n1 u1 p1 -> Adds b c n2 u2 p2 -> Adds a c (n1 + n2) (u1 + u2) (p1 ++ p2).
Proof.
  intros [A0 A1 A2 A3 (d1 & A4 & A5 & A6)] [B0 B1 B2 B3 (d2 & B4 & B5 & B6)].
  split; try lia.
  - rewrite B3, A3, app_assoc. reflexivity.
  - exists (d1 ++ d2). rewrite B4, A4, app_assoc, optimizedIn_app, closing_app, map_app.
    rewrite A5, B5, A6, B6. auto.
Qed.

Lemma Adds_one_unopt a m :
  isClosingNote m = false -> optimizedIn [m] = [] ->
  Adds a (addUnoptimized (pushDetail a m) 1) 0 1 [].
Proof.
  intros H1 H2. split; cbn; try lia; try (now rewrite app_nil_r).
  exists [m]. rewrite H2. cbn. rewrite H1. auto.
Qed.

Section Line.

Variables (d : AppData) (line : ProductionLine) (targetDayStart : Z)
          (isToday : bool) (now : Z).

Lemma placeStep_adds slots a ns :
  match slotFor d line targetDayStart isToday now slots ns with
  | SlotFound s e =>
      exists a',
        placeStep d line targetDayStart isToday now (slots, a) ns
        = Some (sortByStart (slots ++ [withTimes ns s e]), a')
        /\ Adds a a' 1 0 [withTimes ns s e]
  | NoSlot =>
      exists a',
        placeStep d line targetDayStart isToday now (slots, a) ns = Some (slots, a')
        /\ Adds a a' 0 1 []
  | OutOfFuel => False
  end.
Proof.
  pose proof (slotFor_fuel d line targetDayStart isToday now slots ns) as Hfuel.
  unfold slotFor, placeStep in *.
  destruct (getProductById d (productId ns)) as [product|];
    [|eexists; split; [reflexivity | now apply Adds_one_unopt]].
  destruct (_ <=? 0); [eexists; split; [reflexivity | now apply Adds_one_unopt]|].
  destruct (find _ (operatingHours line)) as [oh|];
    [|eexists; split; [reflexivity | now apply Adds_one_unopt]].
  destruct (negb _); [eexists; split; [reflexivity | now apply Adds_one_unopt]|].
  destruct (_ >=? _); [eexists; split; [reflexivity | now apply Adds_one_unopt]|].
  destruct (searchSlot _ _ _ _ _ _ _) as [s e| |]; [| |congruence].
  - eexists. split; [reflexivity|]. split; cbn; try lia; try reflexivity.
    eexists [_]. split; [reflexivity|]. cbn. auto.
  - eexists. split; [reflexivity | now apply Adds_one_unopt].
Qed.

Lemma placeAll_adds normalPending : forall slots a,
  exists slots' a',
    placeAll d line targetDayStart isToday now (slots, a) normalPending = Some (slots', a')
    /\ Adds a a'
         (Z.of_nat (List.length (placements d line targetDayStart isToday now slots normalPending)))
         (Z.of_nat (List.length normalPending)
          - Z.of_nat (List.length
              (placements d line targetDayStart isToday now slots normalPending)))
         (placements d line targetDayStart isToday now slots normalPending).
Proof.
  induction normalPending as [|ns rest IH]; intros slots a.
  - exists slots, a. split; [reflexivity|]. apply Adds_refl.
  - pose proof (placeStep_adds slots a ns) as Hstep. cbn [placeAll placements].
    destruct (slotFor d line targetDayStart isToday now slots ns) as [s e| |];
      [| |contradiction]; destruct Hstep as (a1 & Hstep & Ha); rewrite Hstep.
    + destruct (IH (sortByStart (slots ++ [withTimes ns s e])) a1) as (slots' & a' & H1 & H2).
      exists slots', a'. split; [assumption|].
      pose proof (Adds_trans Ha H2) as H. cbn [app] in H.
      cbn [List.length]. rewrite !Nat2Z.inj_succ.
      apply (Adds_eq H); lia.
    + destruct (IH slots a1) as (slots' & a' & H1 & H2).
      exists slots', a'. split; [assumption|].
      pose proof (Adds_trans Ha H2) as H. cbn [app] in H.
      cbn [List.length]. rewrite !Nat2Z.inj_succ.
      apply (Adds_eq H); lia.
Qed.

End Line.

Section Day.

Variable d : AppData.

Lemma partition_adds l : forall fixedSchedules normalPending a,
  exists a',
    fold_left (partitionStep d) l (fixedSchedules, normalPending, a)
    = (fixedSchedules ++ fixedOf d l, normalPending ++ movableOf d l, a')
    /\ Adds a a' 0 (Z.of_nat (List.length (filter (keptAndCounted d) l))) [].
Proof.
  induction l as [|s l IH]; intros f n a.
  - exists a. simpl. rewrite !app_nil_r. split; [reflexivity | apply Adds_refl].
  - cbn [fold_left]. unfold fixedOf, movableOf in *. cbn [filter].
    unfold keptAndCounted at 1.
    assert (Hnp : isNormalPending d s
                  = isClass (option_map classification (getProductById d (productId s)))
                            Normal
                    && status_eqb (status s) Pendente) by reflexivity.
    rewrite !Hnp. unfold partitionStep at 2. unfold classificationOf.
    destruct (getProductById d (productId s)) as [p|]; cbn [option_map isClass].
    + destruct (classification p); cbn [classification_eqb orb andb negb].
      * destruct (IH (f ++ [s]) n a) as (a' & H1 & H2).
        exists a'. rewrite H1, <- app_assoc. auto.
      * destruct (status_eqb (status s) Pendente); cbn [negb andb].
        -- destruct (IH f (n ++ [s]) a) as (a' & H1 & H2).
           exists a'. rewrite H1, <- app_assoc. auto.
        -- match goal with
           | |- context [fold_left _ l (_, _, ?acc)] =>
               destruct (IH (f ++ [s]) n acc) as (a' & H1 & H2)
           end.
           exists a'. rewrite H1, <- app_assoc. split; [reflexivity|].
           cbn [List.length]. rewrite Nat2Z.inj_succ.
           match type of H2 with
           | Adds (pushDetail _ ?m) _ _ _ _ =>
               pose proof (Adds_trans (@Adds_one_unopt a m eq_refl eq_refl) H2) as H
           end.
           cbn [app] in H.
           apply (Adds_eq H); lia.
    + cbn [orb andb negb].
      match goal with
      | |- context [fold_left _ l (_, _, ?acc)] =>
          destruct (IH (f ++ [s]) n acc) as (a' & H1 & H2)
      end.
      exists a'. rewrite H1, <- app_assoc. split; [reflexivity|].
      cbn [List.length]. rewrite Nat2Z.inj_succ.
      match type of H2 with
           | Adds (pushDetail _ ?m) _ _ _ _ =>
               pose proof (Adds_trans (@Adds_one_unopt a m eq_refl eq_refl) H2) as H
           end.
      cbn [app] in H.
      apply (Adds_eq H); lia.
Qed.

Lemma kept_and_movable l :
  (List.length (filter (fun s => negb (isClass (classificationOf d s) TopSeller)) l)
   = List.length (filter (keptAndCounted d) l) + List.length (movableOf d l))%nat.
Proof.
  unfold movableOf, keptAndCounted, isNormalPending.
  induction l as [|s l IH]; [reflexivity|]. cbn [filter].
  destruct (classificationOf d s) as [[|]|]; cbn [isClass classification_eqb negb andb];
    try destruct (status_eqb (status s) Pendente); cbn [negb andb List.length]; lia.
Qed.

Variables (onDay : list ScheduledProductionRun) (targetDayStart : Z)
          (isToday : bool) (now : Z).

Lemma counted_on_line lineId0 :
  filter (counted d) (forLine lineId0 onDay)
  = filter (fun s => match getProductionLineById d lineId0 with
                     | Some _ => negb (isClass (classificationOf d s) TopSeller)
                     | None => isNormalPending d s
                     end) (forLine lineId0 onDay).
Proof.
  apply filter_ext_in. intros s Hs. unfold forLine in Hs.
  apply filter_In in Hs. destruct Hs as [_ Hs]. apply String.eqb_eq in Hs.
  unfold counted. now rewrite Hs.
Qed.

Lemma lineStep_adds a lineId0 :
  exists a',
    lineStep d onDay targetDayStart isToday now a lineId0 = Some a'
    /\ Adds a a'
         (Z.of_nat (List.length (linePlacements d onDay targetDayStart isToday now lineId0)))
         (Z.of_nat (List.length (filter (counted d) (forLine lineId0 onDay)))
          - Z.of_nat (List.length
              (linePlacements d onDay targetDayStart isToday now lineId0)))
         (linePlacements d onDay targetDayStart isToday now lineId0).
Proof.
  rewrite counted_on_line.
  unfold lineStep, linePlacements. fold (forLine lineId0 onDay).
  destruct (getProductionLineById d lineId0) as [line|].
  - destruct (partition_adds (forLine lineId0 onDay) [] [] a) as (a1 & H1 & H2).
    rewrite H1. cbn [app].
    destruct (placeAll_adds d line targetDayStart isToday now
                (sortByStart (movableOf d (forLine lineId0 onDay)))
                (sortByStart (fixedOf d (forLine lineId0 onDay))) a1)
      as (slots' & a' & Hp & Ha).
    rewrite Hp. exists a'. split; [reflexivity|].
    pose proof (Adds_trans H2 Ha) as H. cbn [app] in H.
    apply (Adds_eq H); [lia|].
    rewrite (Permutation_length (sortByStart_perm (movableOf d (forLine lineId0 onDay)))).
    rewrite kept_and_movable. lia.
  - eexists. split; [reflexivity|].
    set (n := List.length (filter _ (forLine lineId0 onDay))).
    split; cbn; try lia; try (now rewrite app_nil_r).
    eexists [_]. split; [reflexivity|]. cbn. auto.
Qed.

Lemma linesLoop_adds lineIds : forall a,
  exists a',
    linesLoop d onDay targetDayStart isToday now a lineIds = Some a'
    /\ Adds a a'
         (Z.of_nat (List.length
            (flat_map (linePlacements d onDay targetDayStart isToday now) lineIds)))
         (Z.of_nat (List.length
            (flat_map (fun i => filter (counted d) (forLine i onDay)) lineIds))
          - Z.of_nat (List.length
              (flat_map (linePlacements d onDay targetDayStart isToday now) lineIds)))
         (flat_map (linePlacements d onDay targetDayStart isToday now) lineIds).
Proof.
  induction lineIds as [|l ls IH]; intros a.
  - exists a. split; [reflexivity|]. apply Adds_refl.
  - cbn [linesLoop flat_map].
    destruct (lineStep_adds a l) as (a1 & H1 & H2). rewrite H1.
    destruct (IH a1) as (a' & H3 & H4). exists a'. split; [assumption|].
    apply (Adds_eq (Adds_trans H2 H4)); rewrite !length_app; lia.
Qed.

End Day.

Lemma count_by_line (f : ScheduledProductionRun -> bool) (l : list ScheduledProductionRun) :
  forall ids, NoDup ids ->
  List.length (flat_map (fun i => filter f (forLine i l)) ids)
  = List.length (filter (fun s => f s && existsb (String.eqb (lineId s)) ids) l).
Proof.
  induction ids as [|i ids IH]; intros Hnd.
  - cbn [flat_map List.length]. induction l as [|s l IHl]; [reflexivity|].
    cbn [filter existsb]. now rewrite andb_false_r.
  - inversion Hnd as [|? ? Hni Hnd']; subst. cbn [flat_map]. rewrite length_app, (IH Hnd').
    clear IH. unfold forLine. induction l as [|s l IHl]; [reflexivity|].
    cbn [filter existsb]. cbn [existsb] in IHl.
    destruct (String.eqb_spec (lineId s) i) as [E|E].
    + assert (Hx : existsb (String.eqb (lineId s)) ids = false).
      { destruct (existsb _ ids) eqn:Ex; [|reflexivity].
        apply existsb_exists in Ex. destruct Ex as (j & Hj & Ej).
        apply String.eqb_eq in Ej. congruence. }
      rewrite Hx. cbn [orb]. rewrite andb_true_r, andb_false_r.
      cbn [filter]. destruct (f s); cbn [List.length]; lia.
    + cbn [orb]. destruct (f s && existsb (String.eqb (lineId s)) ids);
        cbn [List.length]; lia.
Qed.

Lemma count_by_lines (f : ScheduledProductionRun -> bool) (l : list ScheduledProductionRun) :
  List.length (flat_map (fun i => filter f (forLine i l)) (dedup (map lineId l)))
  = List.length (filter f l).
Proof.
  rewrite count_by_line by apply dedup_NoDup. f_equal. apply filter_ext_in.
  intros s Hs.
  assert (Hx : existsb (String.eqb (lineId s)) (dedup (map lineId l)) = true).
  { apply existsb_exists. exists (lineId s). split; [|apply String.eqb_refl].
    apply dedup_In. now apply in_map. }
  rewrite Hx. apply andb_true_r.
Qed.

(** The outcome of the optimizer in terms of what the loop over the lines
    adds to the shared variables, and the closing note. *)
Lemma optimizeDay_adds d dateToOptimize now :
  let onDay := schedulesStartingOn d (setHours dateToOptimize 0 0) in
  exists a0 a,
    optimizeDaySchedulesOp d dateToOptimize now = Some a
    /\ Adds (mkAcc 0 0 [] []) a0
         (Z.of_nat (List.length (dayPlacements d dateToOptimize now)))
         (Z.of_nat (List.length (filter (counted d) onDay))
          - Z.of_nat (List.length (dayPlacements d dateToOptimize now)))
         (dayPlacements d dateToOptimize now)
    /\ ((a = a0 /\ (onDay = [] \/ exists s, In s onDay /\ counted d s = true))
        \/ (a = pushDetail a0 NoNormalPendingToday
            /\ onDay <> [] /\ forall s, In s onDay -> counted d s = false)).
Proof.
  cbv zeta. unfold optimizeDaySchedulesOp, dayPlacements.
  set (target := setHours dateToOptimize 0 0).
  set (onDay := schedulesStartingOn d target).
  destruct (linesLoop_adds d onDay target (sameDateString target now) now
              (dedup (map lineId onDay)) (mkAcc 0 0 [] []))
    as (a & H1 & H2).
  rewrite H1. rewrite count_by_lines in H2. exists a.
  set (P := flat_map _ _) in *.
  pose proof (adds_nonneg H2) as [N1 N2]. pose proof (adds_opt H2) as A1.
  pose proof (adds_unopt H2) as A2. pose proof (adds_updates H2) as A3.
  cbn [optimizedCount unoptimizedCount schedulesToUpdate app] in A1, A2, A3.
  assert (Hc : (optimizedCount a =? 0) && (unoptimizedCount a =? 0) = true
               <-> forall s, In s onDay -> counted d s = false).
  { rewrite andb_true_iff, !Z.eqb_eq. split.
    - intros [E1 E2] s Hs. destruct (counted d s) eqn:Ec; [|reflexivity].
      assert (Hin : In s (filter (counted d) onDay)) by (apply filter_In; auto).
      destruct (filter (counted d) onDay); [contradiction|]. cbn [List.length] in *. lia.
    - intros Hall.
      assert (Hn : filter (counted d) onDay = []).
      { destruct (filter (counted d) onDay) as [|x xs] eqn:Ef; [reflexivity|].
        assert (Hx : In x (filter (counted d) onDay)) by (rewrite Ef; now left).
        apply filter_In in Hx. destruct Hx as [Hx1 Hx2]. rewrite (Hall x Hx1) in Hx2.
        discriminate. }
      rewrite Hn in *. cbn [List.length] in *. lia. }
  assert (Hnp : forall s, In s onDay -> isNormalPending d s = true -> counted d s = true).
  { intros s _ Hs. unfold counted. destruct (getProductionLineById d (lineId s)); [|assumption].
    unfold isNormalPending in Hs. destruct (classificationOf d s) as [[|]|]; auto. }
  assert (Hsome : (optimizedCount a =? 0) && (unoptimizedCount a =? 0) = false ->
                  exists s, In s onDay /\ counted d s = true).
  { intros Hf. destruct (existsb (counted d) onDay) eqn:Ex.
    - apply existsb_exists in Ex. exact Ex.
    - exfalso. assert (Hall : forall s, In s onDay -> counted d s = false).
      { intros s Hs. destruct (counted d s) eqn:Ec; [|reflexivity].
        assert (existsb (counted d) onDay = true) by (apply existsb_exists; eauto).
        congruence. }
      apply Hc in Hall. congruence. }
  destruct (schedulesToUpdate a) as [|p ps] eqn:Es.
  - destruct ((optimizedCount a =? 0) && (unoptimizedCount a =? 0)) eqn:E0.
    + pose proof (proj1 Hc eq_refl) as Hall. cbn [andb].
      destruct onDay as [|s0 rest] eqn:Eo.
      * cbn. exists a. split; [reflexivity|]. split; [exact H2|]. left. auto.
      * cbn [map dedup negb andb].
        assert (Hex : existsb (isNormalPending d) (s0 :: rest) = false).
        { destruct (existsb _ (s0 :: rest)) eqn:Ex; [|reflexivity].
          apply existsb_exists in Ex. destruct Ex as (s & Hs1 & Hs2).
          pose proof (Hnp s Hs1 Hs2). specialize (Hall s Hs1). congruence. }
        rewrite Hex. cbn [negb andb]. eexists. split; [reflexivity|].
        split; [exact H2|]. right. split; [reflexivity|]. split; [discriminate | assumption].
    + cbn [andb]. exists a. split; [reflexivity|]. split; [exact H2|].
      left. split; [reflexivity|]. right. now apply Hsome.
  - exists a. split; [reflexivity|]. split; [exact H2|]. left. split; [reflexivity|].
    right. apply Hsome.
    destruct ((optimizedCount a =? 0) && (unoptimizedCount a =? 0)) eqn:E0; [|reflexivity].
    apply andb_true_iff in E0. destruct E0 as [E0 _]. apply Z.eqb_eq in E0.
    rewrite <- A3 in *. cbn [List.length] in *. lia.
Qed.

End ReportFacts.

(** X3: The report accounts for every run of the day exactly once: the two
    counts add up to the number of counted runs (on a line that resolves,
    the runs that are not Top Seller runs; on a line that does not, the
    Normal pending runs), and the optimized count is the number of
    placements committed. *)
Theorem report_counts_every_run (d : AppData) (dateToOptimize now : Z) :
  exists a,
    Optimizer.optimizeDaySchedulesOp d dateToOptimize now = Some a
    /\ Optimizer.optimizedCount a + Optimizer.unoptimizedCount a
       = Z.of_nat (List.length
           (filter (Report.counted d)
              (Optimizer.schedulesStartingOn d (setHours dateToOptimize 0 0))))
    /\ Optimizer.optimizedCount a = Z.of_nat (List.length (Optimizer.schedulesToUpdate a))
    /\ 0 <= Optimizer.unoptimizedCount a.
Proof.
  destruct (ReportFacts.optimizeDay_adds d dateToOptimize now) as (a0 & a & H1 & H2 & H3).
  exists a. split; [assumption|].
  pose proof (Report.adds_nonneg H2) as [N1 N2]. pose proof (Report.adds_opt H2) as A1.
  pose proof (Report.adds_unopt H2) as A2. pose proof (Report.adds_updates H2) as A3.
  cbn [Optimizer.optimizedCount Optimizer.unoptimizedCount Optimizer.schedulesToUpdate app]
    in A1, A2, A3.
  assert (E : Optimizer.optimizedCount a = Optimizer.optimizedCount a0
              /\ Optimizer.unoptimizedCount a = Optimizer.unoptimizedCount a0
              /\ Optimizer.schedulesToUpdate a = Optimizer.schedulesToUpdate a0).
  { destruct H3 as [[-> _]|[-> _]]; cbn; auto. }
  destruct E as (-> & -> & ->). rewrite A3. repeat split; lia.
Qed.

(** X4: The trace names exactly the runs that are committed: its "optimized"
    entries, one for each placement and in the same order, carry the id of
    the placement and the hour and minute of its new start, which is all
    that the message prints of the start. *)
Theorem trace_names_the_committed_runs (d : AppData) (dateToOptimize now : Z) :
  exists a,
    Optimizer.optimizeDaySchedulesOp d dateToOptimize now = Some a
    /\ Report.optimizedIn (Optimizer.details a)
       = map (fun p => (id p, (getHours (startTime p), getMinutes (startTime p))))
           (Optimizer.schedulesToUpdate a).
Proof.
  destruct (ReportFacts.optimizeDay_adds d dateToOptimize now) as (a0 & a & H1 & H2 & H3).
  exists a. split; [assumption|].
  pose proof (Report.adds_updates H2) as A3.
  destruct (Report.adds_details H2) as (ds & D1 & D2 & _).
  cbn [Optimizer.schedulesToUpdate Optimizer.details app] in A3, D1.
  destruct H3 as [[-> _]|[-> _]]; cbn [Optimizer.pushDetail Optimizer.details
                                        Optimizer.schedulesToUpdate];
    rewrite D1, A3, ?ReportFacts.optimizedIn_app, D2; cbn; now rewrite ?app_nil_r.
Qed.

(** X5: The closing note of the trace.  "No Normal pending product today" is
    written exactly when runs start on the day and none of them is counted;
    "no product scheduled today" is never written, its branch being
    guarded by a non-empty list of lines; a day without runs gives an empty
    report. *)
Theorem closing_note_of_the_trace (d : AppData) (dateToOptimize now : Z) :
  let onDay := Optimizer.schedulesStartingOn d (setHours dateToOptimize 0 0) in
  exists a,
    Optimizer.optimizeDaySchedulesOp d dateToOptimize now = Some a
    /\ ~ In Optimizer.NoSchedulesToday (Optimizer.details a)
    /\ (In Optimizer.NoNormalPendingToday (Optimizer.details a)
        <-> onDay <> [] /\ forall s, In s onDay -> Report.counted d s = false)
    /\ (onDay = [] -> a = Optimizer.mkAcc 0 0 [] []).
Proof.
  cbv zeta.
  destruct (ReportFacts.optimizeDay_adds d dateToOptimize now) as (a0 & a & H1 & H2 & H3).
  exists a. split; [assumption|].
  destruct (Report.adds_details H2) as (ds & D1 & _ & D3).
  cbn [Optimizer.details app] in D1. rewrite forallb_forall in D3.
  assert (Hno : forall m, Report.isClosingNote m = true -> ~ In m (Optimizer.details a0)).
  { intros m Hm Hin. rewrite D1 in Hin. apply D3 in Hin. rewrite Hm in Hin. discriminate. }
  split; [|split].
  - destruct H3 as [[-> _]|[-> _]]; [now apply Hno|].
    cbn [Optimizer.pushDetail Optimizer.details]. intros Hin. apply in_app_or in Hin.
    destruct Hin as [Hin|[Hin|[]]]; [|discriminate]. revert Hin. now apply Hno.
  - destruct H3 as [[-> H3]|[-> [H3 H4]]].
    + split; [intros Hin; exfalso; revert Hin; now apply Hno|].
      intros [Hne Hall]. destruct H3 as [H3|(s & Hs & Hc)]; [contradiction|].
      rewrite (Hall s Hs) in Hc. discriminate.
    + split; [auto|]. intros _. cbn [Optimizer.pushDetail Optimizer.details].
      apply in_or_app. right. now left.
  - intros He. unfold Optimizer.optimizeDaySchedulesOp in H1. rewrite He in H1.
    cbn in H1. congruence.
Qed.

Module PlacementFacts.
Import Optimizer Placement.

Lemma durationOf_span d line targetDayStart isToday now q :
  Fits d line targetDayStart isToday now q (startTime q) (endTime q) ->
  durationOf d line q * 60000 = endTime q - startTime q.
Proof. intros (oh & _ & _ & _ & _ & _ & He & _). lia. Qed.

Lemma dayPlacement_fits d dateToOptimize now p line :
  In p (dayPlacements d dateToOptimize now) ->
  getProductionLineById d (lineId p) = Some line ->
  Fits d line (setHours dateToOptimize 0 0)
    (sameDateString (setHours dateToOptimize 0 0) now) now p (startTime p) (endTime p)
  /\ BlockedBefore d line (setHours dateToOptimize 0 0)
       (sameDateString (setHours dateToOptimize 0 0) now) now
       (sortByStart (fixedOf d (forLine (lineId p)
          (schedulesStartingOn d (setHours dateToOptimize 0 0)))))
       (linePlacements d (schedulesStartingOn d (setHours dateToOptimize 0 0))
          (setHours dateToOptimize 0 0)
          (sameDateString (setHours dateToOptimize 0 0) now) now (lineId p)) p.
Proof.
  intros Hp Hl. apply SecondPass.P1_in_line in Hp.
  unfold linePlacements in *. rewrite Hl in *.
  split; [eapply FirstPass.placements_fit | apply FirstPass.placements_blocked]; exact Hp.
Qed.

End PlacementFacts.

(** X6: Each placement is the earliest fit: started at any earlier instant of
    the search window, the run would overlap a run kept in place on that
    line (one that starts that day and is not a Normal pending run) or a
    placement of the same line that starts before it. *)
Theorem placement_is_the_earliest_fit (d : AppData) (dateToOptimize now : Z) :
  exists a,
    Optimizer.optimizeDaySchedulesOp d dateToOptimize now = Some a
    /\ forall p line oh t,
         In p (Optimizer.schedulesToUpdate a) ->
         getProductionLineById d (lineId p) = Some line ->
         Placement.windowOf line (setHours dateToOptimize 0 0) = Some oh ->
         Optimizer.searchOrigin (setHours dateToOptimize 0 0)
           (sameDateString (setHours dateToOptimize 0 0) now) now
           (timeToMinutes (oh_startTime oh)) <= t < startTime p ->
         exists x,
           ((In x (schedules d)
             /\ sameYearMonthDate (startTime x) (setHours dateToOptimize 0 0) = true
             /\ Optimizer.isNormalPending d x = false)
            \/ (In x (Optimizer.schedulesToUpdate a) /\ startTime x < startTime p))
           /\ lineId x = lineId p
           /\ overlaps t (t + (endTime p - startTime p)) (startTime x) (endTime x) = true.
Proof.
  destruct (OptimizerFacts.optimizeDay_placements d dateToOptimize now) as (a & Ha & Hs & _).
  exists a. split; [assumption|]. rewrite Hs. intros p line oh t Hp Hl Hoh Ht.
  destruct (PlacementFacts.dayPlacement_fits d dateToOptimize now p Hp Hl) as [Hfit Hblk].
  destruct (Hblk oh Hoh t Ht) as (x & Hx & Hov).
  rewrite (PlacementFacts.durationOf_span Hfit) in Hov.
  exists x. split; [|split; [|assumption]].
  - destruct Hx as [Hx|[Hx Hlt]].
    + left. apply OptimizerFacts.fixed_In in Hx. destruct Hx as (Hx & _ & Hnp).
      apply SecondPass.onDay_In in Hx. tauto.
    + right. split; [|assumption]. eapply SecondPass.line_in_P1. exact Hx.
  - destruct Hx as [Hx|[Hx _]].
    + apply OptimizerFacts.fixed_In in Hx. tauto.
    + eapply OptimizerFacts.linePlacements_lineId. exact Hx.
Qed.

(** X7: Each placement lasts exactly the duration the calculator gives for
    the run's product, line and quantity, and that duration is positive. *)
Theorem placement_lasts_the_computed_duration (d : AppData) (dateToOptimize now : Z) :
  exists a,
    Optimizer.optimizeDaySchedulesOp d dateToOptimize now = Some a
    /\ forall p, In p (Optimizer.schedulesToUpdate a) ->
         exists product line,
           getProductById d (productId p) = Some product
           /\ getProductionLineById d (lineId p) = Some line
           /\ 0 < calculateProductDurationOnLine product line (quantity p)
           /\ endTime p
              = startTime p + calculateProductDurationOnLine product line (quantity p) * 60000.
Proof.
  destruct (OptimizerFacts.optimizeDay_placements d dateToOptimize now) as (a & Ha & Hs & _).
  exists a. split; [assumption|]. rewrite Hs. intros p Hp.
  destruct (OptimizerFacts.dayPlacements_origin d dateToOptimize now p Hp)
    as (line & ns & s & e & Hl & _ & _ & Hnp & -> & Hf).
  destruct Hf as (oh & _ & _ & Hpos & _ & _ & He & _).
  unfold Placement.durationOf in *. cbn [productId quantity withTimes startTime endTime lineId] in *.
  destruct (getProductById d (productId ns)) as [product|]; [|lia].
  exists product, line. auto.
Qed.

(** X8: When the target day is the current day, no placement starts before
    the current minute; on any day, none starts before the operating window
    of the line opens. *)
Theorem placement_never_starts_in_the_past (d : AppData) (dateToOptimize now : Z) :
  exists a,
    Optimizer.optimizeDaySchedulesOp d dateToOptimize now = Some a
    /\ forall p, In p (Optimizer.schedulesToUpdate a) ->
         (setHours dateToOptimize 0 0 <= now < setHours dateToOptimize 0 0 + msPerDay ->
          setSeconds0 now <= startTime p /\ now - msPerMinute < startTime p)
         /\ exists line oh,
              getProductionLineById d (lineId p) = Some line
              /\ Placement.windowOf line (setHours dateToOptimize 0 0) = Some oh
              /\ setHours dateToOptimize 0 0 + timeToMinutes (oh_startTime oh) * msPerMinute
                 <= startTime p.
Proof.
  destruct (OptimizerFacts.optimizeDay_placements d dateToOptimize now) as (a & Ha & Hs & _).
  exists a. split; [assumption|]. rewrite Hs. intros p Hp.
  destruct (OptimizerFacts.dayPlacements_origin d dateToOptimize now p Hp)
    as (line & ns & s & e & Hl & _ & _ & Hnp & -> & Hf).
  destruct Hf as (oh & Hoh & _ & _ & _ & Ho & _ & _).
  cbn [withTimes startTime lineId] in *.
  pose proof (searchOrigin_after_window_start (setHours dateToOptimize 0 0)
                (sameDateString (setHours dateToOptimize 0 0) now) now
                (timeToMinutes_nonneg (oh_startTime oh))) as Hw.
  split.
  - intros Htoday. apply epochDay_bounds in Htoday.
    assert (Hit : sameDateString (setHours dateToOptimize 0 0) now = true).
    { apply sameDateString_iff. rewrite epochDay_setHours0. congruence. }
    rewrite Hit in Ho. unfold Optimizer.searchOrigin in Ho.
    assert (Hs0 : setSeconds0 now <= s).
    { destruct (Z.gtb_spec (setSeconds0 now)
                  (setHours (setHours dateToOptimize 0 0)
                     (timeToMinutes (oh_startTime oh) / 60)
                     (Z.rem (timeToMinutes (oh_startTime oh)) 60))); lia. }
    split; [assumption|]. revert Hs0. unfold setSeconds0, msPerMinute.
    intros Hs0. Z.div_mod_to_equations. lia.
  - exists line, oh. split; [assumption|]. split; [assumption|].
    rewrite epochDay_setHours0 in Hw.
    replace (setHours dateToOptimize 0 0) with (epochDay dateToOptimize * msPerDay)
      by (unfold setHours; lia).
    lia.
Qed.

(** ** What the validator accepts *)

Module ValidatorFacts.
Import Gantt.

Lemma conflictScan_clear d ns ne existing :
  (forall x, In x existing -> getProductById d (productId x) <> None ->
             overlaps ns ne (startTime x) (endTime x) = false) ->
  conflictScan d ns ne existing = mkValidity true None.
Proof.
  induction existing as [|x rest IH]; intros H; [reflexivity|]. cbn [conflictScan].
  destruct (getProductById d (productId x)) as [ep|] eqn:Ep.
  - assert (Ho : overlaps ns ne (startTime x) (endTime x) = false).
    { apply H; [now left | congruence]. }
    unfold overlaps in Ho. rewrite Ho. apply IH. intros y Hy. apply H. now right.
  - apply IH. intros y Hy. apply H. now right.
Qed.

(** Conditions under which [checkDropValidity] accepts. *)
Lemma checkDropValidity_accepts d day todayDate currentTime item targetLineId newStartTime
    product targetLine oh :
  getProductById d (productId item) = Some product ->
  getProductionLineById d targetLineId = Some targetLine ->
  status item = Pendente ->
  getLineOperatingHoursForDay d day targetLineId = Some oh ->
  isActive oh = true ->
  getDate newStartTime = getDate day ->
  timeToMinutes (oh_startTime oh) <= minutesOfDay newStartTime ->
  getDate (newStartTime + (endTime item - startTime item)) = getDate day ->
  minutesOfDay (newStartTime + (endTime item - startTime item)) <= timeToMinutes (oh_endTime oh) ->
  (isChartForToday day todayDate = true -> setSeconds0 currentTime <= newStartTime) ->
  (forall x, In x (schedulesOnTargetDayAndLine d day item targetLineId) ->
             getProductById d (productId x) <> None ->
             overlaps newStartTime (newStartTime + (endTime item - startTime item))
               (startTime x) (endTime x) = false) ->
  checkDropValidity d day todayDate currentTime item targetLineId newStartTime
  = mkValidity true None.
Proof.
  intros Hp Hl Hs Hoh Ha Hd1 Hm1 Hd2 Hm2 Hpast Hclear.
  unfold checkDropValidity. rewrite Hp, Hl, Hs, Hoh, Ha. cbn [status_eqb negb].
  rewrite Hd1, Hd2, Z.eqb_refl. cbn [negb orb].
  assert (E1 : (minutesOfDay newStartTime <? timeToMinutes (oh_startTime oh)) = false)
    by (apply Z.ltb_ge; lia).
  assert (E2 : (minutesOfDay (newStartTime + (endTime item - startTime item))
                >? timeToMinutes (oh_endTime oh)) = false)
    by (rewrite Z.gtb_ltb; apply Z.ltb_ge; lia).
  rewrite E1, E2. cbn [orb andb].
  assert (E3 : isChartForToday day todayDate && (newStartTime <? setSeconds0 currentTime)
               = false).
  { destruct (isChartForToday day todayDate); [|reflexivity]. cbn [andb].
    apply Z.ltb_ge. now apply Hpast. }
  rewrite E3. now apply conflictScan_clear.
Qed.

(** What an accepting verdict of [checkDropValidity] implies. *)
Lemma checkDropValidity_valid d day todayDate currentTime item targetLineId newStartTime :
  valid (checkDropValidity d day todayDate currentTime item targetLineId newStartTime) = true ->
  exists product targetLine oh,
    getProductById d (productId item) = Some product
    /\ getProductionLineById d targetLineId = Some targetLine
    /\ status item = Pendente
    /\ getLineOperatingHoursForDay d day targetLineId = Some oh
    /\ isActive oh = true
    /\ timeToMinutes (oh_startTime oh) <= minutesOfDay newStartTime
    /\ getDate (newStartTime + (endTime item - startTime item)) = getDate day
    /\ minutesOfDay (newStartTime + (endTime item - startTime item))
       <= timeToMinutes (oh_endTime oh)
    /\ (isChartForToday day todayDate = true -> setSeconds0 currentTime <= newStartTime)
    /\ (forall x, In x (schedulesOnTargetDayAndLine d day item targetLineId) ->
                  getProductById d (productId x) <> None ->
                  overlaps newStartTime (newStartTime + (endTime item - startTime item))
                    (startTime x) (endTime x) = false).
Proof.
  unfold checkDropValidity.
  destruct (getProductById d (productId item)) as [product|]; [|discriminate].
  destruct (getProductionLineById d targetLineId) as [targetLine|]; [|discriminate].
  destruct (status_eqb (status item) Pendente) eqn:Es; [|discriminate]. cbn [negb].
  apply status_eqb_eq in Es.
  destruct (getLineOperatingHoursForDay d day targetLineId) as [oh|]; [|discriminate].
  destruct (isActive oh) eqn:Ea; [|discriminate]. cbn [negb].
  match goal with |- valid (if ?b then _ else _) = true -> _ => destruct b eqn:Ew end;
    [discriminate|].
  match goal with |- valid (if ?b then _ else _) = true -> _ => destruct b eqn:Ep end;
    [discriminate|].
  intros Hv. exists product, targetLine, oh.
  assert (Hw : timeToMinutes (oh_startTime oh) <= minutesOfDay newStartTime
               /\ getDate (newStartTime + (endTime item - startTime item)) = getDate day
               /\ minutesOfDay (newStartTime + (endTime item - startTime item))
                  <= timeToMinutes (oh_endTime oh)).
  { apply andb_false_iff in Ew. destruct Ew as [Ew|Ew].
    - rewrite !orb_false_iff, !negb_false_iff, !Z.eqb_eq, Z.ltb_ge in Ew.
      destruct Ew as [[[_ E1] E2] E3]. rewrite Z.gtb_ltb, Z.ltb_ge in E3. auto.
    - rewrite negb_false_iff, !andb_true_iff, !Z.eqb_eq, Z.geb_le in Ew.
      destruct Ew as [[E1 E2] E3]. split; [lia|]. split; [assumption | lia]. }
  destruct Hw as (W1 & W2 & W3).
  repeat (split; [first [assumption | reflexivity]|]).
  split.
  - intros Ht. rewrite Ht in Ep. cbn [andb] in Ep. now apply Z.ltb_ge in Ep.
  - now apply conflictScan_valid.
Qed.

End ValidatorFacts.

(** ** The optimizer and the validator *)

Lemma clearOnLine_sym p q : Placement.clearOnLine p q -> Placement.clearOnLine q p.
Proof.
  unfold Placement.clearOnLine. intros H E. rewrite overlaps_sym. apply H. now symmetry.
Qed.

Lemma minutesOfDay_after_window_start t day opStart :
  epochDay t = epochDay day ->
  epochDay day * msPerDay + opStart * msPerMinute <= t ->
  opStart <= minutesOfDay t.
Proof.
  unfold minutesOfDay, getHours, getMinutes, epochDay, msPerDay, msPerHour, msPerMinute.
  intros H1 H2. Z.div_mod_to_equations. lia.
Qed.

Lemma getDay_epochDay a b : epochDay a = epochDay b -> getDay a = getDay b.
Proof. unfold getDay. now intros ->. Qed.

(** X9: The optimizer's output is acceptable to the validator: when the run
    ids are distinct, every movable run of the day was placed and every
    placement ends on the target day, each placement, once committed, passes
    [checkDropValidity] where it stands, on the chart of the target day and
    with the same clock reading. *)
Theorem placements_pass_the_validator
    (d : AppData) (dateToOptimize now : Z) (a : Optimizer.Acc) :
  NoDup (map id (schedules d)) ->
  Optimizer.optimizeDaySchedulesOp d dateToOptimize now = Some a ->
  (forall r, In r (schedules d) ->
             sameYearMonthDate (startTime r) (setHours dateToOptimize 0 0) = true ->
             Optimizer.isNormalPending d r = true ->
             exists s e, In (withTimes r s e) (Optimizer.schedulesToUpdate a)) ->
  (forall p, In p (Optimizer.schedulesToUpdate a) ->
             epochDay (endTime p) = epochDay dateToOptimize) ->
  forall p, In p (Optimizer.schedulesToUpdate a) ->
    In p (schedules (Optimizer.afterOptimize d a))
    /\ Gantt.checkDropValidity (Optimizer.afterOptimize d a) dateToOptimize now now
         p (lineId p) (startTime p)
       = Gantt.mkValidity true None.
Proof.
  intros Hnd H1 Hall Hend p Hp.
  destruct (OptimizerFacts.optimizeDay_placements d dateToOptimize now) as (a' & Ha & Hs & _).
  rewrite H1 in Ha. injection Ha as <-.
  unfold Optimizer.afterOptimize. rewrite Hs in *.
  set (T := setHours dateToOptimize 0 0) in *.
  set (P1 := Placement.dayPlacements d dateToOptimize now) in *.
  set (d' := mkAppData (products d) (productionLines d) (commitAll P1 (schedules d))).
  split; [exact (SecondPass.placement_committed d dateToOptimize now Hnd p Hp)|].
  destruct (OptimizerFacts.dayPlacements_origin d dateToOptimize now p Hp)
    as (line & ns & s & e & Hl & _ & _ & Hnp & Epns & Hf).
  destruct (isNormalPending_product d ns Hnp) as (product & Hprod & _ & Hst).
  destruct (placement_window_checks d dateToOptimize now p Hp)
    as (line' & oh & Hl' & Hoh & Hact & W1 & W2 & W3 & W4 & W5 & W6).
  rewrite Hl in Hl'. injection Hl' as <-.
  assert (ET : epochDay T = epochDay dateToOptimize) by apply epochDay_setHours0.
  assert (Es : epochDay (startTime p) = epochDay dateToOptimize).
  { pose proof (timeToMinutes_nonneg (oh_startTime oh)) as Hnn.
    apply epochDay_between with (e := endTime p);
      [unfold msPerMinute in W1; lia | lia | now apply Hend]. }
  assert (Hspan : startTime p + (endTime p - startTime p) = endTime p) by lia.
  apply ValidatorFacts.checkDropValidity_accepts with (product := product)
    (targetLine := line) (oh := oh).
  - subst p. exact Hprod.
  - exact Hl.
  - subst p. exact Hst.
  - unfold Gantt.getLineOperatingHoursForDay.
    change (getProductionLineById d' (lineId p)) with (getProductionLineById d (lineId p)).
    rewrite Hl. unfold Placement.windowOf in Hoh.
    fold T in Hoh. rewrite <- (getDay_epochDay _ _ ET). exact Hoh.
  - exact Hact.
  - now apply CalendarFacts.getDate_epochDay.
  - now apply minutesOfDay_after_window_start with (day := dateToOptimize).
  - rewrite Hspan. apply CalendarFacts.getDate_epochDay. now apply Hend.
  - rewrite Hspan. exact W5.
  - intros Htoday. unfold Gantt.isChartForToday in Htoday.
    apply sameYearMonthDate_iff in Htoday.
    destruct Hf as (oh' & Hoh' & _ & _ & _ & Ho & _ & _).
    assert (Hit : sameDateString T now = true).
    { apply sameDateString_iff. congruence. }
    fold T in Ho. rewrite Hit in Ho. unfold Optimizer.searchOrigin in Ho. subst p.
    cbn [withTimes startTime].

    destruct (Z.gtb_spec (setSeconds0 now)
                (setHours T (timeToMinutes (oh_startTime oh') / 60)
                   (Z.rem (timeToMinutes (oh_startTime oh')) 60))); lia.
  - intros x Hx _. rewrite Hspan.
    unfold Gantt.schedulesOnTargetDayAndLine in Hx. apply filter_In in Hx.
    destruct Hx as [Hx Hc]. rewrite !andb_true_iff, negb_true_iff in Hc.
    destruct Hc as [[Hc1 Hc2] Hc3]. apply String.eqb_eq in Hc1. apply String.eqb_neq in Hc2.
    apply (SecondPass.committed_In d dateToOptimize now Hnd) in Hx.
    destruct Hx as (r & Hr & Ex).
    destruct (SecondPass.replaceBy_cases d dateToOptimize now r)
      as [(q & Hq & Eid & Eq)|[Hnone Eq]]; fold P1 in Ex, Eq; rewrite Eq in Ex; subst x.
    + destruct (OptimizerFacts.dayPlacements_clear d dateToOptimize now) as [Hfop _].
      assert (Hne : p <> q) by (intros ->; congruence).
      pose proof (@FOP_In _ Placement.clearOnLine P1 p q clearOnLine_sym Hfop Hp Hq Hne) as Hc.
      apply Hc. now symmetry.
    + destruct (OptimizerFacts.dayPlacements_clear d dateToOptimize now) as [_ Hfix].
      assert (Hday : sameYearMonthDate (startTime r) T = true).
      { apply sameYearMonthDate_iff. apply sameYearMonthDate_iff in Hc3. congruence. }
      apply Hfix; try assumption.
      destruct (Optimizer.isNormalPending d r) eqn:Enp; [|reflexivity].
      exfalso. destruct (Hall r Hr Hday Enp) as (s' & e' & Hin).
      apply (Hnone _ Hin). reflexivity.
Qed.

Lemma placements_pass_the_validator_witness :
  Gantt.checkDropValidity
    (Optimizer.afterOptimize Scenarios.twinsData Scenarios.twinsFirstPass)
    Scenarios.monday Scenarios.someOtherDay Scenarios.someOtherDay
    (withTimes Scenarios.twin2 (Scenarios.instant 4 10 0) (Scenarios.instant 4 12 0))
    "L" (Scenarios.instant 4 10 0)
  = Gantt.mkValidity true None.
Proof.
  assert (H1 : NoDup (map id (schedules Scenarios.twinsData))).
  { simpl. repeat constructor; simpl; intuition discriminate. }
  assert (H2 : Optimizer.optimizeDaySchedulesOp Scenarios.twinsData Scenarios.monday
                 Scenarios.someOtherDay = Some Scenarios.twinsFirstPass).
  { vm_compute. reflexivity. }
  assert (H3 : forall r, In r (schedules Scenarios.twinsData) ->
                 sameYearMonthDate (startTime r) (setHours Scenarios.monday 0 0) = true ->
                 Optimizer.isNormalPending Scenarios.twinsData r = true ->
                 exists s e, In (withTimes r s e)
                               (Optimizer.schedulesToUpdate Scenarios.twinsFirstPass)).
  { intros r [<-|[<-|[]]] _ _.
    - exists (Scenarios.instant 4 8 0), (Scenarios.instant 4 10 0). left. reflexivity.
    - exists (Scenarios.instant 4 10 0), (Scenarios.instant 4 12 0). right. left. reflexivity. }
  assert (H4 : forall p, In p (Optimizer.schedulesToUpdate Scenarios.twinsFirstPass) ->
                 epochDay (endTime p) = epochDay Scenarios.monday).
  { intros p [<-|[<-|[]]]; vm_compute; reflexivity. }
  assert (H5 : In (withTimes Scenarios.twin2 (Scenarios.instant 4 10 0)
                     (Scenarios.instant 4 12 0))
                  (Optimizer.schedulesToUpdate Scenarios.twinsFirstPass)).
  { right. left. reflexivity. }
  exact (proj2 (placements_pass_the_validator Scenarios.twinsData Scenarios.monday
                  Scenarios.someOtherDay H1 H2 H3 H4 _ H5)).
Defined.

(** X10: The optimizer touches nothing but the runs it places: when the run
    ids are distinct, the products and lines are as before, the collection
    holds the same ids, every run that is not a Normal pending run of the
    target day is still there unchanged, and every run of the collection is
    an old run or a placement. *)
Theorem optimizer_leaves_other_runs_untouched
    (d : AppData) (dateToOptimize now : Z) (a : Optimizer.Acc) :
  NoDup (map id (schedules d)) ->
  Optimizer.optimizeDaySchedulesOp d dateToOptimize now = Some a ->
  products (Optimizer.afterOptimize d a) = products d
  /\ productionLines (Optimizer.afterOptimize d a) = productionLines d
  /\ Permutation (map id (schedules (Optimizer.afterOptimize d a))) (map id (schedules d))
  /\ (forall r, In r (schedules d) ->
        Optimizer.isNormalPending d r = false
        \/ sameYearMonthDate (startTime r) (setHours dateToOptimize 0 0) = false ->
        In r (schedules (Optimizer.afterOptimize d a)))
  /\ (forall q, In q (schedules (Optimizer.afterOptimize d a)) ->
        In q (schedules d) \/ In q (Optimizer.schedulesToUpdate a))
  /\ (forall p, In p (Optimizer.schedulesToUpdate a) ->
        In p (schedules (Optimizer.afterOptimize d a))).
Proof.
  intros Hnd H1.
  destruct (OptimizerFacts.optimizeDay_placements d dateToOptimize now) as (a' & Ha & Hs & _).
  rewrite H1 in Ha. injection Ha as <-.
  unfold Optimizer.afterOptimize. rewrite Hs.
  split; [reflexivity|]. split; [reflexivity|]. split; [|split; [|split]].
  - apply commitAll_ids. auto.
  - intros r Hr Hcase. apply (SecondPass.committed_In d dateToOptimize now Hnd).
    exists r. split; [assumption|].
    destruct (SecondPass.replaceBy_cases d dateToOptimize now r)
      as [(p & Hp & Eid & _)|[_ Eq]]; [|now rewrite Eq].
    exfalso.
    destruct (SecondPass.P1_of_run d dateToOptimize now Hnd p r Hp Hr (eq_sym Eid))
      as (_ & Hon & Hnp).
    apply SecondPass.onDay_In in Hon. destruct Hon as [_ Hon].
    destruct Hcase; congruence.
  - intros q Hq. apply (SecondPass.committed_In d dateToOptimize now Hnd) in Hq.
    destruct Hq as (r & Hr & ->).
    destruct (SecondPass.replaceBy_cases d dateToOptimize now r)
      as [(p & Hp & _ & ->)|[_ ->]]; auto.
  - intros p Hp. exact (SecondPass.placement_committed d dateToOptimize now Hnd p Hp).
Qed.

Lemma optimizer_leaves_other_runs_untouched_witness :
  In Scenarios.topRun
     (schedules (Optimizer.afterOptimize Scenarios.conflictData Cases.conflictFirstPass))
  /\ Permutation
       (map id (schedules (Optimizer.afterOptimize Scenarios.conflictData
                             Cases.conflictFirstPass)))
       (map id (schedules Scenarios.conflictData)).
Proof.
  assert (H1 : NoDup (map id (schedules Scenarios.conflictData))).
  { simpl. repeat constructor; simpl; intuition discriminate. }
  assert (H2 : Optimizer.optimizeDaySchedulesOp Scenarios.conflictData Scenarios.monday
                 Scenarios.someOtherDay = Some Cases.conflictFirstPass).
  { vm_compute. reflexivity. }
  destruct (optimizer_leaves_other_runs_untouched Scenarios.conflictData Scenarios.monday
              Scenarios.someOtherDay H1 H2) as (_ & _ & Hids & Hkeep & _).
  split; [|exact Hids].
  apply Hkeep; [right; left; reflexivity | left; reflexivity].
Defined.

Module ClockViewFacts.
Import StatusClock ClockView.

Lemma seenAt_transition now s : seenAt now s = ClockSpec.transition now s.
Proof. apply ClockFacts.transition_newStatus. Qed.

Lemma ticks_perm times : forall ss,
  NoDup (map id ss) ->
  Permutation (ticks times ss) (map (seenAtAll times) ss)
  /\ NoDup (map id (ticks times ss)).
Proof.
  induction times as [|t times IH]; intros ss Hnd.
  - cbn. rewrite map_id. split; [reflexivity | assumption].
  - cbn [ticks fold_left]. fold (ticks times (tick t ss)).
    destruct (IH (tick t ss) (ClockFacts.tick_NoDup t ss Hnd)) as [Hp Hn].
    split; [|exact Hn]. rewrite Hp.
    rewrite (Permutation_map (seenAtAll times) (ClockFacts.tick_perm t ss Hnd)).
    rewrite map_map. apply Permutation_refl'. apply map_ext. intros s.
    unfold seenAtAll. cbn [fold_left]. now rewrite seenAt_transition.
Qed.

Lemma seenAt_fields now s :
  id (seenAt now s) = id s /\ productId (seenAt now s) = productId s
  /\ lineId (seenAt now s) = lineId s /\ startTime (seenAt now s) = startTime s
  /\ endTime (seenAt now s) = endTime s /\ quantity (seenAt now s) = quantity s
  /\ notes (seenAt now s) = notes s.
Proof. unfold seenAt, withStatus. cbn. repeat split. Qed.

Lemma seenAt_advances now s : advancesTo (status s) (status (seenAt now s)) = true.
Proof.
  unfold seenAt, newStatus. cbn [withStatus status].
  destruct (status s); cbn [status_eqb andb];
    repeat match goal with |- context [if ?b then _ else _] => destruct b end; reflexivity.
Qed.

Lemma advancesTo_trans a b c :
  advancesTo a b = true -> advancesTo b c = true -> advancesTo a c = true.
Proof. destruct a, b, c; cbn; congruence. Qed.

Lemma advancesTo_refl a : advancesTo a a = true.
Proof. now destruct a. Qed.

Lemma withStatus_twice s a b : withStatus (withStatus s a) b = withStatus s b.
Proof. reflexivity. Qed.

Lemma seenAtAll_shape times : forall s,
  seenAtAll times s = withStatus s (status (seenAtAll times s))
  /\ advancesTo (status s) (status (seenAtAll times s)) = true.
Proof.
  induction times as [|t times IH]; intros s.
  - cbn. split; [now destruct s | apply advancesTo_refl].
  - unfold seenAtAll in *. cbn [fold_left].
    destruct (IH (seenAt t s)) as [H1 H2]. split.
    + rewrite H1 at 1. unfold seenAt at 1. apply withStatus_twice.
    + eapply advancesTo_trans; [apply seenAt_advances | exact H2].
Qed.

Lemma seenAtAll_terminal times s :
  status s = Concluido \/ status s = Cancelado -> seenAtAll times s = s.
Proof.
  intros H. destruct (seenAtAll_shape times s) as [H1 H2]. rewrite H1.
  destruct s as [i p l st en q n stt]. cbn in *.
  destruct H as [-> | ->]; destruct (status _); cbn in H2; try discriminate; reflexivity.
Qed.

End ClockViewFacts.

(** X11: Whatever the clock readings, the ticks only move statuses forward:
    when the run ids are distinct, the collection after any series of ticks
    holds the same ids, each run differs from the run it was in its status
    only, that status being reached along Pending, In Progress, Completed;
    a Completed or Cancelled run is never changed. *)
Theorem clock_only_advances_status (times : list Z) (ss : list ScheduledProductionRun) :
  NoDup (map id ss) ->
  Permutation (map id (StatusClock.ticks times ss)) (map id ss)
  /\ (forall q, In q (StatusClock.ticks times ss) ->
        exists r, In r ss
                  /\ q = withStatus r (status q)
                  /\ ClockView.advancesTo (status r) (status q) = true
                  /\ (status r = Concluido \/ status r = Cancelado -> q = r))
  /\ (forall r, In r ss -> status r = Concluido \/ status r = Cancelado ->
                In r (StatusClock.ticks times ss)).
Proof.
  intros Hnd. destruct (ClockViewFacts.ticks_perm times ss Hnd) as [Hp _].
  split; [|split].
  - rewrite (Permutation_map id Hp), map_map. apply Permutation_refl'. apply map_ext.
    intros s. destruct (ClockViewFacts.seenAtAll_shape times s) as [H _]. rewrite H.
    reflexivity.
  - intros q Hq. apply (Permutation_in _ Hp) in Hq. apply in_map_iff in Hq.
    destruct Hq as (r & <- & Hr). exists r.
    destruct (ClockViewFacts.seenAtAll_shape times r) as [H1 H2].
    split; [assumption|]. split; [assumption|]. split; [assumption|].
    apply ClockViewFacts.seenAtAll_terminal.
  - intros r Hr Ht. apply (Permutation_in _ (Permutation_sym Hp)). apply in_map_iff.
    exists r. split; [now apply ClockViewFacts.seenAtAll_terminal | assumption].
Qed.

Lemma clock_only_advances_status_witness :
  In Scenarios.clockRunCancelled
     (StatusClock.ticks [1500; 100; 9000]
        [Scenarios.clockRunInProgress; Scenarios.clockRunCancelled; Scenarios.clockRunPending]).
Proof.
  assert (H : NoDup (map id [Scenarios.clockRunInProgress; Scenarios.clockRunCancelled;
                             Scenarios.clockRunPending])).
  { simpl. repeat constructor; simpl; intuition discriminate. }
  destruct (clock_only_advances_status [1500; 100; 9000] _ H) as (_ & _ & Hk).
  apply Hk; [right; left; reflexivity | right; reflexivity].
Defined.






(** ** The collection of runs under the provider's operations *)

Module StoreFacts.
Import Store.

Lemma sortByStart_sorted_id l : StronglySorted startsNoLater l -> sortByStart l = l.
Proof.
  induction l as [|a l IH]; intros Hs; [reflexivity|].
  inversion Hs as [|? ? Hl Ha]; subst. cbn [sortByStart fold_right].
  fold (sortByStart l). rewrite (IH Hl). destruct l as [|y rest]; [reflexivity|].
  cbn [insertByStart]. inversion Ha as [|? ? Hy _]; subst. unfold startsNoLater in Hy.
  destruct (Z.leb_spec (startTime a) (startTime y)); [reflexivity | lia].
Qed.

Lemma filter_insertByStart (f : ScheduledProductionRun -> bool) x l :
  StronglySorted startsNoLater l ->
  filter f (insertByStart x l)
  = if f x then insertByStart x (filter f l) else filter f l.
Proof.
  induction l as [|y rest IH]; intros Hs.
  - cbn. now destruct (f x).
  - inversion Hs as [|? ? Hrest Hy]; subst. cbn [insertByStart].
    destruct (Z.leb_spec (startTime x) (startTime y)) as [Hle|Hgt].
    + cbn [filter]. destruct (f x) eqn:Ex; [|reflexivity].
      destruct (f y) eqn:Ey.
      * cbn [insertByStart]. destruct (Z.leb_spec (startTime x) (startTime y)); [reflexivity|lia].
      * assert (Hall : Forall (startsNoLater x) (filter f rest)).
        { apply Forall_forall. intros z Hz. apply filter_In in Hz. destruct Hz as [Hz _].
          rewrite Forall_forall in Hy. specialize (Hy z Hz). unfold startsNoLater in *. lia. }
        destruct (filter f rest) as [|z zs]; [reflexivity|]. cbn [insertByStart].
        inversion Hall as [|? ? Hz _]; subst. unfold startsNoLater in Hz.
        destruct (Z.leb_spec (startTime x) (startTime z)); [reflexivity | lia].
    + cbn [filter]. rewrite (IH Hrest). destruct (f y) eqn:Ey, (f x) eqn:Ex; try reflexivity.
      cbn [insertByStart]. destruct (Z.leb_spec (startTime x) (startTime y)); [lia | reflexivity].
Qed.

Lemma filter_sortByStart (f : ScheduledProductionRun -> bool) l :
  filter f (sortByStart l) = sortByStart (filter f l).
Proof.
  induction l as [|a l IH]; [reflexivity|]. cbn [sortByStart fold_right filter].
  fold (sortByStart l). rewrite filter_insertByStart by apply sortByStart_sorted.
  rewrite IH. destruct (f a); reflexivity.
Qed.

Lemma filter_sorted (f : ScheduledProductionRun -> bool) l :
  StronglySorted startsNoLater l -> StronglySorted startsNoLater (filter f l).
Proof.
  intros Hs. rewrite <- (sortByStart_sorted_id Hs), filter_sortByStart.
  apply sortByStart_sorted.
Qed.

Lemma filter_absent (f : ScheduledProductionRun -> bool) l :
  (forall x, In x l -> f x = true) -> filter f l = l.
Proof.
  induction l as [|a l IH]; intros H; [reflexivity|]. cbn [filter].
  rewrite (H a (or_introl eq_refl)), IH; [reflexivity|]. intros x Hx. apply H. now right.
Qed.

Lemma commitAll_sorted us : forall ss,
  StronglySorted startsNoLater ss -> StronglySorted startsNoLater (commitAll us ss).
Proof.
  unfold commitAll. induction us as [|u us IH]; intros ss Hs; [exact Hs|].
  cbn [fold_left]. apply IH. apply sortByStart_sorted.
Qed.

End StoreFacts.

(** X13: The collection of runs stays sorted by start time: an insert or an
    update that the store accepts leaves it sorted whatever it was before,
    and a delete, a tick of the status clock and the commit of the
    optimizer's placements keep a sorted collection sorted. *)
Theorem runs_stay_sorted_by_start (st : Store.Provider) :
  (forall data,
     StronglySorted startsNoLater
       (schedules (Store.appData (Store.addScheduleOp (Store.Row (Some data)) st))))
  /\ (forall item data,
        StronglySorted startsNoLater
          (schedules (Store.appData (Store.updateScheduleOp item (Store.Row (Some data)) st))))
  /\ (StronglySorted startsNoLater (schedules (Store.appData st)) ->
      (forall answer id0,
         StronglySorted startsNoLater
           (schedules (Store.appData (Store.deleteScheduleOp answer id0 st))))
      /\ (forall now,
            StronglySorted startsNoLater (StatusClock.tick now (schedules (Store.appData st))))
      /\ (forall a,
            StronglySorted startsNoLater
              (schedules (Optimizer.afterOptimize (Store.appData st) a)))).
Proof.
  split; [|split].
  - intros data. cbn. apply sortByStart_sorted.
  - intros item data. cbn. apply sortByStart_sorted.
  - intros Hs. split; [|split].
    + intros [m|] id0; cbn; [assumption|]. now apply StoreFacts.filter_sorted.
    + intros now. unfold StatusClock.tick. now apply StoreFacts.commitAll_sorted.
    + intros a. cbn. now apply StoreFacts.commitAll_sorted.
Qed.

(** X14: Deleting the run that was just added gives back the collection: on a
    sorted collection that does not hold the new row's id, an accepted
    insert followed by an accepted delete of that id changes nothing. *)
Theorem add_then_delete_restores (st : Store.Provider) (data : ScheduledProductionRun) :
  StronglySorted startsNoLater (schedules (Store.appData st)) ->
  ~ In (id data) (map id (schedules (Store.appData st))) ->
  schedules (Store.appData
     (Store.deleteScheduleOp None (id data) (Store.addScheduleOp (Store.Row (Some data)) st)))
  = schedules (Store.appData st)
  /\ In data (schedules (Store.appData (Store.addScheduleOp (Store.Row (Some data)) st))).
Proof.
  intros Hs Hid. cbn. split.
  - rewrite StoreFacts.filter_sortByStart, filter_app. cbn [filter].
    rewrite String.eqb_refl. cbn [negb]. rewrite app_nil_r.
    rewrite StoreFacts.filter_absent.
    + now apply StoreFacts.sortByStart_sorted_id.
    + intros x Hx. apply negb_true_iff. apply String.eqb_neq. intros E. apply Hid.
      rewrite <- E. now apply in_map.
  - apply sortByStart_In. apply in_or_app. right. now left.
Qed.

Lemma add_then_delete_restores_witness :
  schedules (Store.appData
     (Store.deleteScheduleOp None (id Scenarios.runA)
        (Store.addScheduleOp (Store.Row (Some Scenarios.runA))
           (Store.mkProvider [] Scenarios.conflictData None))))
  = schedules Scenarios.conflictData.
Proof.
  assert (H1 : StronglySorted startsNoLater
                 (schedules (Store.appData (Store.mkProvider [] Scenarios.conflictData None)))).
  { cbn [schedules Scenarios.conflictData Store.appData].
    repeat constructor; unfold startsNoLater; vm_compute; discriminate. }
  assert (H2 : ~ In (id Scenarios.runA)
                    (map id (schedules (Store.appData
                                          (Store.mkProvider [] Scenarios.conflictData None))))).
  { cbn. intuition discriminate. }
  exact (proj1 (add_then_delete_restores
                  (Store.mkProvider [] Scenarios.conflictData None) Scenarios.runA H1 H2)).
Defined.

(** X15: [updateScheduleOp] replaces by id and never inserts: after an update
    that the store accepts, the collection holds the returned row in the
    place of every run that had the item's id, and the other runs as they
    were; when no run has that id, the row is not added. *)
Theorem update_replaces_by_id
    (st : Store.Provider) (item data x : ScheduledProductionRun) :
  (In x (schedules (Store.appData (Store.updateScheduleOp item (Store.Row (Some data)) st)))
   <-> (x = data /\ In (id item) (map id (schedules (Store.appData st))))
       \/ (In x (schedules (Store.appData st)) /\ id x <> id item))
  /\ List.length (schedules (Store.appData
                    (Store.updateScheduleOp item (Store.Row (Some data)) st)))
     = List.length (schedules (Store.appData st))
  /\ schedules (Store.appData (Store.updateScheduleOp item (Store.Row (Some item)) st))
     = updateScheduleOp item (schedules (Store.appData st)).
Proof.
  cbn. split; [|split; [|reflexivity]].
  - rewrite sortByStart_In, in_map_iff. split.
    + intros (s & Hs & Hin). destruct (String.eqb_spec (id s) (id item)) as [E|E].
      * left. split; [now symmetry|]. rewrite <- E. now apply in_map.
      * right. subst x. auto.
    + intros [[-> Hin]|[Hin Hne]].
      * apply in_map_iff in Hin. destruct Hin as (s & Es & Hs). exists s.
        split; [|assumption]. rewrite Es, String.eqb_refl. reflexivity.
      * exists x. split; [|assumption]. apply String.eqb_neq in Hne. now rewrite Hne.
  - rewrite (Permutation_length (sortByStart_perm _)). apply length_map.
Qed.

(** X16: The runs of a deleted product stay in the local collection and no
    longer resolve: the optimizer does not count them among the runs it may
    move, and the validator refuses to move them, wherever to. *)
Theorem runs_of_a_deleted_product_are_stranded
    (st : Store.Provider) (id0 : string) (r : ScheduledProductionRun) :
  productId r = id0 ->
  let d' := Store.appData (Store.deleteProductOp None id0 st) in
  schedules d' = schedules (Store.appData st)
  /\ getProductById d' (productId r) = None
  /\ Optimizer.isNormalPending d' r = false
  /\ (forall dateToOptimize now a,
        Optimizer.optimizeDaySchedulesOp d' dateToOptimize now = Some a ->
        forall p, In p (Optimizer.schedulesToUpdate a) -> productId p <> id0)
  /\ (forall day todayDate currentTime targetLineId newStartTime,
        Gantt.checkDropValidity d' day todayDate currentTime r targetLineId newStartTime
        = Gantt.mkValidity false (Some Gantt.ProductOrLineNotFound)).
Proof.
  intros Hr d'.
  assert (Hnone : forall i, i = id0 -> getProductById d' i = None).
  { intros i ->. subst d'. unfold getProductById. cbn.
    induction (products (Store.appData st)) as [|p ps IH]; [reflexivity|]. cbn [filter].
    destruct (String.eqb_spec (p_id p) id0) as [E|E]; cbn [negb]; [exact IH|].
    cbn [find]. apply String.eqb_neq in E. now rewrite E. }
  split; [reflexivity|]. split; [now apply Hnone|]. split; [|split].
  - unfold Optimizer.isNormalPending, Optimizer.classificationOf. now rewrite (Hnone _ Hr).
  - intros dateToOptimize now a Ha p Hp Ep.
    destruct (OptimizerFacts.optimizeDay_placements d' dateToOptimize now) as (a' & Ha' & Hs & _).
    rewrite Ha in Ha'. injection Ha' as <-. rewrite Hs in Hp.
    destruct (OptimizerFacts.dayPlacements_origin d' dateToOptimize now p Hp)
      as (line & ns & s & e & _ & _ & _ & Hnp & -> & _).
    destruct (isNormalPending_product d' ns Hnp) as (product & Hprod & _).
    cbn [withTimes productId] in Ep. rewrite (Hnone _ Ep) in Hprod. discriminate.
  - intros. unfold Gantt.checkDropValidity. now rewrite (Hnone _ Hr).
Qed.

Lemma runs_of_a_deleted_product_are_stranded_witness :
  Gantt.checkDropValidity
    (Store.appData (Store.deleteProductOp None "n"
                      (Store.mkProvider [] Scenarios.conflictData None)))
    Scenarios.monday Scenarios.someOtherDay Scenarios.someOtherDay
    Scenarios.pendingRun "L" (Scenarios.instant 4 10 0)
  = Gantt.mkValidity false (Some Gantt.ProductOrLineNotFound).
Proof.
  destruct (@runs_of_a_deleted_product_are_stranded
              (Store.mkProvider [] Scenarios.conflictData None) "n" Scenarios.pendingRun
              eq_refl) as (_ & _ & _ & _ & H).
  apply H.
Defined.

(** ** Deleting an equipment *)


Module DeleteFacts.
Import Store StoreView.

Lemma filtered_times_clean id0 pts pt :
  In pt (filter (fun pt => negb (String.eqb (equipmentId pt) id0)) pts) ->
  equipmentId pt <> id0.
Proof.
  intros H. apply filter_In in H. destruct H as [_ H].
  apply negb_true_iff in H. now apply String.eqb_neq.
Qed.

Lemma filtered_ids_clean id0 eqs :
  ~ In id0 (filter (fun eqId => negb (String.eqb eqId id0)) eqs).
Proof.
  intros H. apply filter_In in H. destruct H as [_ H].
  rewrite String.eqb_refl in H. discriminate.
Qed.

Lemma cleanProducts_spec answers id0 affected : forall n prev,
  match cleanProducts answers n id0 affected prev with
  | (prev', _, thrown) =>
      map (fun p => (p_id p, p_name p, classification p)) prev'
      = map (fun p => (p_id p, p_name p, classification p)) prev
      /\ (thrown = None ->
          forall p', In p' prev' ->
            (In p' prev /\ ~ In (p_id p') (map p_id affected)) \/ productClean id0 p')
      /\ (thrown <> None -> exists k, answers k <> None)
      /\ ((forall k, answers k = None) -> thrown = None)
  end.
Proof.
  induction affected as [|prod rest IH]; intros n prev.
  - cbn. split; [reflexivity|]. split; [auto|]. split; [congruence | reflexivity].
  - cbn [cleanProducts]. destruct (answers n) as [message|] eqn:En.
    + split; [reflexivity|]. split; [discriminate|].
      split; [intros _; exists n; congruence|]. intros H. rewrite H in En. discriminate.
    + specialize (IH (S n)
        (map (fun p => if String.eqb (p_id p) (p_id prod)
                       then withProcessingTimes p
                              (filter (fun pt => negb (String.eqb (equipmentId pt) id0))
                                      (processingTimes prod))
                       else p) prev)).
      destruct (cleanProducts answers (S n) id0 rest _) as [[prev' n'] thrown].
      destruct IH as (I1 & I2 & I3 & I4). split; [|split; [|split; assumption]].
      * rewrite I1, map_map. apply map_ext. intros p.
        destruct (String.eqb (p_id p) (p_id prod)); reflexivity.
      * intros Ht p' Hp'. destruct (I2 Ht p' Hp') as [[Hin Hni]|Hc]; [|now right].
        apply in_map_iff in Hin. destruct Hin as (p & Ep & Hp).
        destruct (String.eqb_spec (p_id p) (p_id prod)) as [E|E].
        -- right. subst p'. intros pt Hpt. cbn in Hpt.
           now apply filtered_times_clean in Hpt.
        -- left. subst p'. split; [assumption|]. cbn [map]. intros [H|H]; [congruence | auto].
Qed.

Lemma cleanLines_spec answers id0 affected : forall n prev,
  match cleanLines answers n id0 affected prev with
  | (prev', _, thrown) =>
      map (fun l => (l_id l, l_name l, operatingHours l)) prev'
      = map (fun l => (l_id l, l_name l, operatingHours l)) prev
      /\ (thrown = None ->
          forall l', In l' prev' ->
            (In l' prev /\ ~ In (l_id l') (map l_id affected)) \/ lineClean id0 l')
      /\ (thrown <> None -> exists k, answers k <> None)
      /\ ((forall k, answers k = None) -> thrown = None)
  end.
Proof.
  induction affected as [|line rest IH]; intros n prev.
  - cbn. split; [reflexivity|]. split; [auto|]. split; [congruence | reflexivity].
  - cbn [cleanLines]. destruct (answers n) as [message|] eqn:En.
    + split; [reflexivity|]. split; [discriminate|].
      split; [intros _; exists n; congruence|]. intros H. rewrite H in En. discriminate.
    + specialize (IH (S n)
        (map (fun l => if String.eqb (l_id l) (l_id line)
                       then withEquipmentIds l
                              (filter (fun eqId => negb (String.eqb eqId id0))
                                      (equipmentIds line))
                       else l) prev)).
      destruct (cleanLines answers (S n) id0 rest _) as [[prev' n'] thrown].
      destruct IH as (I1 & I2 & I3 & I4). split; [|split; [|split; assumption]].
      * rewrite I1, map_map. apply map_ext. intros l.
        destruct (String.eqb (l_id l) (l_id line)); reflexivity.
      * intros Ht l' Hl'. destruct (I2 Ht l' Hl') as [[Hin Hni]|Hc]; [|now right].
        apply in_map_iff in Hin. destruct Hin as (l & El & Hl).
        destruct (String.eqb_spec (l_id l) (l_id line)) as [E|E].
        -- right. subst l'. unfold lineClean. cbn. apply filtered_ids_clean.
        -- left. subst l'. split; [assumption|]. cbn [map]. intros [H|H]; [congruence | auto].
Qed.

Lemma unaffected_product_clean id0 (ps : list Product) p :
  In p ps ->
  ~ In (p_id p)
       (map p_id (filter (fun p => existsb (fun pt => String.eqb (equipmentId pt) id0)
                                          (processingTimes p)) ps)) ->
  productClean id0 p.
Proof.
  intros Hp Hni pt Hpt E. apply Hni. apply in_map. apply filter_In. split; [assumption|].
  apply existsb_exists. exists pt. split; [assumption|]. now apply String.eqb_eq.
Qed.

Lemma unaffected_line_clean id0 (ls : list ProductionLine) l :
  In l ls ->
  ~ In (l_id l)
       (map l_id (filter (fun l => existsb (fun eqId => String.eqb eqId id0) (equipmentIds l))
                         ls)) ->
  lineClean id0 l.
Proof.
  intros Hl Hni Hin. apply Hni. apply in_map. apply filter_In. split; [assumption|].
  apply existsb_exists. exists id0. split; [assumption|]. apply String.eqb_refl.
Qed.

End DeleteFacts.

(** X17: [deleteEquipmentOp] never leaves a reference behind an equipment it
    has removed.  Whatever the store answers, the runs are untouched and no
    product or line is lost or renamed; either a request was refused, the
    error is set and the equipment list is as before, or the error is as
    before, the equipment is gone from the list, from the processing times
    of every product and from the sequence of every line.  When no request
    is refused the second case holds. *)
Theorem deleteEquipment_removes_every_reference
    (answers : Store.Answers) (id0 : string) (st : Store.Provider) :
  let st' := Store.deleteEquipmentOp answers id0 st in
  schedules (Store.appData st') = schedules (Store.appData st)
  /\ map (fun p => (p_id p, p_name p, classification p)) (products (Store.appData st'))
     = map (fun p => (p_id p, p_name p, classification p)) (products (Store.appData st))
  /\ map (fun l => (l_id l, l_name l, operatingHours l)) (productionLines (Store.appData st'))
     = map (fun l => (l_id l, l_name l, operatingHours l)) (productionLines (Store.appData st))
  /\ ((Store.equipment st' = Store.equipment st
       /\ Store.error st' <> None
       /\ exists k, answers k <> None)
      \/ (Store.error st' = Store.error st
          /\ Store.equipment st'
             = filter (fun eq => negb (String.eqb (Store.e_id eq) id0)) (Store.equipment st)
          /\ (forall p, In p (products (Store.appData st')) -> StoreView.productClean id0 p)
          /\ (forall l, In l (productionLines (Store.appData st')) ->
                StoreView.lineClean id0 l)))
  /\ ((forall k, answers k = None) -> Store.error st' = Store.error st).
Proof.
  cbv zeta. unfold Store.deleteEquipmentOp.
  pose proof (DeleteFacts.cleanProducts_spec answers id0
    (filter (fun p => existsb (fun pt => String.eqb (equipmentId pt) id0) (processingTimes p))
            (products (Store.appData st))) 0 (products (Store.appData st))) as HP.
  destruct (Store.cleanProducts answers 0 id0 _ _) as [[products1 n1] thrown1].
  destruct HP as (P1 & P2 & P3 & P4).
  destruct thrown1 as [thrown|].
  { cbn. split; [reflexivity|]. split; [assumption|]. split; [reflexivity|].
    split.
    - left. split; [reflexivity|]. split; [discriminate|]. apply P3. discriminate.
    - intros H. specialize (P4 H). discriminate. }
  pose proof (DeleteFacts.cleanLines_spec answers id0
    (filter (fun l => existsb (fun eqId => String.eqb eqId id0) (equipmentIds l))
            (productionLines (Store.appData st))) n1 (productionLines (Store.appData st)))
    as HL.
  cbn [Store.appData Store.setProducts productionLines].
  destruct (Store.cleanLines answers n1 id0 _ _) as [[lines1 n2] thrown2].
  destruct HL as (L1 & L2 & L3 & L4).
  destruct thrown2 as [thrown|].
  { cbn. split; [reflexivity|]. split; [assumption|]. split; [assumption|].
    split.
    - left. split; [reflexivity|]. split; [discriminate|]. apply L3. discriminate.
    - intros H. specialize (L4 H). discriminate. }
  destruct (answers n2) as [message|] eqn:E3.
  { cbn. split; [reflexivity|]. split; [assumption|]. split; [assumption|].
    split.
    - left. split; [reflexivity|]. split; [discriminate|]. exists n2. congruence.
    - intros H. rewrite H in E3. discriminate. }
  cbn. split; [reflexivity|]. split; [assumption|]. split; [assumption|].
  split; [|reflexivity]. right. split; [reflexivity|]. split; [reflexivity|]. split.
  - intros p Hp. destruct (P2 eq_refl p Hp) as [[Hin Hni]|Hc]; [|assumption].
    eapply DeleteFacts.unaffected_product_clean; eassumption.
  - intros l Hl. destruct (L2 eq_refl l Hl) as [[Hin Hni]|Hc]; [|assumption].
    eapply DeleteFacts.unaffected_line_clean; eassumption.
Qed.

(** X18: The runs of a deleted line stay in the local collection: the
    optimizer places no run on that line, and the validator refuses every
    move onto it. *)
Theorem runs_on_a_deleted_line_are_left_alone (st : Store.Provider) (id0 : string) :
  let d' := Store.appData (Store.deleteProductionLineOp None id0 st) in
  schedules d' = schedules (Store.appData st)
  /\ getProductionLineById d' id0 = None
  /\ (forall dateToOptimize now,
        exists a,
          Optimizer.optimizeDaySchedulesOp d' dateToOptimize now = Some a
          /\ forall p, In p (Optimizer.schedulesToUpdate a) -> lineId p <> id0)
  /\ (forall day todayDate currentTime item newStartTime,
        Gantt.checkDropValidity d' day todayDate currentTime item id0 newStartTime
        = Gantt.mkValidity false (Some Gantt.ProductOrLineNotFound)).
Proof.
  intros d'.
  assert (Hnone : getProductionLineById d' id0 = None).
  { subst d'. unfold getProductionLineById. cbn.
    induction (productionLines (Store.appData st)) as [|l ls IH]; [reflexivity|].
    cbn [filter]. destruct (String.eqb_spec (l_id l) id0) as [E|E]; cbn [negb]; [exact IH|].
    cbn [find]. apply String.eqb_neq in E. now rewrite E. }
  split; [reflexivity|]. split; [exact Hnone|]. split.
  - intros dateToOptimize now.
    destruct (OptimizerFacts.optimizeDay_placements d' dateToOptimize now) as (a & Ha & Hs & _).
    exists a. split; [assumption|]. rewrite Hs. intros p Hp E.
    destruct (OptimizerFacts.dayPlacements_origin d' dateToOptimize now p Hp)
      as (line & _ & _ & _ & Hl & _).
    rewrite E, Hnone in Hl. discriminate.
  - intros. unfold Gantt.checkDropValidity. rewrite Hnone.
    now destruct (getProductById d' (productId item)).
Qed.

(** ** The durations after an equipment is deleted *)

Lemma calculate_as_sum product line quantity :
  calculateProductDurationOnLine product line quantity
  = if quantity <=? 0 then 0
    else sumZ (map (perUnitMinutes product) (equipmentIds line)) * quantity.
Proof.
  destruct (Z.leb_spec quantity 0) as [H|H].
  - unfold calculateProductDurationOnLine. apply Z.leb_le in H. now rewrite H.
  - now apply calculate_positive_quantity.
Qed.

Module ShareFacts.
Import Store StoreView.

Lemma find_filtered id0 e pts :
  e <> id0 ->
  find (fun pt => String.eqb (equipmentId pt) e)
       (filter (fun pt => negb (String.eqb (equipmentId pt) id0)) pts)
  = find (fun pt => String.eqb (equipmentId pt) e) pts.
Proof.
  intros Hne. induction pts as [|pt pts IH]; [reflexivity|]. cbn [filter find].
  destruct (String.eqb_spec (equipmentId pt) id0) as [E|E]; cbn [negb].
  - rewrite IH. destruct (String.eqb_spec (equipmentId pt) e); [congruence | reflexivity].
  - cbn [find]. now rewrite IH.
Qed.

Lemma sum_without id0 (f g : string -> Z) eqs :
  (forall e, e <> id0 -> g e = f e) ->
  sumZ (map g (filter (fun eqId => negb (String.eqb eqId id0)) eqs))
  = sumZ (map f eqs) - f id0 * occurrences id0 eqs.
Proof.
  intros H. unfold occurrences, sumZ.
  induction eqs as [|e eqs IH]; [cbn; lia|]. cbn [filter map fold_right].
  destruct (String.eqb_spec e id0) as [E|E]; cbn [negb map fold_right List.length].
  - subst e. rewrite IH. lia.
  - rewrite IH, (H e E). lia.
Qed.

Lemma share product line id0 quantity :
  calculateProductDurationOnLine (withoutEquipmentP id0 product) (withoutEquipmentL id0 line)
    quantity
  = calculateProductDurationOnLine product line quantity
    - (if quantity <=? 0 then 0
       else perUnitMinutes product id0 * occurrences id0 (equipmentIds line) * quantity).
Proof.
  rewrite !calculate_as_sum. destruct (quantity <=? 0); [lia|].
  cbn [withoutEquipmentL withEquipmentIds equipmentIds].
  rewrite (@sum_without id0 (perUnitMinutes product)).
  - lia.
  - intros e He. unfold perUnitMinutes. cbn [withoutEquipmentP withProcessingTimes processingTimes].
    now rewrite find_filtered.
Qed.

Lemma unaffected_same_P id0 p :
  existsb (fun pt => String.eqb (equipmentId pt) id0) (processingTimes p) = false ->
  withoutEquipmentP id0 p = p.
Proof.
  intros H. unfold withoutEquipmentP, withProcessingTimes. destruct p as [i n pts c]. cbn in *.
  f_equal. induction pts as [|pt pts IH]; [reflexivity|]. cbn [existsb filter] in *.
  apply orb_false_iff in H. destruct H as [H1 H2]. rewrite H1. cbn [negb]. f_equal. now apply IH.
Qed.

Lemma unaffected_same_L id0 l :
  existsb (fun eqId => String.eqb eqId id0) (equipmentIds l) = false ->
  withoutEquipmentL id0 l = l.
Proof.
  intros H. unfold withoutEquipmentL, withEquipmentIds. destruct l as [i n eqs ohs]. cbn in *.
  f_equal. induction eqs as [|e eqs IH]; [reflexivity|]. cbn [existsb filter] in *.
  apply orb_false_iff in H. destruct H as [H1 H2]. rewrite H1. cbn [negb]. f_equal. now apply IH.
Qed.

Lemma find_append (A : Type) (f : A -> bool) (l1 l2 : list A) :
  find f (l1 ++ l2) = match find f l1 with Some x => Some x | None => find f l2 end.
Proof.
  induction l1 as [|x l1 IH]; [reflexivity|]. cbn [app find]. now destruct (f x).
Qed.

Lemma cleanProducts_closed answers id0 affected : forall n prev,
  (forall k, answers k = None) ->
  fst (fst (cleanProducts answers n id0 affected prev))
  = map (fun q => match find (fun a => String.eqb (p_id q) (p_id a)) (rev affected) with
                  | Some a =>
                      withProcessingTimes q
                        (filter (fun pt => negb (String.eqb (equipmentId pt) id0))
                                (processingTimes a))
                  | None => q
                  end) prev.
Proof.
  induction affected as [|prod rest IH]; intros n prev Hall.
  - cbn. symmetry. apply map_id.
  - cbn [cleanProducts]. rewrite Hall, IH by assumption. rewrite map_map. apply map_ext.
    intros q. cbn [rev]. rewrite find_append.
    destruct (String.eqb (p_id q) (p_id prod)) eqn:E; cbn [withProcessingTimes p_id].
    + destruct (find _ (rev rest)); cbn [find]; rewrite ?E; reflexivity.
    + destruct (find _ (rev rest)); cbn [find]; rewrite ?E; reflexivity.
Qed.

Lemma cleanLines_closed answers id0 affected : forall n prev,
  (forall k, answers k = None) ->
  fst (fst (cleanLines answers n id0 affected prev))
  = map (fun q => match find (fun a => String.eqb (l_id q) (l_id a)) (rev affected) with
                  | Some a =>
                      withEquipmentIds q
                        (filter (fun eqId => negb (String.eqb eqId id0)) (equipmentIds a))
                  | None => q
                  end) prev
  /\ snd (cleanLines answers n id0 affected prev) = None.
Proof.
  induction affected as [|line rest IH]; intros n prev Hall.
  - cbn. split; [symmetry; apply map_id | reflexivity].
  - cbn [cleanLines]. rewrite Hall. destruct (IH (S n)
      (map (fun l => if String.eqb (l_id l) (l_id line)
                     then withEquipmentIds l
                            (filter (fun eqId => negb (String.eqb eqId id0))
                                    (equipmentIds line))
                     else l) prev) Hall) as [I1 I2].
    split; [|exact I2]. rewrite I1, map_map. apply map_ext.
    intros q. cbn [rev]. rewrite find_append.
    destruct (String.eqb (l_id q) (l_id line)) eqn:E; cbn [withEquipmentIds l_id].
    + destruct (find _ (rev rest)); cbn [find]; rewrite ?E; reflexivity.
    + destruct (find _ (rev rest)); cbn [find]; rewrite ?E; reflexivity.
Qed.

Lemma cleanProducts_no_throw answers id0 affected : forall n prev,
  (forall k, answers k = None) -> snd (cleanProducts answers n id0 affected prev) = None.
Proof.
  induction affected as [|prod rest IH]; intros n prev Hall; [reflexivity|].
  cbn [cleanProducts]. rewrite Hall. now apply IH.
Qed.

Lemma same_id_same (A : Type) (key : A -> string) (l : list A) a b :
  NoDup (map key l) -> In a l -> In b l -> key a = key b -> a = b.
Proof.
  induction l as [|x xs IH]; intros Hnd Ha Hb E; [contradiction|].
  cbn [map] in Hnd. inversion Hnd as [|? ? Hni Hnd']; subst.
  destruct Ha as [->|Ha], Hb as [->|Hb]; try reflexivity.
  - exfalso. apply Hni. rewrite E. now apply in_map.
  - exfalso. apply Hni. rewrite <- E. now apply in_map.
  - now apply IH.
Qed.

End ShareFacts.

(** ** The exact range of the duration calculator *)

Lemma sumZ_perm (f : string -> Z) (l1 l2 : list string) :
  Permutation l1 l2 -> sumZ (map f l1) = sumZ (map f l2).
Proof.
  intros H. induction H; cbn [map sumZ fold_right] in *; unfold sumZ in *; lia.
Qed.

Module ExactFacts.
Import Exact.

Lemma sumAbs_nonneg (f : string -> Z) eqs : 0 <= sumZ (map (fun e => Z.abs (f e)) eqs).
Proof.
  induction eqs as [|e eqs IH]; cbn [map sumZ fold_right] in *; unfold sumZ in *; lia.
Qed.

Lemma abs_sum_le (f : string -> Z) eqs :
  Z.abs (sumZ (map f eqs)) <= sumZ (map (fun e => Z.abs (f e)) eqs).
Proof.
  induction eqs as [|e eqs IH]; cbn [map sumZ fold_right] in *; unfold sumZ in *; lia.
Qed.

(** No running total of the loop is larger than the magnitudes added so
    far. *)
Lemma runningTotals_bound product eqs : forall acc z,
  In z (runningTotals (processingTimes product) eqs acc) ->
  Z.abs z <= Z.abs acc + sumZ (map (fun e => Z.abs (perUnitMinutes product e)) eqs).
Proof.
  induction eqs as [|e eqs IH]; intros acc z Hz; [contradiction|].
  cbn [runningTotals] in Hz. cbn [map sumZ fold_right].
  fold (sumZ (map (fun e0 => Z.abs (perUnitMinutes product e0)) eqs)).
  pose proof (sumAbs_nonneg (perUnitMinutes product) eqs) as Hnn.
  unfold perUnitMinutes at 1.
  destruct (find _ (processingTimes product)) as [pt|].
  - destruct Hz as [<-|Hz]; [lia|]. apply IH in Hz. lia.
  - apply IH in Hz. lia.
Qed.

(** The last running total is the total of the loop. *)
Lemma runningTotals_last product eqs : forall acc,
  last (runningTotals (processingTimes product) eqs acc) acc
  = totalDurationForOneUnit (processingTimes product) eqs acc.
Proof.
  induction eqs as [|e eqs IH]; intros acc; [reflexivity|].
  cbn [runningTotals totalDurationForOneUnit].
  destruct (find _ (processingTimes product)) as [pt|]; [|apply IH].
  rewrite <- IH.
  assert (Hd : forall (l : list Z) z d1 d2, last (z :: l) d1 = last (z :: l) d2).
  { induction l as [|y l IHl]; intros z d1 d2; [reflexivity|].
    change (last (y :: l) d1 = last (y :: l) d2). apply IHl. }
  destruct (runningTotals (processingTimes product) eqs (acc + timePerUnitMinutes pt))
    as [|z l]; [reflexivity|].
  change (last (z :: l) acc = last (z :: l) (acc + timePerUnitMinutes pt)). apply Hd.
Qed.

Lemma within_computed product line quantity :
  magnitude product line quantity <= maxSafe -> computedExactly product line quantity.
Proof.
  unfold magnitude, computedExactly, exact. intros H.
  pose proof (sumAbs_nonneg (perUnitMinutes product) (equipmentIds line)) as Hnn.
  pose proof (abs_sum_le (perUnitMinutes product) (equipmentIds line)) as Hle.
  split.
  - intros Hq. apply Forall_forall. intros z Hz.
    apply runningTotals_bound in Hz. cbn [Z.abs] in Hz. nia.
  - rewrite calculate_as_sum. destruct (Z.leb_spec quantity 0); [cbn; unfold maxSafe; lia|].
    rewrite Z.abs_mul. nia.
Qed.

Lemma magnitude_perm product line eqs quantity :
  Permutation eqs (equipmentIds line) ->
  magnitude product (Store.withEquipmentIds line eqs) quantity
  = magnitude product line quantity.
Proof.
  intros H. unfold magnitude. cbn [Store.withEquipmentIds equipmentIds].
  now rewrite (sumZ_perm (fun e => Z.abs (perUnitMinutes product e)) H).
Qed.

Lemma sumAbs_without id0 (f g : string -> Z) eqs :
  (forall e, e <> id0 -> g e = f e) ->
  sumZ (map (fun e => Z.abs (g e)) (filter (fun eqId => negb (String.eqb eqId id0)) eqs))
  <= sumZ (map (fun e => Z.abs (f e)) eqs).
Proof.
  intros H. unfold sumZ.
  induction eqs as [|e eqs IH]; [cbn; lia|]. cbn [filter map fold_right].
  destruct (String.eqb_spec e id0) as [E|E]; cbn [negb map fold_right].
  - lia.
  - rewrite (H e E). lia.
Qed.

Lemma magnitude_without id0 product line quantity :
  magnitude (StoreView.withoutEquipmentP id0 product) (StoreView.withoutEquipmentL id0 line)
    quantity
  <= magnitude product line quantity.
Proof.
  unfold magnitude.
  cbn [StoreView.withoutEquipmentL Store.withEquipmentIds equipmentIds].
  apply Z.mul_le_mono_nonneg_r; [lia|].
  apply (@sumAbs_without id0 (perUnitMinutes product)).
  intros e He. unfold perUnitMinutes.
  cbn [StoreView.withoutEquipmentP Store.withProcessingTimes processingTimes].
  now rewrite ShareFacts.find_filtered.
Qed.

End ExactFacts.

(** X19: With distinct product ids and distinct line ids, a deletion that the
    store accepts rewrites every product and every line to itself without
    the equipment.  For whole-number per-unit minutes and quantity in the
    exact range (the sum of the magnitudes of the per-unit minutes over the
    line, times the quantity, is at most 2^53), the calculator computes
    both durations exactly, before and after the deletion, and the duration
    drops by exactly the share of that equipment: its per-unit time for the
    product, times the number of times the line lists it, times the
    quantity. *)
Theorem deleting_equipment_takes_out_its_share
    (answers : Store.Answers) (id0 : string) (st : Store.Provider) :
  (forall k, answers k = None) ->
  NoDup (map p_id (products (Store.appData st))) ->
  NoDup (map l_id (productionLines (Store.appData st))) ->
  products (Store.appData (Store.deleteEquipmentOp answers id0 st))
  = map (StoreView.withoutEquipmentP id0) (products (Store.appData st))
  /\ productionLines (Store.appData (Store.deleteEquipmentOp answers id0 st))
     = map (StoreView.withoutEquipmentL id0) (productionLines (Store.appData st))
  /\ forall product line quantity,
       Exact.magnitude product line quantity <= Exact.maxSafe ->
       calculateProductDurationOnLine (StoreView.withoutEquipmentP id0 product)
         (StoreView.withoutEquipmentL id0 line) quantity
       = calculateProductDurationOnLine product line quantity
         - (if quantity <=? 0 then 0
            else perUnitMinutes product id0
                 * StoreView.occurrences id0 (equipmentIds line) * quantity)
       /\ Exact.computedExactly product line quantity
       /\ Exact.computedExactly (StoreView.withoutEquipmentP id0 product)
            (StoreView.withoutEquipmentL id0 line) quantity.
Proof.
  intros Hall HndP HndL. split; [|split].
  3:{ intros product line quantity Hm.
      split; [apply ShareFacts.share|].
      split; [now apply ExactFacts.within_computed|].
      apply ExactFacts.within_computed.
      pose proof (ExactFacts.magnitude_without id0 product line quantity). lia. }
  - unfold Store.deleteEquipmentOp.
    pose proof (ShareFacts.cleanProducts_closed answers id0
      (filter (fun p => existsb (fun pt => String.eqb (equipmentId pt) id0) (processingTimes p))
              (products (Store.appData st))) 0 (products (Store.appData st)) Hall) as HP.
    pose proof (ShareFacts.cleanProducts_no_throw answers id0
      (filter (fun p => existsb (fun pt => String.eqb (equipmentId pt) id0) (processingTimes p))
              (products (Store.appData st))) 0 (products (Store.appData st)) Hall) as HT.
    destruct (Store.cleanProducts answers 0 id0 _ _) as [[products1 n1] thrown1].
    cbn [fst snd] in HP, HT. subst thrown1.
    destruct (Store.cleanLines answers n1 id0 _ _) as [[lines1 n2] [thrown|]];
      [|rewrite Hall]; cbn; rewrite HP; apply map_ext_in; intros q Hq;
      (destruct (find _ (rev _)) as [a|] eqn:Ef;
       [apply find_some in Ef; destruct Ef as [Ha Eid]; apply in_rev in Ha;
        apply filter_In in Ha; destruct Ha as [Ha _]; apply String.eqb_eq in Eid;
        rewrite (@ShareFacts.same_id_same _ p_id _ q a HndP Hq Ha Eid); reflexivity
       |symmetry; apply ShareFacts.unaffected_same_P;
        destruct (existsb _ (processingTimes q)) eqn:Ex; [|reflexivity];
        exfalso;
        assert (Hin : In q (rev (filter (fun p => existsb (fun pt =>
                        String.eqb (equipmentId pt) id0) (processingTimes p))
                        (products (Store.appData st)))))
          by (apply -> in_rev; apply filter_In; auto);
        apply (find_none _ _ Ef) in Hin; rewrite String.eqb_refl in Hin; discriminate]).
  - unfold Store.deleteEquipmentOp.
    pose proof (ShareFacts.cleanProducts_no_throw answers id0
      (filter (fun p => existsb (fun pt => String.eqb (equipmentId pt) id0) (processingTimes p))
              (products (Store.appData st))) 0 (products (Store.appData st)) Hall) as HT.
    destruct (Store.cleanProducts answers 0 id0 _ _) as [[products1 n1] thrown1].
    cbn [snd] in HT. subst thrown1.
    cbn [Store.appData Store.setProducts productionLines].
    destruct (ShareFacts.cleanLines_closed answers id0
      (filter (fun l => existsb (fun eqId => String.eqb eqId id0) (equipmentIds l))
              (productionLines (Store.appData st))) n1 (productionLines (Store.appData st))
      Hall) as [HL HT].
    destruct (Store.cleanLines answers n1 id0 _ _) as [[lines1 n2] thrown2].
    cbn [fst snd] in HL, HT. subst thrown2. rewrite Hall. cbn. rewrite HL.
    apply map_ext_in. intros q Hq.
    destruct (find _ (rev _)) as [a|] eqn:Ef.
    + apply find_some in Ef. destruct Ef as [Ha Eid]. apply in_rev in Ha.
      apply filter_In in Ha. destruct Ha as [Ha _]. apply String.eqb_eq in Eid.
      rewrite (@ShareFacts.same_id_same _ l_id _ q a HndL Hq Ha Eid). reflexivity.
    + symmetry. apply ShareFacts.unaffected_same_L.
      destruct (existsb _ (equipmentIds q)) eqn:Ex; [|reflexivity]. exfalso.
      assert (Hin : In q (rev (filter (fun l => existsb (fun eqId => String.eqb eqId id0)
                                                       (equipmentIds l))
                                      (productionLines (Store.appData st)))))
        by (apply -> in_rev; apply filter_In; auto).
      apply (find_none _ _ Ef) in Hin. rewrite String.eqb_refl in Hin. discriminate.
Qed.


Lemma deleting_equipment_takes_out_its_share_witness :
  Exact.magnitude Scenarios.twoStepProduct Scenarios.threeEquipmentLine 10 <= Exact.maxSafe
  /\ calculateProductDurationOnLine
       (StoreView.withoutEquipmentP "e1" Scenarios.twoStepProduct)
       (StoreView.withoutEquipmentL "e1" Scenarios.threeEquipmentLine) 10
     = 90 - 2 * 1 * 10.
Proof.
  assert (Hm : Exact.magnitude Scenarios.twoStepProduct Scenarios.threeEquipmentLine 10
               <= Exact.maxSafe) by (vm_compute; discriminate).
  split; [exact Hm|].
  destruct (@deleting_equipment_takes_out_its_share (fun _ => None) "e1"
              (Store.mkProvider []
                 (mkAppData [Scenarios.twoStepProduct] [Scenarios.threeEquipmentLine] [])
                 None))
    as (_ & _ & H).
  - reflexivity.
  - cbn. repeat constructor. intros [].
  - cbn. repeat constructor. intros [].
  - exact (proj1 (H Scenarios.twoStepProduct Scenarios.threeEquipmentLine 10 Hm)).
Defined.

(** ** Dragging: which runs can be moved *)

Module DragFacts.
Import Gantt Drag.

Lemma isLocked_dragRefused d s : isLocked d s = dragRefused d s.
Proof. reflexivity. Qed.

Lemma isDraggable_not_locked d s : isDraggable d s = negb (isLocked d s).
Proof.
  unfold isDraggable, isLocked. destruct (isTopSeller d s), (status_eqb (status s) Pendente);
    reflexivity.
Qed.

Lemma isDraggable_products d1 d2 s :
  products d1 = products d2 -> isDraggable d1 s = isDraggable d2 s.
Proof. intros H. unfold isDraggable, isTopSeller, getProductById. now rewrite H. Qed.

Lemma onDragStart_item d st s item :
  draggedItem (onDragStart d st s) = Some item ->
  (item = s /\ isDraggable d s = true) \/ draggedItem st = Some item.
Proof.
  unfold onDragStart. destruct (isDraggable d s) eqn:E; [|now right].
  cbn. unfold handleDragStart. destruct (dragRefused d s); [now right|].
  intros [= <-]. now left.
Qed.

Section Trace.

Variable commit : ScheduledProductionRun -> AppData -> AppData.
Variables (day todayDate currentTime : Z).
Hypothesis commit_products : forall u d, products (commit u d) = products d.

Lemma runEvents_outputs (Ok : ScheduledProductionRun -> Prop) (d0 : AppData) evs :
  forall d st,
    products d = products d0 ->
    (forall item, In (DragStart item) evs -> isDraggable d0 item = true -> Ok item) ->
    (forall item, draggedItem st = Some item -> Ok item) ->
    forall u, In u (snd (runEvents commit day todayDate currentTime d st evs)) ->
      exists item targetLineId quarters,
        Ok item /\ u = moved item targetLineId (proposedStart day quarters).
Proof.
  induction evs as [|ev rest IH]; intros d st Hd Hev Hst u Hu; [contradiction|].
  cbn [runEvents] in Hu.
  destruct (step commit day todayDate currentTime d st ev) as [[d1 st1] out] eqn:Es.
  destruct (runEvents commit day todayDate currentTime d1 st1 rest) as [[d2 st2] outs] eqn:Er.
  cbn [snd] in Hu.
  assert (Hrest : forall u, In u outs ->
            exists item targetLineId quarters,
              Ok item /\ u = moved item targetLineId (proposedStart day quarters)).
  { intros u' Hu'. apply (IH d1 st1).
    - destruct ev as [s|l q|l q|]; cbn [step] in Es.
      + injection Es as <- _ _. assumption.
      + injection Es as <- _ _. assumption.
      + destruct (drop day st l q) as [st' [u0|]]; injection Es as <- _ _;
          [now rewrite commit_products | assumption].
      + injection Es as <- _ _. assumption.
    - intros item Hin. apply Hev. now right.
    - intros item Hi. destruct ev as [s|l q|l q|]; cbn [step] in Es.
      + injection Es as _ <- _. apply onDragStart_item in Hi.
        destruct Hi as [[-> Hdr]|Hi]; [|now apply Hst].
        apply Hev; [now left|]. now rewrite <- (isDraggable_products d d0 _ Hd).
      + injection Es as _ <- _. unfold dragOver in Hi.
        destruct (draggedItem st) eqn:E; [|rewrite E in Hi; discriminate].
        cbn in Hi. apply Hst. congruence.
      + unfold drop in Es.
        destruct (draggedItem st) as [it|], (isDropValid st) as [[|]|];
          injection Es as _ <- _; discriminate.
      + injection Es as _ <- _. discriminate.
    - now rewrite Er. }
  destruct out as [u0|]; [|now apply Hrest].
  destruct Hu as [<-|Hu]; [|now apply Hrest].
  destruct ev as [s|l q|l q|]; cbn [step] in Es; try discriminate Es.
  unfold drop in Es.
  destruct (draggedItem st) as [it|] eqn:Ei; [|discriminate Es].
  destruct (isDropValid st) as [[|]|]; try discriminate Es.
  injection Es as _ _ <-. exists it, l, q. split; [now apply Hst | reflexivity].
Qed.

End Trace.

End DragFacts.

(** X20: The lock of the chart agrees with the guard of the drag: a run is
    draggable exactly when it is not shown as locked, and it is shown as
    locked exactly when [handleDragStart] would refuse it.  Every run that
    the optimizer may move is draggable; a draggable run that the optimizer
    may not move is a pending run whose product does not resolve, and the
    validator refuses every move of it. *)
Theorem draggable_runs_and_movable_runs (d : AppData) (s : ScheduledProductionRun) :
  Drag.isDraggable d s = negb (Drag.isLocked d s)
  /\ Drag.isLocked d s = Gantt.dragRefused d s
  /\ (Optimizer.isNormalPending d s = true -> Drag.isDraggable d s = true)
  /\ (Drag.isDraggable d s = true -> Optimizer.isNormalPending d s = false ->
      getProductById d (productId s) = None
      /\ forall day todayDate currentTime targetLineId newStartTime,
           Gantt.checkDropValidity d day todayDate currentTime s targetLineId newStartTime
           = Gantt.mkValidity false (Some Gantt.ProductOrLineNotFound)).
Proof.
  split; [apply DragFacts.isDraggable_not_locked|]. split; [reflexivity|].
  unfold Drag.isDraggable, Drag.isTopSeller, Optimizer.isNormalPending,
    Optimizer.classificationOf, Gantt.checkDropValidity.
  destruct (getProductById d (productId s)) as [product|]; cbn [option_map Optimizer.isClass].
  - destruct (classification product); cbn [classification_eqb negb andb].
    + split; [discriminate|]. discriminate.
    + split; [auto|]. intros H1 H2. congruence.
  - cbn [negb andb]. split; [discriminate|]. intros _ _. split; reflexivity.
Qed.

(** X21: Whatever the series of drag events, starting from the idle state, a
    run is handed to [updateSchedule] only if a drag started on it while it
    was draggable (a pending run that is not a Top Seller run), and it is
    handed over with its id, product, quantity, notes and status as they
    were and its duration unchanged. *)
Theorem only_draggable_runs_are_ever_updated
    (commit : ScheduledProductionRun -> AppData -> AppData)
    (day todayDate currentTime : Z) (d : AppData) (evs : list Drag.Event) :
  (forall u d0, products (commit u d0) = products d0) ->
  forall u,
    In u (snd (Drag.runEvents commit day todayDate currentTime d Drag.idle evs)) ->
    exists item targetLineId quarters,
      In (Drag.DragStart item) evs
      /\ Drag.isTopSeller d item = false
      /\ status item = Pendente
      /\ u = Drag.moved item targetLineId (Drag.proposedStart day quarters)
      /\ id u = id item /\ productId u = productId item /\ quantity u = quantity item
      /\ notes u = notes item /\ status u = status item
      /\ endTime u - startTime u = endTime item - startTime item.
Proof.
  intros Hc u Hu.
  destruct (@DragFacts.runEvents_outputs commit day todayDate currentTime Hc
              (fun item => In (Drag.DragStart item) evs /\ Drag.isDraggable d item = true)
              d evs d Drag.idle eq_refl) with (u := u)
    as (item & l & q & [Hin Hdr] & ->); try assumption.
  - intros item Hin Hdr. auto.
  - intros item Hi. discriminate.
  - exists item, l, q. unfold Drag.isDraggable in Hdr. apply andb_true_iff in Hdr.
    destruct Hdr as [H1 H2]. apply negb_true_iff in H1. apply status_eqb_eq in H2.
    cbn. repeat split; try assumption. lia.
Qed.

Lemma only_draggable_runs_are_ever_updated_witness :
  exists item targetLineId quarters,
    In (Drag.DragStart item)
       [Drag.DragStart Scenarios.topRun; Drag.DragOver "L" 36; Drag.Drop "L" 36;
        Drag.DragStart Scenarios.pendingRun; Drag.DragOver "L" 40; Drag.Drop "L" 40]
    /\ Drag.isTopSeller Scenarios.conflictData item = false
    /\ status item = Pendente
    /\ Drag.moved Scenarios.pendingRun "L" (Scenarios.instant 4 10 0)
       = Drag.moved item targetLineId (Drag.proposedStart Scenarios.monday quarters).
Proof.
  destruct (@only_draggable_runs_are_ever_updated Drag.commitToProvider
              Scenarios.monday Scenarios.someOtherDay Scenarios.someOtherDay
              Scenarios.conflictData
              [Drag.DragStart Scenarios.topRun; Drag.DragOver "L" 36; Drag.Drop "L" 36;
               Drag.DragStart Scenarios.pendingRun; Drag.DragOver "L" 40; Drag.Drop "L" 40]
              (fun u d0 => eq_refl)
              (Drag.moved Scenarios.pendingRun "L" (Scenarios.instant 4 10 0)))
    as (item & l & q & H1 & H2 & H3 & H4 & _).
  - vm_compute. left. reflexivity.
  - exists item, l, q. auto.
Defined.

(** ** Dragging: one gesture *)

Module GestureFacts.
Import Gantt Drag.

Lemma onDragStart_idle d item :
  onDragStart d idle item
  = if isDraggable d item then mkDragState (Some item) None None else idle.
Proof.
  unfold onDragStart. destruct (isDraggable d item) eqn:E; [|reflexivity].
  unfold dragStart, handleDragStart. rewrite <- DragFacts.isLocked_dragRefused.
  rewrite DragFacts.isDraggable_not_locked in E. apply negb_true_iff in E. now rewrite E.
Qed.

Section Overs.

Variable commit : ScheduledProductionRun -> AppData -> AppData.
Variables (day todayDate currentTime : Z) (d : AppData).

Lemma runEvents_app evs1 evs2 st :
  runEvents commit day todayDate currentTime d st (evs1 ++ evs2)
  = let '(d1, st1, outs1) := runEvents commit day todayDate currentTime d st evs1 in
    let '(d2, st2, outs2) := runEvents commit day todayDate currentTime d1 st1 evs2 in
    (d2, st2, outs1 ++ outs2).
Proof.
  revert d st. induction evs1 as [|ev rest IH]; intros d0 st; cbn [app runEvents].
  - now destruct (runEvents commit day todayDate currentTime d0 st evs2) as [[d2 st2] outs2].
  - destruct (step commit day todayDate currentTime d0 st ev) as [[d1 st1] out].
    rewrite IH.
    destruct (runEvents commit day todayDate currentTime d1 st1 rest) as [[d2 st2] outs1].
    destruct (runEvents commit day todayDate currentTime d2 st2 evs2) as [[d3 st3] outs2].
    now destruct out.
Qed.

Lemma overs_keep_item (overs : list (string * N)) : forall st,
  exists st',
    runEvents commit day todayDate currentTime d st
      (map (fun o => DragOver (fst o) (snd o)) overs) = (d, st', [])
    /\ draggedItem st' = draggedItem st.
Proof.
  induction overs as [|[l q] rest IH]; intros st.
  - exists st. split; reflexivity.
  - cbn [map runEvents step fst snd].
    destruct (IH (dragOver d day todayDate currentTime st l q)) as (st' & H1 & H2).
    rewrite H1. exists st'. split; [reflexivity|]. rewrite H2.
    unfold dragOver. destruct (draggedItem st) eqn:E; [reflexivity | exact E].
Qed.

End Overs.

Lemma instant_parts t :
  t = epochDay t * msPerDay + minutesOfDay t * msPerMinute + t mod msPerMinute.
Proof.
  unfold minutesOfDay, getHours, getMinutes, epochDay, msPerDay, msPerHour, msPerMinute.
  Z.div_mod_to_equations. lia.
Qed.

Lemma proposedStart_instant day quarters :
  proposedStart day quarters = setHours day 0 0 + Z.of_N quarters * 15 * msPerMinute.
Proof.
  unfold proposedStart, setHours, msPerHour, msPerMinute. cbv zeta.
  Z.div_mod_to_equations. lia.
Qed.

Lemma proposedStart_on_day day quarters :
  (quarters < 96)%N -> epochDay (proposedStart day quarters) = epochDay day.
Proof.
  intros H. rewrite proposedStart_instant. unfold setHours, epochDay, msPerDay, msPerMinute.
  assert (Hq : 0 <= Z.of_N quarters < 96) by lia. revert Hq.
  generalize (Z.of_N quarters) as q. intros q Hq. Z.div_mod_to_equations. lia.
Qed.

End GestureFacts.

(** X22: One gesture, from the idle state: a drag that starts on a run, passes
    over any positions and is dropped where it was last seen hands to
    [updateSchedule] exactly the proposal that [checkDropValidity] was asked
    about there, if the run was draggable and the verdict was valid, and
    nothing otherwise; the chart is idle again afterwards.  A drop that no
    drag-over preceded hands over nothing. *)
Theorem drop_commits_the_validated_proposal
    (commit : ScheduledProductionRun -> AppData -> AppData)
    (day todayDate currentTime : Z) (d : AppData) (item : ScheduledProductionRun)
    (overs : list (string * N)) (targetLineId : string) (quarters : N) :
  (let '(_, st, outs) :=
     Drag.runEvents commit day todayDate currentTime d Drag.idle
       (Drag.DragStart item
        :: map (fun o => Drag.DragOver (fst o) (snd o)) overs
        ++ [Drag.DragOver targetLineId quarters; Drag.Drop targetLineId quarters]) in
   st = Drag.idle
   /\ outs = if Drag.isDraggable d item
                && Gantt.valid (Gantt.checkDropValidity d day todayDate currentTime item
                                  targetLineId (Drag.proposedStart day quarters))
             then [Drag.moved item targetLineId (Drag.proposedStart day quarters)]
             else [])
  /\ snd (Drag.runEvents commit day todayDate currentTime d Drag.idle
            [Drag.DragStart item; Drag.Drop targetLineId quarters]) = [].
Proof.
  split.
  - cbn [Drag.runEvents Drag.step]. rewrite GestureFacts.onDragStart_idle.
    rewrite GestureFacts.runEvents_app.
    destruct (GestureFacts.overs_keep_item commit day todayDate currentTime d overs
                (if Drag.isDraggable d item
                 then Drag.mkDragState (Some item) None None else Drag.idle))
      as (st' & H1 & H2).
    rewrite H1. cbn [Drag.runEvents Drag.step app].
    unfold Drag.dragOver, Drag.drop. rewrite H2.
    destruct (Drag.isDraggable d item); cbn [Drag.draggedItem Drag.idle andb].
    + cbn [Drag.isDropValid].
      destruct (Gantt.valid _); split; reflexivity.
    + rewrite H2. cbn. split; reflexivity.
  - cbn [Drag.runEvents Drag.step]. rewrite GestureFacts.onDragStart_idle.
    destruct (Drag.isDraggable d item); reflexivity.
Qed.

(** X23: An accepted drop is sound.  When the validator accepts a proposal
    made within the 24 hours of the chart for a run of at most 27 days, the
    run as dropped starts and ends on the chart's day, within the operating
    window of the target line (up to the seconds that the comparison of
    clock minutes drops), not before the current minute when the chart is
    for today; and once the provider has replaced the run, it overlaps no
    other run of that line that starts that day and whose product
    resolves. *)
Theorem accepted_drop_is_sound
    (d : AppData) (day todayDate currentTime : Z) (item : ScheduledProductionRun)
    (targetLineId : string) (quarters : N) :
  Gantt.valid (Gantt.checkDropValidity d day todayDate currentTime item targetLineId
                 (Drag.proposedStart day quarters)) = true ->
  (quarters < 96)%N ->
  0 <= endTime item - startTime item <= 27 * msPerDay ->
  let u := Drag.moved item targetLineId (Drag.proposedStart day quarters) in
  status u = Pendente
  /\ epochDay (startTime u) = epochDay day
  /\ epochDay (endTime u) = epochDay day
  /\ (exists oh,
        Gantt.getLineOperatingHoursForDay d day targetLineId = Some oh
        /\ isActive oh = true
        /\ setHours day 0 0 + timeToMinutes (oh_startTime oh) * msPerMinute <= startTime u
        /\ endTime u < setHours day 0 0 + (timeToMinutes (oh_endTime oh) + 1) * msPerMinute)
  /\ (Gantt.isChartForToday day todayDate = true -> setSeconds0 currentTime <= startTime u)
  /\ (forall x,
        In x (schedules (Drag.commitToProvider u d)) ->
        id x <> id u -> lineId x = lineId u ->
        sameYearMonthDate (startTime x) day = true ->
        getProductById d (productId x) <> None ->
        overlaps (startTime u) (endTime u) (startTime x) (endTime x) = false).
Proof.
  intros Hv Hq Hdur u.
  destruct (ValidatorFacts.checkDropValidity_valid _ _ _ _ _ _ _ Hv)
    as (product & targetLine & oh & Hp & Hl & Hs & Hoh & Ha & W1 & W2 & W3 & Hpast & Hclear).
  pose proof (GestureFacts.proposedStart_on_day day Hq) as Es.
  set (s := Drag.proposedStart day quarters) in *.
  assert (Ee : epochDay (s + (endTime item - startTime item)) = epochDay day).
  { rewrite <- Es. apply CalendarFacts.getDate_same_day.
    - apply CalendarFacts.epochDay_add. assumption.
    - rewrite W2. symmetry. now apply CalendarFacts.getDate_epochDay. }
  subst u. cbn [Drag.moved status startTime endTime id lineId].
  split; [assumption|]. split; [assumption|]. split; [assumption|]. split; [|split].
  - exists oh. split; [assumption|]. split; [assumption|].
    pose proof (GestureFacts.instant_parts s) as Ps.
    pose proof (GestureFacts.instant_parts (s + (endTime item - startTime item))) as Pe.
    pose proof (Z.mod_pos_bound s msPerMinute eq_refl) as Bs.
    pose proof (Z.mod_pos_bound (s + (endTime item - startTime item)) msPerMinute eq_refl)
      as Be.
    rewrite Es in Ps. rewrite Ee in Pe. unfold setHours, msPerHour, msPerMinute in *.
    split; lia.
  - exact Hpast.
  - intros x Hx Hid Hline Hday Hprod. apply Hclear; [|assumption].
    unfold Gantt.schedulesOnTargetDayAndLine. apply filter_In.
    cbn [Drag.commitToProvider schedules] in Hx. unfold updateScheduleOp in Hx.
    rewrite sortByStart_In in Hx. apply in_map_iff in Hx. destruct Hx as (y & Ey & Hy).
    cbn [Drag.moved id] in Ey.
    destruct (String.eqb_spec (id y) (id item)) as [E|E]; [subst x; now cbn in Hid|].
    subst y. split; [assumption|].
    rewrite Hline, String.eqb_refl, Hday. apply String.eqb_neq in Hid. now rewrite Hid.
Qed.

Lemma accepted_drop_is_sound_witness :
  epochDay (startTime (Drag.moved Scenarios.pendingRun "L"
                         (Drag.proposedStart Scenarios.monday 40)))
  = epochDay Scenarios.monday
  /\ overlaps (Scenarios.instant 4 10 0) (Scenarios.instant 4 11 0)
       (startTime Scenarios.topRun) (endTime Scenarios.topRun) = false.
Proof.
  destruct (@accepted_drop_is_sound Scenarios.conflictData Scenarios.monday
              Scenarios.someOtherDay Scenarios.someOtherDay Scenarios.pendingRun "L" 40)
    as (_ & H1 & _ & _ & _ & H2).
  - vm_compute. reflexivity.
  - reflexivity.
  - vm_compute. split; discriminate.
  - split; [exact H1|].
    apply (H2 Scenarios.topRun).
    + vm_compute. right. left. reflexivity.
    + discriminate.
    + reflexivity.
    + vm_compute. reflexivity.
    + discriminate.
Defined.

(** ** The equipment sequence of a line *)

Module SpliceFacts.
Import LineSetup.

Section Arrays.

Variable A : Type.

Lemma splice_in_range (start deleteCount : Z) (items l : list A) :
  0 <= start <= Z.of_nat (List.length l) ->
  0 <= deleteCount <= Z.of_nat (List.length l) - start ->
  splice start deleteCount items l
  = (firstn (Z.to_nat deleteCount) (skipn (Z.to_nat start) l),
     firstn (Z.to_nat start) l ++ items ++ skipn (Z.to_nat (start + deleteCount)) l).
Proof.
  intros H1 H2. unfold splice. destruct (Z.ltb_spec start 0); [lia|].
  rewrite (Z.min_l start) by lia. rewrite (Z.max_l deleteCount) by lia.
  rewrite Z.min_l by lia. reflexivity.
Qed.

(** Inserting without deleting puts the item somewhere in the array. *)
Lemma splice_insert (start : Z) (x : A) (l : list A) :
  exists k, (k <= List.length l)%nat
            /\ splice start 0 [x] l = ([], firstn k l ++ x :: skipn k l)
            /\ (0 <= start <= Z.of_nat (List.length l) -> k = Z.to_nat start)
            /\ (Z.of_nat (List.length l) <= start -> k = List.length l).
Proof.
  unfold splice.
  set (len := Z.of_nat (List.length l)).
  set (a := if start <? 0 then Z.max (len + start) 0 else Z.min start len).
  assert (Ha : 0 <= a <= len).
  { subst a. destruct (Z.ltb_spec start 0); lia. }
  exists (Z.to_nat a). rewrite (Z.max_l 0 0) by lia. rewrite Z.min_l by lia.
  rewrite Z.add_0_r. cbn [Z.to_nat firstn app]. split; [lia|]. split; [reflexivity|].
  split; intros H; subst a len; destruct (Z.ltb_spec start 0); lia.
Qed.

(** Taking one element out, at an index that holds one. *)
Lemma splice_take (index : Z) (l : list A) :
  l <> [] -> index < Z.of_nat (List.length l) ->
  exists k x, (k < List.length l)%nat
              /\ nth_error l k = Some x
              /\ splice index 1 [] l = ([x], firstn k l ++ skipn (S k) l)
              /\ (0 <= index -> k = Z.to_nat index).
Proof.
  intros Hne Hlt. unfold splice.
  set (len := Z.of_nat (List.length l)).
  assert (Hlen : 0 < len).
  { subst len. destruct l; [contradiction | cbn [List.length]; lia]. }
  set (a := if index <? 0 then Z.max (len + index) 0 else Z.min index len).
  assert (Ha : 0 <= a < len).
  { subst a. destruct (Z.ltb_spec index 0); lia. }
  rewrite (Z.max_l 1 0) by lia. rewrite (Z.min_l 1) by lia.
  assert (Hk : (Z.to_nat a < List.length l)%nat) by lia.
  destruct (nth_error l (Z.to_nat a)) as [x|] eqn:Ex;
    [|apply nth_error_None in Ex; lia].
  exists (Z.to_nat a), x. split; [assumption|]. split; [exact Ex|]. split.
  - cbn [app]. replace (Z.to_nat (a + 1)) with (S (Z.to_nat a)) by lia. f_equal.
    apply nth_error_split in Ex. destruct Ex as (l1 & l2 & El & Hl1).
    rewrite El, <- Hl1. rewrite skipn_app, skipn_all, Nat.sub_diag. reflexivity.
  - intros H0. subst a. destruct (Z.ltb_spec index 0); [lia|]. now rewrite Z.min_l by lia.
Qed.

Lemma splice_nothing (index : Z) (l : list A) :
  Z.of_nat (List.length l) <= index -> splice index 1 [] l = ([], l).
Proof.
  intros H. unfold splice. destruct (Z.ltb_spec index 0); [lia|].
  rewrite (Z.min_r index) by lia. rewrite Z.sub_diag. rewrite (Z.max_l 1 0) by lia.
  rewrite (Z.min_r 1 0) by lia. rewrite Z.add_0_r, Nat2Z.id.
  cbn [Z.to_nat firstn app]. now rewrite firstn_all, skipn_all, app_nil_r.
Qed.

Variable undefined : A.

Lemma moveEquipment_perm (index : Z) (direction : Direction) (l : list A) :
  l <> [] -> index < Z.of_nat (List.length l) ->
  Permutation (moveEquipment undefined index direction l) l.
Proof.
  intros Hne Hlt. unfold moveEquipment.
  destruct (splice_take Hne Hlt) as (k & x & Hk & Ex & Hs & _). rewrite Hs.
  assert (Hl : Permutation (x :: firstn k l ++ skipn (S k) l) l).
  { apply nth_error_split in Ex. destruct Ex as (l1 & l2 & El & Hl1). subst l k.
    rewrite firstn_app, firstn_all, Nat.sub_diag, skipn_app, skipn_all2 by lia.
    cbn [firstn app]. replace (S (List.length l1) - List.length l1)%nat with 1%nat by lia.
    cbn [skipn]. rewrite app_nil_r. apply Permutation_middle. }
  set (n := firstn k l ++ skipn (S k) l) in *.
  assert (Hins : forall start, Permutation (snd (splice start 0 [x] n)) (x :: n)).
  { intros start. destruct (splice_insert start x n) as (j & _ & E & _). rewrite E.
    cbn [snd]. rewrite <- Permutation_middle. now rewrite firstn_skipn. }
  destruct direction; (etransitivity; [apply Hins | exact Hl]).
Qed.

Lemma skipn_past (pre rest : list A) (k : nat) :
  skipn (List.length pre + k) (pre ++ rest) = skipn k rest.
Proof. induction pre; [reflexivity | assumption]. Qed.

Lemma firstn_past (pre rest : list A) (k : nat) :
  firstn (List.length pre + k) (pre ++ rest) = pre ++ firstn k rest.
Proof. induction pre as [|x pre IH]; [reflexivity|]. cbn. now rewrite IH. Qed.

Lemma skipn_at (pre rest : list A) : skipn (List.length pre) (pre ++ rest) = rest.
Proof. rewrite <- (Nat.add_0_r (List.length pre)). apply skipn_past. Qed.

Lemma firstn_at (pre rest : list A) : firstn (List.length pre) (pre ++ rest) = pre.
Proof.
  rewrite <- (Nat.add_0_r (List.length pre)), firstn_past. cbn. apply app_nil_r.
Qed.

Lemma moveEquipment_up (pre post : list A) (a b : A) :
  moveEquipment undefined (Z.of_nat (List.length pre) + 1) up (pre ++ a :: b :: post)
  = pre ++ b :: a :: post.
Proof.
  unfold moveEquipment.
  assert (Hlen : List.length (pre ++ a :: b :: post)
                 = (List.length pre + 2 + List.length post)%nat).
  { rewrite length_app. cbn [List.length]. lia. }
  rewrite splice_in_range by (rewrite Hlen; lia).
  replace (Z.to_nat (Z.of_nat (List.length pre) + 1)) with (List.length pre + 1)%nat by lia.
  replace (Z.to_nat (Z.of_nat (List.length pre) + 1 + 1))
    with (List.length pre + 2)%nat by lia.
  rewrite !skipn_past, firstn_past. cbn [skipn firstn app Z.to_nat Pos.to_nat Pos.iter_op].
  replace (Z.max 0 (Z.of_nat (List.length pre) + 1 - 1)) with (Z.of_nat (List.length pre))
    by lia.
  rewrite <- app_assoc. cbn [app].
  rewrite splice_in_range by (rewrite ?length_app; cbn [List.length]; lia).
  cbn [snd]. rewrite Z.add_0_r, Nat2Z.id, firstn_at, skipn_at. reflexivity.
Qed.

Lemma moveEquipment_down (pre post : list A) (a b : A) :
  moveEquipment undefined (Z.of_nat (List.length pre)) down (pre ++ a :: b :: post)
  = pre ++ b :: a :: post.
Proof.
  unfold moveEquipment.
  assert (Hlen : List.length (pre ++ a :: b :: post)
                 = (List.length pre + 2 + List.length post)%nat).
  { rewrite length_app. cbn [List.length]. lia. }
  rewrite splice_in_range by (rewrite Hlen; lia).
  rewrite Nat2Z.id.
  replace (Z.to_nat (Z.of_nat (List.length pre) + 1)) with (List.length pre + 1)%nat by lia.
  rewrite skipn_past, skipn_at, firstn_at.
  cbn [skipn firstn app Z.to_nat Pos.to_nat Pos.iter_op].
  assert (Hn : List.length (pre ++ b :: post) = (List.length pre + 1 + List.length post)%nat).
  { rewrite length_app. cbn [List.length]. lia. }
  rewrite Hn.
  replace (Z.min (Z.of_nat (List.length pre + 1 + List.length post))
                 (Z.of_nat (List.length pre) + 1))
    with (Z.of_nat (List.length pre + 1)) by lia.
  rewrite splice_in_range by (rewrite Hn; lia).
  cbn [snd]. rewrite Z.add_0_r, Nat2Z.id, firstn_past, skipn_past.
  cbn [firstn skipn]. rewrite <- app_assoc. reflexivity.
Qed.

Lemma moveEquipment_first_up (a : A) (l : list A) :
  moveEquipment undefined 0 up (a :: l) = a :: l.
Proof.
  unfold moveEquipment. rewrite splice_in_range by (cbn [List.length]; lia).
  cbn [Z.to_nat Z.add Pos.to_nat Pos.iter_op Nat.add firstn skipn app Z.sub Z.max Z.opp
       Z.compare].
  rewrite splice_in_range by lia. cbn. reflexivity.
Qed.

Lemma moveEquipment_last_down (pre : list A) (a : A) :
  moveEquipment undefined (Z.of_nat (List.length pre)) down (pre ++ [a]) = pre ++ [a].
Proof.
  unfold moveEquipment.
  assert (Hlen : List.length (pre ++ [a]) = (List.length pre + 1)%nat).
  { rewrite length_app. cbn [List.length]. lia. }
  rewrite splice_in_range by (rewrite Hlen; lia).
  rewrite Nat2Z.id.
  replace (Z.to_nat (Z.of_nat (List.length pre) + 1)) with (List.length pre + 1)%nat by lia.
  rewrite skipn_past, skipn_at, firstn_at.
  cbn [skipn firstn app Z.to_nat Pos.to_nat Pos.iter_op].
  rewrite app_nil_r.
  rewrite Z.min_l by lia.
  rewrite splice_in_range by lia.
  cbn [snd]. rewrite Z.add_0_r, Nat2Z.id, firstn_all, skipn_all. reflexivity.
Qed.

Lemma moveEquipment_beyond (index : Z) (l : list A) :
  Z.of_nat (List.length l) <= index ->
  moveEquipment undefined index down l = l ++ [undefined]
  /\ Permutation (moveEquipment undefined index up l) (undefined :: l).
Proof.
  intros H. unfold moveEquipment. rewrite splice_nothing by assumption. split.
  - rewrite Z.min_l by lia. rewrite splice_in_range by lia.
    cbn [snd]. rewrite Z.add_0_r, Nat2Z.id, firstn_all, skipn_all. reflexivity.
  - destruct (splice_insert (Z.max 0 (index - 1)) undefined l) as (j & _ & E & _).
    rewrite E. cbn [snd]. rewrite <- Permutation_middle. now rewrite firstn_skipn.
Qed.

End Arrays.

End SpliceFacts.

(** X24: [moveEquipment] swaps the element with its neighbour: moving the
    second of two neighbours up, or the first of them down, exchanges the
    two and leaves the rest in place, so that one undoes the other; moving
    the first element up or the last element down changes nothing. *)
Theorem moveEquipment_swaps_neighbours
    (A : Type) (undefined : A) (pre post : list A) (a b : A) :
  LineSetup.moveEquipment undefined (Z.of_nat (List.length pre) + 1) LineSetup.up
    (pre ++ a :: b :: post) = pre ++ b :: a :: post
  /\ LineSetup.moveEquipment undefined (Z.of_nat (List.length pre)) LineSetup.down
       (pre ++ a :: b :: post) = pre ++ b :: a :: post
  /\ LineSetup.moveEquipment undefined (Z.of_nat (List.length pre)) LineSetup.down
       (LineSetup.moveEquipment undefined (Z.of_nat (List.length pre) + 1) LineSetup.up
          (pre ++ a :: b :: post)) = pre ++ a :: b :: post
  /\ LineSetup.moveEquipment undefined 0 LineSetup.up (a :: post) = a :: post
  /\ LineSetup.moveEquipment undefined (Z.of_nat (List.length pre)) LineSetup.down
       (pre ++ [a]) = pre ++ [a].
Proof.
  split; [apply SpliceFacts.moveEquipment_up|].
  split; [apply SpliceFacts.moveEquipment_down|].
  split; [rewrite SpliceFacts.moveEquipment_up; apply SpliceFacts.moveEquipment_down|].
  split; [apply SpliceFacts.moveEquipment_first_up | apply SpliceFacts.moveEquipment_last_down].
Qed.

(** X25: [moveEquipment] never loses an element.  At an index below the
    length of a non-empty sequence (a negative one counts from the end, as
    [splice] has it) the result is a rearrangement of the sequence; at an
    index at or beyond the length nothing is taken out and an undefined
    entry is put in. *)
Theorem moveEquipment_keeps_the_elements
    (A : Type) (undefined : A) (index : Z) (direction : LineSetup.Direction) (l : list A) :
  (l <> [] -> index < Z.of_nat (List.length l) ->
   Permutation (LineSetup.moveEquipment undefined index direction l) l)
  /\ (Z.of_nat (List.length l) <= index ->
      LineSetup.moveEquipment undefined index LineSetup.down l = l ++ [undefined]
      /\ Permutation (LineSetup.moveEquipment undefined index LineSetup.up l)
           (undefined :: l)).
Proof.
  split; [apply SpliceFacts.moveEquipment_perm | apply SpliceFacts.moveEquipment_beyond].
Qed.

(** X26: For whole-number per-unit minutes and quantity in the exact range
    (the sum of the magnitudes of the per-unit minutes over the line, times
    the quantity, is at most 2^53), reordering the equipment of a line does
    not change the duration of a product on it: in either order every
    running total of the loop and the result are integers that a double
    holds exactly, and the two results are equal. *)
Theorem reordering_equipment_keeps_durations
    (undefined : string) (index : Z) (direction : LineSetup.Direction)
    (product : Product) (line : ProductionLine) (quantity : Z) :
  equipmentIds line <> [] ->
  index < Z.of_nat (List.length (equipmentIds line)) ->
  Exact.magnitude product line quantity <= Exact.maxSafe ->
  calculateProductDurationOnLine product
    (Store.withEquipmentIds line
       (LineSetup.moveEquipment undefined index direction (equipmentIds line)))
    quantity
  = calculateProductDurationOnLine product line quantity
  /\ Exact.computedExactly product line quantity
  /\ Exact.computedExactly product
       (Store.withEquipmentIds line
          (LineSetup.moveEquipment undefined index direction (equipmentIds line)))
       quantity.
Proof.
  intros Hne Hlt Hm.
  pose proof (@SpliceFacts.moveEquipment_perm _ undefined index direction
                (equipmentIds line) Hne Hlt) as Hperm.
  split; [|split].
  - rewrite !calculate_as_sum. destruct (quantity <=? 0); [reflexivity|].
    cbn [Store.withEquipmentIds equipmentIds]. f_equal. now apply sumZ_perm.
  - now apply ExactFacts.within_computed.
  - apply ExactFacts.within_computed.
    now rewrite (ExactFacts.magnitude_perm product line quantity Hperm).
Qed.

Lemma reordering_equipment_keeps_durations_witness :
  calculateProductDurationOnLine Scenarios.twoStepProduct
    (Store.withEquipmentIds Scenarios.threeEquipmentLine
       (LineSetup.moveEquipment ""%string 2 LineSetup.up
          (equipmentIds Scenarios.threeEquipmentLine)))
    10
  = calculateProductDurationOnLine Scenarios.twoStepProduct Scenarios.threeEquipmentLine 10.
Proof.
  apply reordering_equipment_keeps_durations.
  - discriminate.
  - reflexivity.
  - vm_compute. discriminate.
Defined.

(** X27: The configurator never lists an equipment twice: adding an equipment
    taken from the available ones, removing one, and moving one within the
    sequence keep the ids distinct; a removed id is gone, and removing the
    id just added gives back the sequence. *)
Theorem configurator_keeps_ids_distinct
    (allEquipment : list Store.Equipment) (lineEquipmentIds : list string) :
  NoDup lineEquipmentIds ->
  (forall eq, In eq (LineSetup.availableEquipment allEquipment lineEquipmentIds) ->
     NoDup (LineSetup.addEquipmentToLine (Store.e_id eq) lineEquipmentIds)
     /\ LineSetup.removeEquipmentFromLine (Store.e_id eq)
          (LineSetup.addEquipmentToLine (Store.e_id eq) lineEquipmentIds)
        = lineEquipmentIds
     /\ ~ In eq (LineSetup.availableEquipment allEquipment
                   (LineSetup.addEquipmentToLine (Store.e_id eq) lineEquipmentIds)))
  /\ (forall equipmentId,
        NoDup (LineSetup.removeEquipmentFromLine equipmentId lineEquipmentIds)
        /\ ~ In equipmentId (LineSetup.removeEquipmentFromLine equipmentId lineEquipmentIds))
  /\ (forall undefined index direction,
        lineEquipmentIds <> [] -> index < Z.of_nat (List.length lineEquipmentIds) ->
        NoDup (LineSetup.moveEquipment undefined index direction lineEquipmentIds)).
Proof.
  intros Hnd. split; [|split].
  - intros eq Heq. unfold LineSetup.availableEquipment in Heq. apply filter_In in Heq.
    destruct Heq as [Hall Hnot]. apply negb_true_iff in Hnot.
    assert (Hni : ~ In (Store.e_id eq) lineEquipmentIds).
    { intros Hin. assert (existsb (String.eqb (Store.e_id eq)) lineEquipmentIds = true).
      { apply existsb_exists. exists (Store.e_id eq). split; [assumption|].
        apply String.eqb_refl. }
      congruence. }
    unfold LineSetup.addEquipmentToLine, LineSetup.removeEquipmentFromLine.
    split; [|split].
    + apply NoDup_app; [assumption | repeat constructor; intros [] |].
      intros x Hx [<-|[]]. contradiction.
    + rewrite filter_app. cbn [filter]. rewrite String.eqb_refl. cbn [negb].
      rewrite app_nil_r. induction lineEquipmentIds as [|x l IH]; [reflexivity|].
      cbn [filter]. destruct (String.eqb_spec x (Store.e_id eq)) as [E|E].
      * exfalso. apply Hni. now left.
      * cbn [negb]. f_equal. inversion Hnd; subst.
        apply IH; [assumption| |intros H; apply Hni; now right].
        destruct (existsb _ l) eqn:Ex; [|reflexivity]. cbn [existsb] in Hnot.
        rewrite Ex, orb_true_r in Hnot. discriminate.
    + unfold LineSetup.availableEquipment. intros H. apply filter_In in H.
      destruct H as [_ H]. apply negb_true_iff in H.
      rewrite existsb_app in H. cbn [existsb] in H.
      rewrite String.eqb_refl, orb_true_r in H. discriminate.
  - intros equipmentId. unfold LineSetup.removeEquipmentFromLine. split.
    + now apply NoDup_filter.
    + intros H. apply filter_In in H. destruct H as [_ H].
      rewrite String.eqb_refl in H. discriminate.
  - intros undefined index direction Hne Hlt.
    eapply Permutation_NoDup; [|exact Hnd]. symmetry.
    now apply SpliceFacts.moveEquipment_perm.
Qed.

Lemma configurator_keeps_ids_distinct_witness :
  NoDup (LineSetup.moveEquipment ""%string 1 LineSetup.down ["e1"; "e2"; "e3"]%string)
  /\ NoDup (LineSetup.removeEquipmentFromLine "e2" ["e1"; "e2"; "e3"]%string).
Proof.
  assert (H : NoDup ["e1"; "e2"; "e3"]%string).
  { repeat constructor; simpl; intuition discriminate. }
  destruct (@configurator_keeps_ids_distinct [] _ H) as (_ & H2 & H3).
  split.
  - apply H3; [discriminate | reflexivity].
  - apply H2.
Defined.

(** ** The summary of the operating hours *)

Module SummaryFacts.
Import LineSetup.

Lemma tod_eqb_eq a b : tod_eqb a b = true <-> a = b.
Proof.
  unfold tod_eqb. rewrite andb_true_iff, !N.eqb_eq. destruct a, b; cbn. split.
  - intros [-> ->]. reflexivity.
  - intros [= -> ->]. auto.
Qed.

Lemma continues_iff last next :
  continues last next = true
  <-> dayOfWeek next = dayOfWeek last + 1
      /\ oh_startTime next = oh_startTime last /\ oh_endTime next = oh_endTime last.
Proof.
  unfold continues. rewrite !andb_true_iff, Z.eqb_eq, !tod_eqb_eq. tauto.
Qed.

Lemma span_of_one (d : Z) (s e : TimeOfDay) :
  map (fun k => (d + Z.of_nat k, s, e)) (seq 0 (Z.to_nat 1)) = [(d, s, e)].
Proof. change (Z.to_nat 1) with 1%nat. cbn [seq map Z.of_nat]. now rewrite Z.add_0_r. Qed.

(** The part that a group gives, when its names exist. *)
Lemma summarize_spec rest : forall first last single seen parts,
  summarize first last single rest = Some parts ->
  oh_startTime last = oh_startTime first -> oh_endTime last = oh_endTime first ->
  dayOfWeek first <= dayOfWeek last ->
  (single = true -> dayOfWeek last = dayOfWeek first) ->
  (single = false -> dayOfWeek first < dayOfWeek last) ->
  map dayAndHours seen
  = map (fun k => (dayOfWeek first + Z.of_nat k, oh_startTime first, oh_endTime first))
        (seq 0 (Z.to_nat (dayOfWeek last - dayOfWeek first + 1))) ->
  flat_map expand parts = map dayAndHours (seen ++ rest)
  /\ parts <> []
  /\ maximal parts
  /\ (forall p, hd_error parts = Some p ->
        firstDayOf p = dayOfWeek first
        /\ hoursOf p = (oh_startTime first, oh_endTime first)
        /\ (rest = [] -> lastDayOf p = dayOfWeek last)).
Proof.
  induction rest as [|next rest IH]; intros first last single seen parts Hs T1 T2 Hle H1 H2 Hseen.
  - cbn [summarize] in Hs.
    destruct (hasName (dayOfWeek first) && hasName (dayOfWeek last)); [|discriminate].
    cbn [option_map] in Hs. injection Hs as <-. rewrite app_nil_r.
    cbn [flat_map maximal hd_error]. rewrite app_nil_r. rewrite Hseen.
    split; [|split; [discriminate|split; [exact I|]]].
    + destruct single; cbn [expand]; [|reflexivity].
      rewrite (H1 eq_refl). replace (dayOfWeek first - dayOfWeek first + 1) with 1 by lia.
      now rewrite span_of_one.
    + intros p [= <-]. destruct single; cbn; auto.
      split; [reflexivity|]. split; [reflexivity|]. intros _. symmetry. now apply H1.
  - cbn [summarize] in Hs. destruct (continues last next) eqn:Ec.
    + apply continues_iff in Ec. destruct Ec as (C1 & C2 & C3).
      destruct (IH first next false (seen ++ [next]) parts Hs) as (R1 & R2 & R3 & R4);
        try congruence; try lia.
      * rewrite map_app, Hseen. cbn [map].
        replace (Z.to_nat (dayOfWeek next - dayOfWeek first + 1))
          with (S (Z.to_nat (dayOfWeek last - dayOfWeek first + 1))) by lia.
        rewrite seq_S, map_app. cbn [map Nat.add]. f_equal. unfold dayAndHours.
        rewrite C2, C3, T1, T2. repeat f_equal. lia.
      * rewrite <- app_assoc in R1. split; [exact R1|]. split; [exact R2|].
        split; [exact R3|]. intros p Hp. destruct (R4 p Hp) as (Q1 & Q2 & _).
        split; [assumption|]. split; [assumption|]. discriminate.
    + destruct (hasName (dayOfWeek first) && hasName (dayOfWeek last)); [|discriminate].
      destruct (summarize next next true rest) as [ps|] eqn:Es; [|discriminate].
      injection Hs as <-.
      destruct (IH next next true [next] ps Es) as (R1 & R2 & R3 & R4);
        try reflexivity; try lia; try discriminate.
      * replace (dayOfWeek next - dayOfWeek next + 1) with 1 by lia.
        now rewrite span_of_one.
      * set (p := if single then _ else _).
        assert (Ep : expand p = map dayAndHours seen).
        { rewrite Hseen. subst p. destruct single; cbn [expand]; [|reflexivity].
          rewrite (H1 eq_refl). replace (dayOfWeek first - dayOfWeek first + 1) with 1 by lia.
          now rewrite span_of_one. }
        assert (Fp : firstDayOf p = dayOfWeek first
                     /\ lastDayOf p = dayOfWeek last
                     /\ hoursOf p = (oh_startTime first, oh_endTime first)).
        { subst p. destruct single; cbn; auto. split; [reflexivity|].
          split; [symmetry; now apply H1 | reflexivity]. }
        destruct Fp as (F1 & F2 & F3).
        split; [|split; [discriminate|split]].
        -- cbn [flat_map]. rewrite Ep, R1, !map_app. reflexivity.
        -- destruct ps as [|q ps']; [contradiction|]. cbn [maximal]. split; [|exact R3].
           destruct (R4 q eq_refl) as (Q1 & Q2 & _). rewrite Q1, Q2, F2, F3.
           intros [D1 D2]. injection D2 as D2 D3.
           assert (continues last next = true); [|congruence].
           apply continues_iff. split; [assumption|]. split; congruence.
        -- intros p0 [= <-]. split; [assumption|]. split; [assumption|]. discriminate.
Qed.

Lemma summarize_none rest : forall first last single,
  summarize first last single rest = None ->
  hasName (dayOfWeek first) = false \/ hasName (dayOfWeek last) = false
  \/ exists oh, In oh rest /\ hasName (dayOfWeek oh) = false.
Proof.
  induction rest as [|next rest IH]; intros first last single Hs; cbn [summarize] in Hs.
  - destruct (hasName (dayOfWeek first)) eqn:E1; [|now left].
    destruct (hasName (dayOfWeek last)) eqn:E2; [discriminate | right; now left].
  - destruct (continues last next).
    + destruct (IH _ _ _ Hs) as [H|[H|(oh & Hin & H)]]; [now left| |].
      * right. right. exists next. split; [now left | assumption].
      * right. right. exists oh. split; [now right | assumption].
    + destruct (hasName (dayOfWeek first)) eqn:E1; [|now left].
      destruct (hasName (dayOfWeek last)) eqn:E2; [|right; now left]. cbn [andb] in Hs.
      destruct (summarize next next true rest) eqn:Es; [discriminate|].
      destruct (IH _ _ _ Es) as [H|[H|(oh & Hin & H)]].
      * right. right. exists next. split; [now left | assumption].
      * right. right. exists next. split; [now left | assumption].
      * right. right. exists oh. split; [now right | assumption].
Qed.

End SummaryFacts.

(** X28: The summary of the operating hours loses nothing and groups as much
    as it can: expanding its parts, in order, gives back exactly the active
    days with their hours, and no part could have been joined to the next
    (the next does not start on the following day number with the same
    hours). *)
Theorem summary_expands_to_the_active_days
    (operatingHours : list OperatingDayTime) (parts : list LineSetup.SummaryPart) :
  LineSetup.formatOperatingHoursSummary operatingHours = Some (LineSetup.Parts parts) ->
  flat_map LineSetup.expand parts
  = map LineSetup.dayAndHours (filter isActive operatingHours)
  /\ LineSetup.maximal parts.
Proof.
  unfold LineSetup.formatOperatingHoursSummary.
  destruct (filter isActive operatingHours) as [|first rest]; [discriminate|].
  destruct (LineSetup.summarize first first true rest) as [[|p ps]|] eqn:Es; try discriminate.
  intros [= <-].
  destruct (@SummaryFacts.summarize_spec rest first first true [first] (p :: ps) Es)
    as (R1 & _ & R3 & _); try reflexivity; try lia; try discriminate.
  - replace (dayOfWeek first - dayOfWeek first + 1) with 1 by lia.
    now rewrite SummaryFacts.span_of_one.
  - split; [exact R1 | exact R3].
Qed.

Lemma summary_expands_to_the_active_days_witness :
  flat_map LineSetup.expand
    [LineSetup.DaySpan 1 5 (mkTimeOfDay 8 0) (mkTimeOfDay 17 0)]
  = map LineSetup.dayAndHours (filter isActive LineSetup.defaultOperatingHours).
Proof.
  apply (@summary_expands_to_the_active_days LineSetup.defaultOperatingHours
           [LineSetup.DaySpan 1 5 (mkTimeOfDay 8 0) (mkTimeOfDay 17 0)]).
  reflexivity.
Defined.

(** X29: The edges of the summary.  It reads "does not operate" exactly when
    no day is active; it fails exactly when a day number without a name is
    needed, which takes an active day outside 0..6; with all active days
    within 0..6 it always gives a text. *)
Theorem summary_of_hours_edge_cases (operatingHours : list OperatingDayTime) :
  (LineSetup.formatOperatingHoursSummary operatingHours = Some LineSetup.DoesNotOperate
   <-> filter isActive operatingHours = [])
  /\ (LineSetup.formatOperatingHoursSummary operatingHours = None ->
      exists oh, In oh operatingHours /\ isActive oh = true
                 /\ ~ 0 <= dayOfWeek oh <= 6)
  /\ ((forall oh, In oh operatingHours -> isActive oh = true -> 0 <= dayOfWeek oh <= 6) ->
      LineSetup.formatOperatingHoursSummary operatingHours <> None).
Proof.
  assert (Hnone : LineSetup.formatOperatingHoursSummary operatingHours = None ->
                  exists oh, In oh operatingHours /\ isActive oh = true
                             /\ ~ 0 <= dayOfWeek oh <= 6).
  { unfold LineSetup.formatOperatingHoursSummary.
    destruct (filter isActive operatingHours) as [|first rest] eqn:Ef; [discriminate|].
    destruct (LineSetup.summarize first first true rest) as [[|p ps]|] eqn:Es;
      try discriminate.
    intros _.
    assert (Hbad : exists oh, In oh (first :: rest) /\ LineSetup.hasName (dayOfWeek oh) = false).
    { destruct (SummaryFacts.summarize_none _ _ _ _ Es) as [H|[H|(oh & Hin & H)]].
      - exists first. split; [now left | assumption].
      - exists first. split; [now left | assumption].
      - exists oh. split; [now right | assumption]. }
    destruct Hbad as (oh & Hin & Hn). rewrite <- Ef in Hin. apply filter_In in Hin.
    exists oh. split; [tauto|]. split; [tauto|].
    unfold LineSetup.hasName in Hn. apply andb_false_iff in Hn.
    rewrite !Z.leb_gt in Hn. lia. }
  split; [|split; [exact Hnone|]].
  - unfold LineSetup.formatOperatingHoursSummary.
    destruct (filter isActive operatingHours) as [|first rest]; [tauto|].
    split; [|discriminate].
    destruct (LineSetup.summarize first first true rest) as [[|p ps]|] eqn:Es;
      try discriminate.
    exfalso.
    destruct (@SummaryFacts.summarize_spec rest first first true [first] [] Es)
      as (_ & R2 & _); try reflexivity; try lia; try discriminate; try (now apply R2).
    replace (dayOfWeek first - dayOfWeek first + 1) with 1 by lia.
    now rewrite SummaryFacts.span_of_one.
  - intros Hall Hn. destruct (Hnone Hn) as (oh & H1 & H2 & H3). apply H3. now apply Hall.
Qed.
